(** * ZWO AM mount driver: command channel, command set and poll loop

    A shallow embedding of [indigo_drivers/mount_asi/indigo_mount_asi.c].

    - The serial/network link behind [PRIVATE_DATA->handle] is a script of
      what successive [select]/[read] pairs observe, a script of the results
      of successive [indigo_write] calls, and the log of the commands handed
      to [indigo_write].
    - [int], [time_t] are [Z] (C leaves signed overflow undefined; the model
      is exact wherever the C program is defined).  A [double] is the
      rational [Q] it stands for; where the driver computes with doubles
      (the longitude complement of [asi_set_site] and [asi_get_site], the
      guide rate of [asi_set_guide_rate]) every operation rounds to 53 bits,
      ties to even, the [float] of the guide rate to 24.  The exponent range
      is not modelled: no overflow, no subnormals.
    - [char] buffers are [string]s of the bytes stored; C string functions
      see them up to the first NUL.  [char] is signed, as the test [c < 0]
      of [asi_command] presumes: a byte is negative when its high bit is
      set.  Every response buffer is a [char response[128]] of its caller:
      [asi_command] is modelled where its terminator falls inside that
      array, that is while fewer than 128 bytes are stored.  What a caller
      reads in a buffer that a failed exchange left unwritten or without
      terminator is not the program's to decide, and is a parameter.
    - The driver functions take the device and return the device: explicit
      state passing, with out-parameters turned into results. *)

From Stdlib Require Import ZArith QArith Qround Qabs Qpower String Ascii List Bool Lia Lqa.
From Stdlib Require Import DecimalString.
From Stdlib Require DecimalPos DecimalN.
Import ListNotations.

Local Open Scope string_scope.
Local Open Scope Z_scope.

(* ------------------------------------------------------------------ *)
(** ** C strings and characters *)

Definition NUL : ascii := "000"%char.

(** [c < 0] for a (signed) [char]: the byte has its high bit set. *)
Definition char_negative (c : ascii) : bool :=
  (128 <=? Z.of_N (N_of_ascii c)).

(** The C string a buffer holds: the bytes before the first NUL. *)
Fixpoint cstr (s : string) : string :=
  match s with
  | EmptyString => EmptyString
  | String c r => if Ascii.eqb c NUL then EmptyString else String c (cstr r)
  end.

(** [*response] *)
Definition deref (s : string) : ascii :=
  match s with
  | EmptyString => NUL
  | String c _ => c
  end.

(** [strchr(s, c) != NULL], for [c] other than NUL. *)
Fixpoint strchr (s : string) (c : ascii) : bool :=
  match s with
  | EmptyString => false
  | String a r =>
      if Ascii.eqb a NUL then false
      else if Ascii.eqb a c then true
      else strchr r c
  end.

Definition isspace (c : ascii) : bool :=
  let n := Z.of_N (N_of_ascii c) in
  (n =? 32) || ((9 <=? n) && (n <=? 13)).

Definition isdigit (c : ascii) : bool :=
  let n := Z.of_N (N_of_ascii c) in
  (48 <=? n) && (n <=? 57).

Fixpoint skip_space (s : string) : string :=
  match s with
  | String c r => if isspace c then skip_space r else s
  | EmptyString => s
  end.

Fixpoint scan_digits (s : string) (acc : Z) : Z * string :=
  match s with
  | String c r =>
      if isdigit c
      then scan_digits r (10 * acc + (Z.of_N (N_of_ascii c) - 48))
      else (acc, s)
  | EmptyString => (acc, s)
  end.

(** The [%d] conversion of [sscanf]: leading white space, an optional sign,
    one digit at least.  [None] is a matching failure. *)
Definition scan_d (s : string) : option (Z * string) :=
  let s := skip_space s in
  let '(neg, s) :=
    match s with
    | String "-"%char r => (true, r)
    | String "+"%char r => (false, r)
    | _ => (false, s)
    end in
  match s with
  | String c _ =>
      if isdigit c
      then let '(n, r) := scan_digits s 0 in Some (if neg then - n else n, r)
      else None
  | EmptyString => None
  end.

(** The [%c] conversion: the next character, whatever it is. *)
Definition scan_c (s : string) : option (ascii * string) :=
  match s with
  | String c r => Some (c, r)
  | EmptyString => None
  end.

(** [sscanf(s, "%d%c%d%c%d", ...) == 5], with the three numbers. *)
Definition sscanf_dcdcd (s : string) : option (Z * Z * Z) :=
  match scan_d (cstr s) with
  | None => None
  | Some (a, s) =>
      match scan_c s with
      | None => None
      | Some (_, s) =>
          match scan_d s with
          | None => None
          | Some (b, s) =>
              match scan_c s with
              | None => None
              | Some (_, s) =>
                  match scan_d s with
                  | None => None
                  | Some (c, _) => Some (a, b, c)
                  end
              end
          end
      end
  end.

Definition atoi (s : string) : Z :=
  match scan_d (cstr s) with
  | Some (n, _) => n
  | None => 0
  end.

(** *** [sprintf] conversions *)

Fixpoint zeros (n : nat) : string :=
  match n with
  | O => EmptyString
  | S n => String "0"%char (zeros n)
  end.

(** [%d], [%0<width>d] and [%+0<width>d]: the sign first, then zeros up to
    the field width, then the digits. *)
Definition sprintf_d (plus : bool) (width : nat) (n : Z) : string :=
  let digits := NilZero.string_of_uint (N.to_uint (Z.to_N (Z.abs n))) in
  let sign := if n <? 0 then "-" else if plus then "+" else EmptyString in
  sign ++ zeros (width - String.length sign - String.length digits) ++ digits.

(* ------------------------------------------------------------------ *)
(** ** Numbers *)

Definition Qltb (x y : Q) : bool := negb (Qle_bool y x).

(** Truncation toward zero, and C's [fmod], whose result is exact. *)
Definition Qtrunc (x : Q) : Z := Z.quot (Qnum x) (Z.pos (Qden x)).

Definition fmod (x y : Q) : Q := (x - inject_Z (Qtrunc (x / y)) * y)%Q.

(** Round to the nearest integer, ties to even. *)
Definition round_half_even (x : Q) : Z :=
  let f := Qfloor x in
  match ((x - inject_Z f) ?= (1 # 2))%Q with
  | Lt => f
  | Gt => f + 1
  | Eq => if Z.even f then f else f + 1
  end.

(** Round a positive rational to [p] significant bits, ties to even.  The
    exponent range is not modelled: the values rounded are guide rates
    between 1/10 and 2^31/100 and longitudes, far from overflow, and what
    would be subnormal keeps [p] bits. *)
Definition round_binary (p : Z) (x : Q) : Q :=
  if Qle_bool x 0 then x
  else
    let e0 := Z.log2 (Qnum x) - Z.log2 (Z.pos (Qden x)) in
    let e := if Qle_bool (Qpower 2 e0) x then e0 else e0 - 1 in
    let ulp := Qpower 2 (e - p + 1) in
    (inject_Z (round_half_even (x / ulp)) * ulp)%Q.

Definition to_double (x : Q) : Q := round_binary 53 x.
Definition to_float (x : Q) : Q := round_binary 24 x.

(** The result of a [double] operation whose exact value is [x], of either
    sign: rounding is symmetric about zero. *)
Definition round_double (x : Q) : Q :=
  if Qltb x 0 then (- to_double (- x))%Q else to_double x.

(** The exponent [round_binary] gives a positive [x]: the [e] with
    [2^e <= x < 2^(e+1)]. *)
Definition binade (x : Q) : Z :=
  let e0 := Z.log2 (Qnum x) - Z.log2 (Z.pos (Qden x)) in
  if Qle_bool (Qpower 2 e0) x then e0 else e0 - 1.

(** [%.1f]: the exact value rounded to one decimal, ties to even. *)
Definition sprintf_1f (x : Q) : string :=
  let t := round_half_even (Qabs x * 10)%Q in
  (if Qltb x 0 then "-" else EmptyString)
  ++ sprintf_d false 0 (t / 10) ++ "." ++ sprintf_d false 0 (t mod 10).

(* ------------------------------------------------------------------ *)
(** ** Calendar *)

Record tm := {
  tm_sec : Z; tm_min : Z; tm_hour : Z;
  tm_mday : Z; tm_mon : Z; tm_year : Z;
  tm_isdst : Z; tm_gmtoff : Z
}.

(** [memset(&tm, 0, sizeof(tm))] *)
Definition tm_zero : tm :=
  {| tm_sec := 0; tm_min := 0; tm_hour := 0; tm_mday := 0; tm_mon := 0;
     tm_year := 0; tm_isdst := 0; tm_gmtoff := 0 |}.

(** libc's [gmtime_r]: seconds since 1970-01-01T00:00:00Z to broken-down
    UTC in the proleptic Gregorian calendar (days are counted from
    0000-03-01 in 400-year eras). *)
Definition gmtime_r (seconds : Z) : tm :=
  let days := seconds / 86400 in
  let rem := seconds mod 86400 in
  let z := days + 719468 in
  let era := z / 146097 in
  let doe := z - era * 146097 in
  let yoe := (doe - doe / 1460 + doe / 36524 - doe / 146096) / 365 in
  let doy := doe - (365 * yoe + yoe / 4 - yoe / 100) in
  let mp := (5 * doy + 2) / 153 in
  let d := doy - (153 * mp + 2) / 5 + 1 in
  let m := if mp <? 10 then mp + 3 else mp - 9 in
  let y := yoe + era * 400 + (if m <=? 2 then 1 else 0) in
  {| tm_sec := rem mod 60; tm_min := (rem / 60) mod 60; tm_hour := rem / 3600;
     tm_mday := d; tm_mon := m - 1; tm_year := y - 1900;
     tm_isdst := 0; tm_gmtoff := 0 |}.

(* ------------------------------------------------------------------ *)
(** ** Link *)

(** What one [select] on the handle, and the [read] that follows a ready
    [select], observe. *)
Inductive rx_event :=
| RxByte (c : ascii)   (* select > 0, read delivers one byte *)
| RxQuiet              (* select = 0: timed out *)
| RxSelErr             (* select < 0 *)
| RxReadErr.           (* select > 0, read < 1 *)

Record link := {
  rx : list rx_event;    (* to come; a link with nothing left stays quiet *)
  wr : list bool;        (* results of the writes to come; then success *)
  wire : list string     (* commands handed to indigo_write, oldest first *)
}.

Definition set_rx (l : link) (evs : list rx_event) : link :=
  {| rx := evs; wr := wr l; wire := wire l |}.

Definition indigo_write (l : link) (command : string) : bool * link :=
  match wr l with
  | [] => (true, {| rx := rx l; wr := []; wire := (wire l ++ [command])%list |})
  | ok :: w => (ok, {| rx := rx l; wr := w; wire := (wire l ++ [command])%list |})
  end.

(** The flush loop of [asi_command]: discard what is readable until a
    [select] times out; [false] when [select] or [read] fails. *)
Fixpoint drain (evs : list rx_event) : bool * list rx_event :=
  match evs with
  | [] => (true, [])
  | RxQuiet :: evs => (true, evs)
  | RxSelErr :: evs => (false, evs)
  | RxReadErr :: evs => (false, evs)
  | RxByte _ :: evs => drain evs
  end.

(** [if (c < 0) c = ':';] *)
Definition stored_for (c : ascii) : ascii :=
  if char_negative c then ":"%char else c.

(** The response loop of [asi_command], [room] being [max - index]:
    the bytes stored, and [false] when a [read] fails. *)
Fixpoint collect (room : nat) (evs : list rx_event) : bool * string * list rx_event :=
  match room with
  | O => (true, EmptyString, evs)
  | S room =>
      match evs with
      | [] => (true, EmptyString, [])
      | RxQuiet :: evs => (true, EmptyString, evs)
      | RxSelErr :: evs => (true, EmptyString, evs)
      | RxReadErr :: evs => (false, EmptyString, evs)
      | RxByte c :: evs =>
          let c := stored_for c in
          if Ascii.eqb c "#"%char then (true, EmptyString, evs)
          else
            let '(ok, stored, evs) := collect room evs in
            (ok, String c stored, evs)
      end
  end.

(* ------------------------------------------------------------------ *)
(** ** Device *)

Inductive indigo_property_state :=
| INDIGO_IDLE_STATE
| INDIGO_OK_STATE
| INDIGO_BUSY_STATE
| INDIGO_ALERT_STATE.

Inductive property :=
| MOUNT_EQUATORIAL_COORDINATES_PROPERTY
| MOUNT_TRACKING_PROPERTY
| MOUNT_HOME_PROPERTY
| MOUNT_SIDE_OF_PIER_PROPERTY
| MOUNT_UTC_TIME_PROPERTY
| MOUNT_MOTION_DEC_PROPERTY
| MOUNT_MOTION_RA_PROPERTY
| MOUNT_GEOGRAPHIC_COORDINATES_PROPERTY.

Inductive switch_item :=
| MOUNT_MOTION_NORTH_ITEM
| MOUNT_MOTION_SOUTH_ITEM
| MOUNT_MOTION_WEST_ITEM
| MOUNT_MOTION_EAST_ITEM
| MOUNT_TRACKING_ON_ITEM
| MOUNT_TRACKING_OFF_ITEM
| MOUNT_HOME_ITEM
| MOUNT_SIDE_OF_PIER_WEST_ITEM
| MOUNT_SIDE_OF_PIER_EAST_ITEM.

Inductive number_item :=
| MOUNT_EQUATORIAL_COORDINATES_RA_ITEM
| MOUNT_EQUATORIAL_COORDINATES_DEC_ITEM
| MOUNT_EPOCH_ITEM
| MOUNT_GEOGRAPHIC_COORDINATES_LATITUDE_ITEM
| MOUNT_GEOGRAPHIC_COORDINATES_LONGITUDE_ITEM.

Inductive text_item :=
| MOUNT_UTC_ITEM
| MOUNT_UTC_OFFSET_ITEM.

Scheme Equality for indigo_property_state.
Scheme Equality for property.
Scheme Equality for switch_item.
Scheme Equality for number_item.
Scheme Equality for text_item.

(** [asi_private_data] and the items of the device's properties that the
    driver reads and writes. *)
Record indigo_device := {
  port : link;                          (* the stream behind PRIVATE_DATA->handle *)
  handle : Z;
  lastMotionNS : ascii;
  lastMotionWE : ascii;
  lastRA : Q;
  lastDec : Q;
  use_dst_commands : bool;
  prev_home_state : bool;
  sw : switch_item -> bool;             (* item->sw.value *)
  number : number_item -> Q;            (* item->number.value *)
  text : text_item -> string;           (* item->text.value *)
  state : property -> indigo_property_state;
  position_timer : option Q;            (* delay in seconds of the pending tick *)
  published : list (property * option string)  (* updates sent to the clients *)
}.

Definition set_port (d : indigo_device) (l : link) : indigo_device :=
  {| port := l; handle := handle d; lastMotionNS := lastMotionNS d;
     lastMotionWE := lastMotionWE d; lastRA := lastRA d; lastDec := lastDec d;
     use_dst_commands := use_dst_commands d; prev_home_state := prev_home_state d;
     sw := sw d; number := number d; text := text d; state := state d;
     position_timer := position_timer d; published := published d |}.

Definition set_lastMotionNS (d : indigo_device) (c : ascii) : indigo_device :=
  {| port := port d; handle := handle d; lastMotionNS := c;
     lastMotionWE := lastMotionWE d; lastRA := lastRA d; lastDec := lastDec d;
     use_dst_commands := use_dst_commands d; prev_home_state := prev_home_state d;
     sw := sw d; number := number d; text := text d; state := state d;
     position_timer := position_timer d; published := published d |}.

Definition set_lastMotionWE (d : indigo_device) (c : ascii) : indigo_device :=
  {| port := port d; handle := handle d; lastMotionNS := lastMotionNS d;
     lastMotionWE := c; lastRA := lastRA d; lastDec := lastDec d;
     use_dst_commands := use_dst_commands d; prev_home_state := prev_home_state d;
     sw := sw d; number := number d; text := text d; state := state d;
     position_timer := position_timer d; published := published d |}.

Definition set_last_coordinates (d : indigo_device) (ra dec : Q) : indigo_device :=
  {| port := port d; handle := handle d; lastMotionNS := lastMotionNS d;
     lastMotionWE := lastMotionWE d; lastRA := ra; lastDec := dec;
     use_dst_commands := use_dst_commands d; prev_home_state := prev_home_state d;
     sw := sw d; number := number d; text := text d; state := state d;
     position_timer := position_timer d; published := published d |}.

Definition set_prev_home_state (d : indigo_device) (b : bool) : indigo_device :=
  {| port := port d; handle := handle d; lastMotionNS := lastMotionNS d;
     lastMotionWE := lastMotionWE d; lastRA := lastRA d; lastDec := lastDec d;
     use_dst_commands := use_dst_commands d; prev_home_state := b;
     sw := sw d; number := number d; text := text d; state := state d;
     position_timer := position_timer d; published := published d |}.

Definition set_sw (d : indigo_device) (i : switch_item) (v : bool) : indigo_device :=
  {| port := port d; handle := handle d; lastMotionNS := lastMotionNS d;
     lastMotionWE := lastMotionWE d; lastRA := lastRA d; lastDec := lastDec d;
     use_dst_commands := use_dst_commands d; prev_home_state := prev_home_state d;
     sw := fun j => if switch_item_beq j i then v else sw d j;
     number := number d; text := text d; state := state d;
     position_timer := position_timer d; published := published d |}.

Definition set_number (d : indigo_device) (i : number_item) (v : Q) : indigo_device :=
  {| port := port d; handle := handle d; lastMotionNS := lastMotionNS d;
     lastMotionWE := lastMotionWE d; lastRA := lastRA d; lastDec := lastDec d;
     use_dst_commands := use_dst_commands d; prev_home_state := prev_home_state d;
     sw := sw d;
     number := fun j => if number_item_beq j i then v else number d j;
     text := text d; state := state d;
     position_timer := position_timer d; published := published d |}.

Definition set_text (d : indigo_device) (i : text_item) (v : string) : indigo_device :=
  {| port := port d; handle := handle d; lastMotionNS := lastMotionNS d;
     lastMotionWE := lastMotionWE d; lastRA := lastRA d; lastDec := lastDec d;
     use_dst_commands := use_dst_commands d; prev_home_state := prev_home_state d;
     sw := sw d; number := number d;
     text := fun j => if text_item_beq j i then v else text d j;
     state := state d;
     position_timer := position_timer d; published := published d |}.

Definition set_state (d : indigo_device) (p : property) (s : indigo_property_state) : indigo_device :=
  {| port := port d; handle := handle d; lastMotionNS := lastMotionNS d;
     lastMotionWE := lastMotionWE d; lastRA := lastRA d; lastDec := lastDec d;
     use_dst_commands := use_dst_commands d; prev_home_state := prev_home_state d;
     sw := sw d; number := number d; text := text d;
     state := fun q => if property_beq q p then s else state d q;
     position_timer := position_timer d; published := published d |}.

(** [indigo_update_property(device, property, message)], and
    [indigo_update_coordinates], which publishes the equatorial
    coordinates: the update goes out to the clients. *)
Definition indigo_update_property (d : indigo_device) (p : property) (message : option string) : indigo_device :=
  {| port := port d; handle := handle d; lastMotionNS := lastMotionNS d;
     lastMotionWE := lastMotionWE d; lastRA := lastRA d; lastDec := lastDec d;
     use_dst_commands := use_dst_commands d; prev_home_state := prev_home_state d;
     sw := sw d; number := number d; text := text d; state := state d;
     position_timer := position_timer d;
     published := (published d ++ [(p, message)])%list |}.

Definition indigo_update_coordinates (d : indigo_device) (message : option string) : indigo_device :=
  indigo_update_property d MOUNT_EQUATORIAL_COORDINATES_PROPERTY message.

(** [indigo_reschedule_timer(device, delay, &PRIVATE_DATA->position_timer)] *)
Definition indigo_reschedule_timer (d : indigo_device) (delay : Q) : indigo_device :=
  {| port := port d; handle := handle d; lastMotionNS := lastMotionNS d;
     lastMotionWE := lastMotionWE d; lastRA := lastRA d; lastDec := lastDec d;
     use_dst_commands := use_dst_commands d; prev_home_state := prev_home_state d;
     sw := sw d; number := number d; text := text d; state := state d;
     position_timer := Some delay; published := published d |}.

Definition items_of (p : property) : list switch_item :=
  match p with
  | MOUNT_TRACKING_PROPERTY => [MOUNT_TRACKING_ON_ITEM; MOUNT_TRACKING_OFF_ITEM]
  | MOUNT_HOME_PROPERTY => [MOUNT_HOME_ITEM]
  | MOUNT_SIDE_OF_PIER_PROPERTY => [MOUNT_SIDE_OF_PIER_WEST_ITEM; MOUNT_SIDE_OF_PIER_EAST_ITEM]
  | MOUNT_MOTION_DEC_PROPERTY => [MOUNT_MOTION_NORTH_ITEM; MOUNT_MOTION_SOUTH_ITEM]
  | MOUNT_MOTION_RA_PROPERTY => [MOUNT_MOTION_WEST_ITEM; MOUNT_MOTION_EAST_ITEM]
  | _ => []
  end.

(** Modelled from the spec: [indigo_set_switch] belongs to the host
    framework's property model, which is not part of this driver's source.
    Section 3 has the tracking and pier-side items mutually exclusive within
    their property, so switching an item on switches the other items of the
    property off; switching an item off touches that item only. *)
Definition indigo_set_switch (d : indigo_device) (p : property) (i : switch_item) (value : bool) : indigo_device :=
  let d := if value
           then fold_left (fun d j => set_sw d j false) (items_of p) d
           else d in
  set_sw d i value.

(* ------------------------------------------------------------------ *)
(** ** Channel *)

(** The [response] argument of [asi_command]: [NULL] or the caller's buffer,
    which is a [char response[128]] in every caller. *)
Inductive buffer := NULL | BUFFER.

Definition sizeof_response : Z := 128.

(** [asi_command(device, command, response, max, sleep)]: the result and the
    bytes stored in [response].  The port mutex and the sleep leave no trace
    in a sequential run; the first [select] of the response loop waits 3.1 s
    and the later ones 0.1 s, which the link's script does not tell apart.
    When [read] fails the buffer is left without its terminator; the model
    hands back the bytes stored until then.  After [max] bytes without a
    terminator the C function writes [response[max] = 0]: that is inside the
    caller's array for [max < sizeof_response] only, and the model is the C
    function as long as fewer than [sizeof_response] bytes are stored. *)
Definition asi_command (device : indigo_device) (command : string) (response : buffer)
    (max sleep : Z) : bool * string * indigo_device :=
  (* flush *)
  let '(flushed, evs) := drain (rx (port device)) in
  if negb flushed then (false, EmptyString, set_port device (set_rx (port device) evs))
  else
    (* write command *)
    let '(_, l) := indigo_write (set_rx (port device) evs) command in
    (* read response *)
    match response with
    | NULL => (true, EmptyString, set_port device l)
    | BUFFER =>
        let '(ok, stored, evs) := collect (Z.to_nat max) (rx l) in
        (ok, stored, set_port device (set_rx l evs))
    end.

(** The commands written between two states of the device. *)
Definition issued (before after : indigo_device) : list string :=
  skipn (List.length (wire (port before))) (wire (port after)).

(* ------------------------------------------------------------------ *)
(** ** Host functions

    Functions of the framework library and of libc that the driver calls and
    whose code is not the driver's: the sexagesimal codec, the epoch
    conversion, the time conversions that depend on the time zone, and the
    global [daylight].  With them, what the program does not decide:
    [unterminated device stored] is what a C string function reads in a
    [response] array that a failed [asi_command] left as it found it, never
    initialised, but for the bytes [stored] at its start. *)
Class Host := {
  indigo_dtos : Q -> string -> string;
  indigo_stod : string -> Q;
  indigo_eq_to_j2k : Q -> Q * Q -> Q * Q;
  indigo_timetoisogm : Z -> string;
  mktime : tm -> Z;
  daylight : Z;
  unterminated : indigo_device -> string -> string
}.

(* ------------------------------------------------------------------ *)
(** ** Mount commands *)

Definition asi_error_string (code : Z) : string :=
  let error_string :=
    [ EmptyString;
      "Prameters out of range";
      "Format error";
      "Mount not initialized";
      "Mount is Moving";
      "Target is below horizon";
      "Target is beow the altitude limit";
      "Time and location is not set";
      "Unkonwn error" ] in
  let code := code mod 2 ^ 32 in          (* unsigned int code *)
  let code := if code >? 8 then 0 else code in
  nth (Z.to_nat code) error_string EmptyString.

(** [sscanf(response, "e%d", &error_code)] *)
Definition asi_error_code (response : string) : Z :=
  match cstr response with
  | String "e"%char r =>
      match scan_d r with
      | Some (error_code, _) => error_code
      | None => 0
      end
  | _ => 0
  end.

Definition accepted (result : bool) (response : string) (byte : ascii) : bool :=
  result && Ascii.eqb (deref response) byte.

(** The commands of [asi_set_utc], as its [sprintf] calls build them. *)
Definition set_date_command (tm : tm) : string :=
  ":SC" ++ sprintf_d false 2 (tm_mon tm + 1) ++ "/"
  ++ sprintf_d false 2 (tm_mday tm) ++ "/"
  ++ sprintf_d false 2 (Z.rem (tm_year tm) 100) ++ "#".

Definition set_dst_command (daylight : Z) : string :=
  ":SH" ++ sprintf_d false 0 daylight ++ "#".

Definition set_offset_command (utc_offset : Z) : string :=
  ":SG" ++ sprintf_d true 3 (- utc_offset) ++ "#".

Definition set_time_command (tm : tm) : string :=
  ":SL" ++ sprintf_d false 2 (tm_hour tm) ++ ":"
  ++ sprintf_d false 2 (tm_min tm) ++ ":"
  ++ sprintf_d false 2 (tm_sec tm) ++ "#".

Section Commands.
Context `{Host}.

Definition asi_set_utc (device : indigo_device) (secs utc_offset : Z) : bool * indigo_device :=
  let seconds := secs + utc_offset * 3600 in
  let tm := gmtime_r seconds in
  let command := set_date_command tm in
  let '(result, response, device) := asi_command device command BUFFER 1 0 in
  if negb (accepted result response "1") then (false, device)
  else
    let device :=
      if use_dst_commands device
      then snd (asi_command device (set_dst_command daylight) NULL 0 0)
      else device in
    let command := set_offset_command utc_offset in
    let '(result, response, device) := asi_command device command BUFFER 1 0 in
    if negb (accepted result response "1") then (false, device)
    else
      let command := set_time_command tm in
      let '(result, response, device) := asi_command device command BUFFER 1 0 in
      if negb (accepted result response "1") then (false, device)
      else (true, device).

(** [secs] and [utc_offset] come back as they went in when the call fails
    before assigning them. *)
Definition asi_get_utc (device : indigo_device) (secs utc_offset : Z) : bool * Z * Z * indigo_device :=
  let '(result, response, device) := asi_command device ":GC#" BUFFER 128 0 in
  match (if result then sscanf_dcdcd response else None) with
  | None => (false, secs, utc_offset, device)
  | Some (mon, mday, year) =>
      let '(result, response, device) := asi_command device ":GL#" BUFFER 128 0 in
      match (if result then sscanf_dcdcd response else None) with
      | None => (false, secs, utc_offset, device)
      | Some (hour, min, sec) =>
          let year := year + 100 in
          let mon := mon - 1 in
          let '(result, response, device) := asi_command device ":GG#" BUFFER 128 0 in
          if result then
            let utc_offset := - atoi response in
            let gmtoff := utc_offset * 3600 in
            let '(isdst, device) :=
              if use_dst_commands device
              then
                let '(result, response, device) := asi_command device ":GH#" BUFFER 128 0 in
                (if result then atoi response else 0, device)
              else (daylight, device) in
            let tm := {| tm_sec := sec; tm_min := min; tm_hour := hour;
                         tm_mday := mday; tm_mon := mon; tm_year := year;
                         tm_isdst := isdst; tm_gmtoff := gmtoff |} in
            (true, mktime tm, utc_offset, device)
          else (false, secs, utc_offset, device)
      end
  end.

Definition asi_get_site (device : indigo_device) (latitude longitude : Q) : Q * Q * indigo_device :=
  let '(result, response, device) := asi_command device ":Gt#" BUFFER 128 0 in
  let latitude := if result then indigo_stod response else latitude in
  let '(result, response, device) := asi_command device ":Gg#" BUFFER 128 0 in
  let longitude :=
    if result
    then
      let longitude := indigo_stod response in
      let longitude :=
        if Qltb longitude 0 then round_double (longitude + 360) else longitude in
      round_double (360 - longitude)
    else longitude in
  (latitude, longitude, device).

Definition set_latitude_command (latitude : Q) : string :=
  ":St" ++ indigo_dtos latitude "%+03d*%02d" ++ "#".

Definition set_longitude_command (longitude : Q) : string :=
  ":Sg" ++ indigo_dtos longitude "%03d*%02d" ++ "#".

Definition asi_set_site (device : indigo_device) (latitude longitude : Q) : bool * indigo_device :=
  let longitude := if Qltb longitude 0 then round_double (longitude + 360) else longitude in
  let command := set_latitude_command latitude in
  let '(result, response, device) := asi_command device command BUFFER 1 0 in
  if negb (accepted result response "1") then (false, device)
  else
    (* the inner declaration hides the parameter *)
    let longitude :=
      fmod (round_double (360 - number device MOUNT_GEOGRAPHIC_COORDINATES_LONGITUDE_ITEM)) 360 in
    let command := set_longitude_command longitude in
    let '(result, response, device) := asi_command device command BUFFER 1 0 in
    if negb (accepted result response "1") then (false, device)
    else (true, device).

Definition asi_get_coordinates (device : indigo_device) (ra dec : Q) : bool * Q * Q * indigo_device :=
  let '(result, response, device) := asi_command device ":GR#" BUFFER 128 0 in
  if result then
    let ra := indigo_stod response in
    let '(result, response, device) := asi_command device ":GD#" BUFFER 128 0 in
    if result then (true, ra, indigo_stod response, device)
    else (false, ra, dec, device)
  else (false, ra, dec, device).

Definition target_ra_command (ra : Q) : string :=
  ":Sr" ++ indigo_dtos ra "%02d:%02d:%02.0f" ++ "#".

Definition target_dec_command (dec : Q) : string :=
  ":Sd" ++ indigo_dtos dec "%+03d*%02d:%02.0f" ++ "#".

(** The [response] array as the caller reads it after [asi_command]: the
    C string stored, or, when the call failed, an array that was never
    terminated. *)
Definition response_read (result : bool) (response : string) (device : indigo_device) : string :=
  if result then response else unterminated device response.

(** [*error_code] is assigned on every path: the code read in the reply of
    the failing exchange, or 0 on success. *)
Definition asi_slew (device : indigo_device) (ra dec : Q) : bool * Z * indigo_device :=
  let command := target_ra_command ra in
  let '(result, response, device) := asi_command device command BUFFER 128 0 in
  if negb (accepted result response "1")
  then (false, asi_error_code (response_read result response device), device)
  else
    let command := target_dec_command dec in
    let '(result, response, device) := asi_command device command BUFFER 128 0 in
    if negb (accepted result response "1")
    then (false, asi_error_code (response_read result response device), device)
    else
      let '(result, response, device) := asi_command device ":MS#" BUFFER 128 100000 in
      if negb (accepted result response "0")
      then (false, asi_error_code (response_read result response device), device)
      else (true, 0, device).

End Commands.

Definition asi_set_guide_rate (device : indigo_device) (ra dec : Z) : bool * indigo_device :=
  let ra := if ra <? 10 then 10 else ra in
  let ra := if dec >? 90 then 90 else ra in
  let rate := to_float (to_double (inject_Z ra / 100)) in
  let command := ":Rg" ++ sprintf_1f rate ++ "#" in
  let '(result, _, device) := asi_command device command NULL 0 0 in
  (result, device).

Definition asi_motion_dec (device : indigo_device) : bool * indigo_device :=
  let '(stopped, device) :=
    if Ascii.eqb (lastMotionNS device) "n" then
      let '(result, _, device) := asi_command device ":Qn#" NULL 0 0 in (result, device)
    else if Ascii.eqb (lastMotionNS device) "s" then
      let '(result, _, device) := asi_command device ":Qs#" NULL 0 0 in (result, device)
    else (true, device) in
  if stopped then
    if sw device MOUNT_MOTION_NORTH_ITEM then
      let device := set_lastMotionNS device "n" in
      let '(result, _, device) := asi_command device ":Mn#" NULL 0 0 in (result, device)
    else if sw device MOUNT_MOTION_SOUTH_ITEM then
      let device := set_lastMotionNS device "s" in
      let '(result, _, device) := asi_command device ":Ms#" NULL 0 0 in (result, device)
    else (stopped, set_lastMotionNS device NUL)
  else (stopped, device).

Definition asi_motion_ra (device : indigo_device) : bool * indigo_device :=
  let '(stopped, device) :=
    if Ascii.eqb (lastMotionWE device) "w" then
      let '(result, _, device) := asi_command device ":Qw#" NULL 0 0 in (result, device)
    else if Ascii.eqb (lastMotionWE device) "e" then
      let '(result, _, device) := asi_command device ":Qe#" NULL 0 0 in (result, device)
    else (true, device) in
  if stopped then
    if sw device MOUNT_MOTION_WEST_ITEM then
      let device := set_lastMotionWE device "w" in
      let '(result, _, device) := asi_command device ":Mw#" NULL 0 0 in (result, device)
    else if sw device MOUNT_MOTION_EAST_ITEM then
      let device := set_lastMotionWE device "e" in
      let '(result, _, device) := asi_command device ":Me#" NULL 0 0 in (result, device)
    else (stopped, set_lastMotionWE device NUL)
  else (stopped, device).

Definition asi_guide_dec (device : indigo_device) (north south : Z) : bool * indigo_device :=
  if north >? 0 then
    let command := ":Mgn" ++ sprintf_d false 4 north ++ "#" in
    let '(result, _, device) := asi_command device command NULL 0 0 in (result, device)
  else if south >? 0 then
    let command := ":Mgs" ++ sprintf_d false 4 south ++ "#" in
    let '(result, _, device) := asi_command device command NULL 0 0 in (result, device)
  else (false, device).

Definition asi_guide_ra (device : indigo_device) (west east : Z) : bool * indigo_device :=
  if west >? 0 then
    let command := ":Mgw" ++ sprintf_d false 4 west ++ "#" in
    let '(result, _, device) := asi_command device command NULL 0 0 in (result, device)
  else if east >? 0 then
    let command := ":Mge" ++ sprintf_d false 4 east ++ "#" in
    let '(result, _, device) := asi_command device command NULL 0 0 in (result, device)
  else (false, device).

(* ------------------------------------------------------------------ *)
(** ** Poll loop and callbacks *)

Section Callbacks.
Context `{Host}.

(** [position_timer_callback], "read coordinates and moving state":
    the coordinate step. *)
Definition poll_coordinates (device : indigo_device) : bool * indigo_device :=
  let '(success, ra, dec, device) := asi_get_coordinates device 0 0 in
  if success then
    let '(ra, dec) := indigo_eq_to_j2k (number device MOUNT_EPOCH_ITEM) (ra, dec) in
    let device := set_number device MOUNT_EQUATORIAL_COORDINATES_RA_ITEM ra in
    let device := set_number device MOUNT_EQUATORIAL_COORDINATES_DEC_ITEM dec in
    (success, device)
  else (success, device).

(** What the tick does with the reply to [:GU#]. *)
Definition apply_status (device : indigo_device) (response : string) : indigo_device :=
  let device :=
    set_state device MOUNT_EQUATORIAL_COORDINATES_PROPERTY
      (if strchr response "N" then INDIGO_OK_STATE else INDIGO_BUSY_STATE) in
  let device :=
    if strchr response "n" then
      if sw device MOUNT_TRACKING_ON_ITEM then
        let device := indigo_set_switch device MOUNT_TRACKING_PROPERTY MOUNT_TRACKING_OFF_ITEM true in
        indigo_update_property device MOUNT_TRACKING_PROPERTY None
      else device
    else
      if sw device MOUNT_TRACKING_OFF_ITEM then
        let device := indigo_set_switch device MOUNT_TRACKING_PROPERTY MOUNT_TRACKING_ON_ITEM true in
        indigo_update_property device MOUNT_TRACKING_PROPERTY None
      else device in
  if strchr response "H" then
    let device :=
      if negb (prev_home_state device) then
        let device := set_state device MOUNT_HOME_PROPERTY INDIGO_OK_STATE in
        let device := indigo_set_switch device MOUNT_HOME_PROPERTY MOUNT_HOME_ITEM true in
        indigo_update_property device MOUNT_HOME_PROPERTY (Some "At home")
      else device in
    set_prev_home_state device true
  else
    let device :=
      if prev_home_state device then
        let device := indigo_set_switch device MOUNT_HOME_PROPERTY MOUNT_HOME_ITEM false in
        indigo_update_property device MOUNT_HOME_PROPERTY None
      else device in
    set_prev_home_state device false.

(** The status step: [if (success && (success = asi_command(":GU#")))]. *)
Definition poll_status (success : bool) (device : indigo_device) : bool * indigo_device :=
  if success then
    let '(success, response, device) := asi_command device ":GU#" BUFFER 128 0 in
    if success then (success, apply_status device response)
    else (success, device)
  else (success, device).

(** What the tick does with the reply to [:Gm#]. *)
Definition apply_pier_side (device : indigo_device) (response : string) : indigo_device :=
  if strchr response "W" && negb (sw device MOUNT_SIDE_OF_PIER_WEST_ITEM) then
    let device := indigo_set_switch device MOUNT_SIDE_OF_PIER_PROPERTY MOUNT_SIDE_OF_PIER_WEST_ITEM true in
    indigo_update_property device MOUNT_SIDE_OF_PIER_PROPERTY None
  else if strchr response "E" && negb (sw device MOUNT_SIDE_OF_PIER_EAST_ITEM) then
    let device := indigo_set_switch device MOUNT_SIDE_OF_PIER_PROPERTY MOUNT_SIDE_OF_PIER_EAST_ITEM true in
    indigo_update_property device MOUNT_SIDE_OF_PIER_PROPERTY None
  else if strchr response "N"
          && (sw device MOUNT_SIDE_OF_PIER_EAST_ITEM || sw device MOUNT_SIDE_OF_PIER_WEST_ITEM) then
    let device := set_sw device MOUNT_SIDE_OF_PIER_WEST_ITEM false in
    let device := set_sw device MOUNT_SIDE_OF_PIER_EAST_ITEM false in
    indigo_update_property device MOUNT_SIDE_OF_PIER_PROPERTY None
  else device.

(** The pier-side step: [if (success && (success = asi_command(":Gm#")))]. *)
Definition poll_pier_side (success : bool) (device : indigo_device) : bool * indigo_device :=
  if success then
    let '(success, response, device) := asi_command device ":Gm#" BUFFER 128 0 in
    if success then (success, apply_pier_side device response)
    else (success, device)
  else (success, device).

(** "read time" *)
Definition poll_utc (device : indigo_device) : indigo_device :=
  let '(result, secs, utc_offset, device) := asi_get_utc device 0 0 in
  let device :=
    if result then
      let device := set_text device MOUNT_UTC_OFFSET_ITEM (sprintf_d false 0 utc_offset) in
      let device := set_text device MOUNT_UTC_ITEM (indigo_timetoisogm secs) in
      set_state device MOUNT_UTC_TIME_PROPERTY INDIGO_OK_STATE
    else set_state device MOUNT_UTC_TIME_PROPERTY INDIGO_ALERT_STATE in
  indigo_update_property device MOUNT_UTC_TIME_PROPERTY None.

(** The end of the tick, from [if (!success)] on. *)
Definition poll_finish (success : bool) (device : indigo_device) : indigo_device :=
  let device :=
    if negb success
    then set_state device MOUNT_EQUATORIAL_COORDINATES_PROPERTY INDIGO_ALERT_STATE
    else device in
  let device :=
    set_last_coordinates device
      (number device MOUNT_EQUATORIAL_COORDINATES_RA_ITEM)
      (number device MOUNT_EQUATORIAL_COORDINATES_DEC_ITEM) in
  let device := indigo_update_coordinates device None in
  let device := poll_utc device in
  indigo_reschedule_timer device
    (if indigo_property_state_beq
          (state device MOUNT_EQUATORIAL_COORDINATES_PROPERTY) INDIGO_BUSY_STATE
     then 1 # 2 else 1)%Q.

Definition position_timer_callback (device : indigo_device) : indigo_device :=
  if handle device >? 0 then
    let '(success, device) := poll_coordinates device in
    let '(success, device) := poll_status success device in
    let '(success, device) := poll_pier_side success device in
    poll_finish success device
  else device.

Definition mount_geo_coords_callback (device : indigo_device) : indigo_device :=
  let '(result, device) :=
    asi_set_site device
      (number device MOUNT_GEOGRAPHIC_COORDINATES_LATITUDE_ITEM)
      (number device MOUNT_GEOGRAPHIC_COORDINATES_LONGITUDE_ITEM) in
  let device :=
    set_state device MOUNT_GEOGRAPHIC_COORDINATES_PROPERTY
      (if result then INDIGO_OK_STATE else INDIGO_ALERT_STATE) in
  indigo_update_property device MOUNT_GEOGRAPHIC_COORDINATES_PROPERTY None.

End Callbacks.

(* ------------------------------------------------------------------ *)
(** ** Links and hosts to run the driver on *)

(** [n] exchanges without a response get past their flush, one after the
    other. *)
Fixpoint flushes (n : nat) (evs : list rx_event) : bool :=
  match n with
  | O => true
  | S n => let '(ok, evs) := drain evs in ok && flushes n evs
  end.

(** The direction the switches of an axis ask for: the first one that is on,
    in the order [asi_motion_dec] and [asi_motion_ra] test them. *)
Definition requested_dec (d : indigo_device) : option ascii :=
  if sw d MOUNT_MOTION_NORTH_ITEM then Some "n"%char
  else if sw d MOUNT_MOTION_SOUTH_ITEM then Some "s"%char
  else None.

Definition requested_ra (d : indigo_device) : option ascii :=
  if sw d MOUNT_MOTION_WEST_ITEM then Some "w"%char
  else if sw d MOUNT_MOTION_EAST_ITEM then Some "e"%char
  else None.

Definition stop_command (direction : ascii) : string :=
  ":Q" ++ String direction "#".

Definition start_command (direction : ascii) : string :=
  ":M" ++ String direction "#".

(** The device stays silent through the flush, then answers [s#]. *)
Definition reply (s : string) : list rx_event :=
  (RxQuiet :: map RxByte (list_ascii_of_string s) ++ [RxByte "#"%char])%list.

Definition quiet_link : link := {| rx := []; wr := []; wire := [] |}.

Definition idle_device : indigo_device :=
  {| port := quiet_link; handle := 3; lastMotionNS := NUL; lastMotionWE := NUL;
     lastRA := 0; lastDec := 0; use_dst_commands := false; prev_home_state := false;
     sw := fun i => switch_item_beq i MOUNT_TRACKING_ON_ITEM;
     number := fun _ => 0%Q; text := fun _ => EmptyString;
     state := fun _ => INDIGO_OK_STATE;
     position_timer := None; published := [] |}.

Definition receiving (d : indigo_device) (evs : list rx_event) : indigo_device :=
  set_port d (set_rx (port d) evs).

Definition failing_writes (d : indigo_device) (w : list bool) : indigo_device :=
  set_port d {| rx := rx (port d); wr := w; wire := wire (port d) |}.

(** Modelled from the spec: [indigo_dtos] is the framework's sexagesimal
    printer, which is not part of this driver's source.  Section 4.3 gives
    the fields the driver asks for: degrees or hours, minutes and, for the
    slew targets, seconds, behind a sign where the format has [+]. *)
Definition reference_dtos (value : Q) (format : string) : string :=
  let d := Qabs value in
  let m := (60 * (d - inject_Z (Qfloor d)))%Q in
  let s := (60 * (m - inject_Z (Qfloor m)))%Q in
  let field (width : nat) (x : Z) := sprintf_d false width x in
  let sign (plus : bool) := if Qltb value 0 then "-" else if plus then "+" else EmptyString in
  if String.eqb format "%+03d*%02d" then
    sign true ++ field 2%nat (Qfloor d) ++ "*" ++ field 2%nat (Qfloor m)
  else if String.eqb format "%03d*%02d" then
    sign false ++ field 3%nat (Qfloor d) ++ "*" ++ field 2%nat (Qfloor m)
  else if String.eqb format "%02d:%02d:%02.0f" then
    sign false ++ field 2%nat (Qfloor d) ++ ":" ++ field 2%nat (Qfloor m)
    ++ ":" ++ field 2%nat (round_half_even s)
  else if String.eqb format "%+03d*%02d:%02.0f" then
    sign true ++ field 2%nat (Qfloor d) ++ "*" ++ field 2%nat (Qfloor m)
    ++ ":" ++ field 2%nat (round_half_even s)
  else EmptyString.

(** Modelled from the spec: [indigo_stod] is the framework's sexagesimal
    parser, which is not part of this driver's source.  Section 4.3: fields
    separated by non-digit delimiters, parsed positionally. *)
Definition reference_stod (s : string) : Q :=
  let s := skip_space (cstr s) in
  let negative := match s with String "-"%char _ => true | _ => false end in
  let next (s : string) : Z * string :=
    match scan_c s with
    | Some (_, r) => match scan_d r with Some (n, r) => (Z.abs n, r) | None => (0, r) end
    | None => (0, s)
    end in
  match scan_d s with
  | None => 0%Q
  | Some (d, r) =>
      let '(m, r) := next r in
      let '(sec, _) := next r in
      let v := (inject_Z (Z.abs d) + inject_Z m / 60 + inject_Z sec / 3600)%Q in
      if negative then (- v)%Q else v
  end.

(** A host in the UTC time zone, without daylight saving, whose epoch
    conversion is taken at the reference epoch itself. *)
Definition reference_mktime (t : tm) : Z :=
  let y := tm_year t + 1900 in
  let m := tm_mon t + 1 in
  let y := if m <=? 2 then y - 1 else y in
  let era := y / 400 in
  let yoe := y - era * 400 in
  let doy := (153 * (if m >? 2 then m - 3 else m + 9) + 2) / 5 + tm_mday t - 1 in
  let doe := yoe * 365 + yoe / 4 - yoe / 100 + doy in
  (era * 146097 + doe - 719468) * 86400
  + tm_hour t * 3600 + tm_min t * 60 + tm_sec t.

Definition reference_timetoisogm (secs : Z) : string :=
  let t := gmtime_r secs in
  sprintf_d false 4 (tm_year t + 1900) ++ "-" ++ sprintf_d false 2 (tm_mon t + 1)
  ++ "-" ++ sprintf_d false 2 (tm_mday t) ++ "T" ++ sprintf_d false 2 (tm_hour t)
  ++ ":" ++ sprintf_d false 2 (tm_min t) ++ ":" ++ sprintf_d false 2 (tm_sec t).

Definition reference_host : Host :=
  {| indigo_dtos := reference_dtos;
     indigo_stod := reference_stod;
     indigo_eq_to_j2k := fun _ coordinates => coordinates;
     indigo_timetoisogm := reference_timetoisogm;
     mktime := reference_mktime;
     daylight := 0;
     unterminated := fun _ stored => stored |}.

(** Between [d] and [d'] only the port changed, and what was written is
    made of commands among [allowed]. *)
Definition wrote (allowed : list string) (d d' : indigo_device) : Prop :=
  d' = set_port d (port d')
  /\ exists l, wire (port d') = (wire (port d) ++ l)%list /\ incl l allowed.

Definition guide_rate_commands : list string :=
  [":Rg0.1#"; ":Rg0.2#"; ":Rg0.3#"; ":Rg0.4#"; ":Rg0.5#";
   ":Rg0.6#"; ":Rg0.7#"; ":Rg0.8#"; ":Rg0.9#"].

(* ------------------------------------------------------------------ *)
(** ** The rest of the command set *)

Section MoreCommands.
Context `{Host}.

Definition asi_sync (device : indigo_device) (ra dec : Q) : bool * Z * indigo_device :=
  let command := target_ra_command ra in
  let '(result, response, device) := asi_command device command BUFFER 128 0 in
  if negb (accepted result response "1")
  then (false, asi_error_code (response_read result response device), device)
  else
    let command := target_dec_command dec in
    let '(result, response, device) := asi_command device command BUFFER 128 0 in
    if negb (accepted result response "1")
    then (false, asi_error_code (response_read result response device), device)
    else
      let '(result, response, device) := asi_command device ":CM#" BUFFER 128 100000 in
      if negb result || Ascii.eqb (deref response) "e"
      then (false, asi_error_code (response_read result response device), device)
      else (true, 0, device).

End MoreCommands.

Definition asi_set_tracking (device : indigo_device) (on : bool) : bool * indigo_device :=
  if on then
    let '(result, _, device) := asi_command device ":Te#" NULL 0 0 in (result, device)
  else
    let '(result, _, device) := asi_command device ":Td#" NULL 0 0 in (result, device).

Definition asi_home (device : indigo_device) : bool * indigo_device :=
  let '(result, _, device) := asi_command device ":hC#" NULL 0 0 in (result, device).

Definition asi_stop (device : indigo_device) : bool * indigo_device :=
  let '(result, _, device) := asi_command device ":Q#" NULL 0 0 in (result, device).

Definition mount_home_callback (device : indigo_device) : indigo_device :=
  if sw device MOUNT_HOME_ITEM then
    let device := set_sw device MOUNT_HOME_ITEM false in
    let '(result, device) := asi_home device in
    if negb result then
      let device := set_state device MOUNT_HOME_PROPERTY INDIGO_ALERT_STATE in
      indigo_update_property device MOUNT_HOME_PROPERTY None
    else
      let device := set_prev_home_state device false in
      indigo_update_property device MOUNT_HOME_PROPERTY (Some "Going home")
  else device.

Definition mount_tracking_callback (device : indigo_device) : indigo_device :=
  let '(result, device) := asi_set_tracking device (sw device MOUNT_TRACKING_ON_ITEM) in
  let device :=
    set_state device MOUNT_TRACKING_PROPERTY
      (if result then INDIGO_OK_STATE else INDIGO_ALERT_STATE) in
  indigo_update_property device MOUNT_TRACKING_PROPERTY None.

(* ------------------------------------------------------------------ *)
(** ** The driver as a whole

    The fields of [asi_private_data] and the items that the commands above
    do not touch: the last rates, the product name, the rate, mode and abort
    switches, the targets of the equatorial coordinates, the guide rate and
    the guide pulses.  The mount and its guider share the private data. *)

Inductive mount_switch :=
| MOUNT_SLEW_RATE_GUIDE_ITEM
| MOUNT_SLEW_RATE_CENTERING_ITEM
| MOUNT_SLEW_RATE_FIND_ITEM
| MOUNT_SLEW_RATE_MAX_ITEM
| MOUNT_TRACK_RATE_SIDEREAL_ITEM
| MOUNT_TRACK_RATE_SOLAR_ITEM
| MOUNT_TRACK_RATE_LUNAR_ITEM
| MOUNT_ON_COORDINATES_SET_TRACK_ITEM
| MOUNT_ON_COORDINATES_SET_SYNC_ITEM
| MOUNT_ABORT_MOTION_ITEM.

Inductive mount_number :=
| MOUNT_GUIDE_RATE_RA_ITEM
| MOUNT_GUIDE_RATE_DEC_ITEM
| GUIDER_GUIDE_NORTH_ITEM
| GUIDER_GUIDE_SOUTH_ITEM
| GUIDER_GUIDE_EAST_ITEM
| GUIDER_GUIDE_WEST_ITEM.

Inductive mount_property :=
| MOUNT_ABORT_MOTION_PROPERTY
| MOUNT_TRACK_RATE_PROPERTY
| MOUNT_GUIDE_RATE_PROPERTY
| GUIDER_GUIDE_DEC_PROPERTY
| GUIDER_GUIDE_RA_PROPERTY.

Scheme Equality for mount_switch.
Scheme Equality for mount_number.
Scheme Equality for mount_property.

Record asi_driver := {
  core : indigo_device;
  lastSlewRate : ascii;
  lastTrackRate : ascii;
  product : string;
  mount_sw : mount_switch -> bool;            (* item->sw.value *)
  eq_target : number_item -> Q;               (* item->number.target *)
  mount_value : mount_number -> Q;            (* item->number.value *)
  mount_target : mount_number -> Q;           (* item->number.target *)
  mount_state : mount_property -> indigo_property_state;
  announced : list (mount_property * option string);  (* updates sent to the clients *)
  slept : list Z                              (* indigo_usleep calls, microseconds *)
}.

Definition set_core (d : asi_driver) (c : indigo_device) : asi_driver :=
  {| core := c; lastSlewRate := lastSlewRate d; lastTrackRate := lastTrackRate d;
     product := product d; mount_sw := mount_sw d; eq_target := eq_target d;
     mount_value := mount_value d; mount_target := mount_target d;
     mount_state := mount_state d; announced := announced d; slept := slept d |}.

Definition set_lastSlewRate (d : asi_driver) (c : ascii) : asi_driver :=
  {| core := core d; lastSlewRate := c; lastTrackRate := lastTrackRate d;
     product := product d; mount_sw := mount_sw d; eq_target := eq_target d;
     mount_value := mount_value d; mount_target := mount_target d;
     mount_state := mount_state d; announced := announced d; slept := slept d |}.

Definition set_lastTrackRate (d : asi_driver) (c : ascii) : asi_driver :=
  {| core := core d; lastSlewRate := lastSlewRate d; lastTrackRate := c;
     product := product d; mount_sw := mount_sw d; eq_target := eq_target d;
     mount_value := mount_value d; mount_target := mount_target d;
     mount_state := mount_state d; announced := announced d; slept := slept d |}.

Definition set_product (d : asi_driver) (s : string) : asi_driver :=
  {| core := core d; lastSlewRate := lastSlewRate d; lastTrackRate := lastTrackRate d;
     product := s; mount_sw := mount_sw d; eq_target := eq_target d;
     mount_value := mount_value d; mount_target := mount_target d;
     mount_state := mount_state d; announced := announced d; slept := slept d |}.

Definition set_mount_sw (d : asi_driver) (i : mount_switch) (v : bool) : asi_driver :=
  {| core := core d; lastSlewRate := lastSlewRate d; lastTrackRate := lastTrackRate d;
     product := product d;
     mount_sw := fun j => if mount_switch_beq j i then v else mount_sw d j;
     eq_target := eq_target d;
     mount_value := mount_value d; mount_target := mount_target d;
     mount_state := mount_state d; announced := announced d; slept := slept d |}.

Definition set_eq_target (d : asi_driver) (i : number_item) (v : Q) : asi_driver :=
  {| core := core d; lastSlewRate := lastSlewRate d; lastTrackRate := lastTrackRate d;
     product := product d; mount_sw := mount_sw d;
     eq_target := fun j => if number_item_beq j i then v else eq_target d j;
     mount_value := mount_value d; mount_target := mount_target d;
     mount_state := mount_state d; announced := announced d; slept := slept d |}.

Definition set_mount_value (d : asi_driver) (i : mount_number) (v : Q) : asi_driver :=
  {| core := core d; lastSlewRate := lastSlewRate d; lastTrackRate := lastTrackRate d;
     product := product d; mount_sw := mount_sw d; eq_target := eq_target d;
     mount_value := fun j => if mount_number_beq j i then v else mount_value d j;
     mount_target := mount_target d;
     mount_state := mount_state d; announced := announced d; slept := slept d |}.

Definition set_mount_target (d : asi_driver) (i : mount_number) (v : Q) : asi_driver :=
  {| core := core d; lastSlewRate := lastSlewRate d; lastTrackRate := lastTrackRate d;
     product := product d; mount_sw := mount_sw d; eq_target := eq_target d;
     mount_value := mount_value d;
     mount_target := fun j => if mount_number_beq j i then v else mount_target d j;
     mount_state := mount_state d; announced := announced d; slept := slept d |}.

Definition set_mount_state (d : asi_driver) (p : mount_property)
    (s : indigo_property_state) : asi_driver :=
  {| core := core d; lastSlewRate := lastSlewRate d; lastTrackRate := lastTrackRate d;
     product := product d; mount_sw := mount_sw d; eq_target := eq_target d;
     mount_value := mount_value d; mount_target := mount_target d;
     mount_state := fun q => if mount_property_beq q p then s else mount_state d q;
     announced := announced d; slept := slept d |}.

(** [indigo_update_property] for the properties of this part. *)
Definition announce (d : asi_driver) (p : mount_property) (message : option string) : asi_driver :=
  {| core := core d; lastSlewRate := lastSlewRate d; lastTrackRate := lastTrackRate d;
     product := product d; mount_sw := mount_sw d; eq_target := eq_target d;
     mount_value := mount_value d; mount_target := mount_target d;
     mount_state := mount_state d;
     announced := (announced d ++ [(p, message)])%list; slept := slept d |}.

Definition indigo_usleep (d : asi_driver) (microseconds : Z) : asi_driver :=
  {| core := core d; lastSlewRate := lastSlewRate d; lastTrackRate := lastTrackRate d;
     product := product d; mount_sw := mount_sw d; eq_target := eq_target d;
     mount_value := mount_value d; mount_target := mount_target d;
     mount_state := mount_state d; announced := announced d;
     slept := (slept d ++ [microseconds])%list |}.

Definition asi_set_tracking_rate (d : asi_driver) : bool * asi_driver :=
  if mount_sw d MOUNT_TRACK_RATE_SIDEREAL_ITEM && negb (Ascii.eqb (lastTrackRate d) "q") then
    let d := set_lastTrackRate d "q" in
    let '(result, _, device) := asi_command (core d) ":TQ#" NULL 0 0 in
    (result, set_core d device)
  else if mount_sw d MOUNT_TRACK_RATE_SOLAR_ITEM && negb (Ascii.eqb (lastTrackRate d) "s") then
    let d := set_lastTrackRate d "s" in
    let '(result, _, device) := asi_command (core d) ":TS#" NULL 0 0 in
    (result, set_core d device)
  else if mount_sw d MOUNT_TRACK_RATE_LUNAR_ITEM && negb (Ascii.eqb (lastTrackRate d) "l") then
    let d := set_lastTrackRate d "l" in
    let '(result, _, device) := asi_command (core d) ":TL#" NULL 0 0 in
    (result, set_core d device)
  else (true, d).

Definition asi_set_slew_rate (d : asi_driver) : bool * asi_driver :=
  if mount_sw d MOUNT_SLEW_RATE_GUIDE_ITEM && negb (Ascii.eqb (lastSlewRate d) "g") then
    let d := set_lastSlewRate d "g" in
    let '(result, _, device) := asi_command (core d) ":RG#" NULL 0 0 in
    (result, set_core d device)
  else if mount_sw d MOUNT_SLEW_RATE_CENTERING_ITEM && negb (Ascii.eqb (lastSlewRate d) "c") then
    let d := set_lastSlewRate d "c" in
    let '(result, _, device) := asi_command (core d) ":RC#" NULL 0 0 in
    (result, set_core d device)
  else if mount_sw d MOUNT_SLEW_RATE_FIND_ITEM && negb (Ascii.eqb (lastSlewRate d) "m") then
    let d := set_lastSlewRate d "m" in
    let '(result, _, device) := asi_command (core d) ":RM#" NULL 0 0 in
    (result, set_core d device)
  else if mount_sw d MOUNT_SLEW_RATE_MAX_ITEM && negb (Ascii.eqb (lastSlewRate d) "s") then
    let d := set_lastSlewRate d "s" in
    let '(result, _, device) := asi_command (core d) ":RS#" NULL 0 0 in
    (result, set_core d device)
  else (true, d).

(** [strncpy(PRIVATE_DATA->product, response, 64)]: the bytes of the C string,
    64 at most.  [!strncmp(product, "AM", 2) && isdigit(product[2])]. *)
Fixpoint strncpy (n : nat) (s : string) : string :=
  match n, s with
  | S n, String c r => if Ascii.eqb c NUL then EmptyString else String c (strncpy n r)
  | _, _ => EmptyString
  end.

Definition is_zwo_product (product : string) : bool :=
  match product with
  | String "A"%char (String "M"%char (String c _)) => isdigit c
  | _ => false
  end.

Definition asi_detect_mount (d : asi_driver) : bool * asi_driver :=
  let '(result, response, device) := asi_command (core d) ":GVP#" BUFFER 128 0 in
  let d := set_core d device in
  if result then
    let d := set_product d (strncpy 64 response) in
    (is_zwo_product (product d), d)
  else (false, d).

Definition mount_abort_callback (d : asi_driver) : asi_driver :=
  if mount_sw d MOUNT_ABORT_MOTION_ITEM then
    let d := set_mount_sw d MOUNT_ABORT_MOTION_ITEM false in
    let '(result, device) := asi_stop (core d) in
    if result then
      let device := set_sw device MOUNT_MOTION_NORTH_ITEM false in
      let device := set_sw device MOUNT_MOTION_SOUTH_ITEM false in
      let device := set_state device MOUNT_MOTION_DEC_PROPERTY INDIGO_OK_STATE in
      let device := indigo_update_property device MOUNT_MOTION_DEC_PROPERTY None in
      let device := set_sw device MOUNT_MOTION_WEST_ITEM false in
      let device := set_sw device MOUNT_MOTION_EAST_ITEM false in
      let device := set_state device MOUNT_MOTION_RA_PROPERTY INDIGO_OK_STATE in
      let device := indigo_update_property device MOUNT_MOTION_RA_PROPERTY None in
      let d := set_eq_target d MOUNT_EQUATORIAL_COORDINATES_RA_ITEM
                 (number device MOUNT_EQUATORIAL_COORDINATES_RA_ITEM) in
      let d := set_eq_target d MOUNT_EQUATORIAL_COORDINATES_DEC_ITEM
                 (number device MOUNT_EQUATORIAL_COORDINATES_DEC_ITEM) in
      let device := set_state device MOUNT_EQUATORIAL_COORDINATES_PROPERTY INDIGO_OK_STATE in
      let device := indigo_update_coordinates device None in
      let d := set_core d device in
      let d := set_mount_state d MOUNT_ABORT_MOTION_PROPERTY INDIGO_OK_STATE in
      announce d MOUNT_ABORT_MOTION_PROPERTY (Some "Aborted")
    else
      let d := set_core d device in
      let d := set_mount_state d MOUNT_ABORT_MOTION_PROPERTY INDIGO_ALERT_STATE in
      announce d MOUNT_ABORT_MOTION_PROPERTY (Some "Failed to abort")
  else d.

Definition mount_motion_dec_callback (d : asi_driver) : asi_driver :=
  let '(rate, d) := asi_set_slew_rate d in
  let '(result, device) :=
    if rate then asi_motion_dec (core d) else (false, core d) in
  let device :=
    if result then
      if negb (Ascii.eqb (lastMotionNS device) NUL)
      then set_state device MOUNT_MOTION_DEC_PROPERTY INDIGO_BUSY_STATE
      else set_state device MOUNT_MOTION_DEC_PROPERTY INDIGO_OK_STATE
    else set_state device MOUNT_MOTION_DEC_PROPERTY INDIGO_ALERT_STATE in
  set_core d (indigo_update_property device MOUNT_MOTION_DEC_PROPERTY None).

Definition mount_motion_ra_callback (d : asi_driver) : asi_driver :=
  let '(rate, d) := asi_set_slew_rate d in
  let '(result, device) :=
    if rate then asi_motion_ra (core d) else (false, core d) in
  let device :=
    if result then
      if negb (Ascii.eqb (lastMotionWE device) NUL)
      then set_state device MOUNT_MOTION_RA_PROPERTY INDIGO_BUSY_STATE
      else set_state device MOUNT_MOTION_RA_PROPERTY INDIGO_OK_STATE
    else set_state device MOUNT_MOTION_RA_PROPERTY INDIGO_ALERT_STATE in
  set_core d (indigo_update_property device MOUNT_MOTION_RA_PROPERTY None).

Definition mount_track_rate_callback (d : asi_driver) : asi_driver :=
  let '(result, d) := asi_set_tracking_rate d in
  let d :=
    set_mount_state d MOUNT_TRACK_RATE_PROPERTY
      (if result then INDIGO_OK_STATE else INDIGO_ALERT_STATE) in
  announce d MOUNT_TRACK_RATE_PROPERTY None.

(** The casts [(int)...->number.target] truncate. *)
Definition mount_guide_rate_callback (d : asi_driver) : asi_driver :=
  let rate := mount_target d MOUNT_GUIDE_RATE_RA_ITEM in
  let d := set_mount_value d MOUNT_GUIDE_RATE_RA_ITEM rate in
  let d := set_mount_target d MOUNT_GUIDE_RATE_DEC_ITEM rate in
  let d := set_mount_value d MOUNT_GUIDE_RATE_DEC_ITEM rate in
  let '(result, device) :=
    asi_set_guide_rate (core d)
      (Qtrunc (mount_target d MOUNT_GUIDE_RATE_RA_ITEM))
      (Qtrunc (mount_target d MOUNT_GUIDE_RATE_DEC_ITEM)) in
  let d := set_core d device in
  let d :=
    set_mount_state d MOUNT_GUIDE_RATE_PROPERTY
      (if result then INDIGO_OK_STATE else INDIGO_ALERT_STATE) in
  announce d MOUNT_GUIDE_RATE_PROPERTY None.

Definition guider_guide_dec_callback (d : asi_driver) : asi_driver :=
  let north := Qtrunc (mount_value d GUIDER_GUIDE_NORTH_ITEM) in
  let south := Qtrunc (mount_value d GUIDER_GUIDE_SOUTH_ITEM) in
  let '(_, device) := asi_guide_dec (core d) north south in
  let d := set_core d device in
  let d :=
    if north >? 0 then indigo_usleep d (1000 * north)
    else if south >? 0 then indigo_usleep d (1000 * south)
    else d in
  let d := set_mount_value d GUIDER_GUIDE_SOUTH_ITEM 0 in
  let d := set_mount_value d GUIDER_GUIDE_NORTH_ITEM 0 in
  let d := set_mount_state d GUIDER_GUIDE_DEC_PROPERTY INDIGO_OK_STATE in
  announce d GUIDER_GUIDE_DEC_PROPERTY None.

Definition guider_guide_ra_callback (d : asi_driver) : asi_driver :=
  let west := Qtrunc (mount_value d GUIDER_GUIDE_WEST_ITEM) in
  let east := Qtrunc (mount_value d GUIDER_GUIDE_EAST_ITEM) in
  let '(_, device) := asi_guide_ra (core d) west east in
  let d := set_core d device in
  let d :=
    if west >? 0 then indigo_usleep d (1000 * west)
    else if east >? 0 then indigo_usleep d (1000 * east)
    else d in
  let d := set_mount_value d GUIDER_GUIDE_EAST_ITEM 0 in
  let d := set_mount_value d GUIDER_GUIDE_WEST_ITEM 0 in
  let d := set_mount_state d GUIDER_GUIDE_RA_PROPERTY INDIGO_OK_STATE in
  announce d GUIDER_GUIDE_RA_PROPERTY None.

Section Goto.
Context `{Host}.
Variable indigo_j2k_to_eq : Q -> Q * Q -> Q * Q.

(** [message] is [None] where the C buffer stays empty. *)
Definition mount_eq_coords_callback (d : asi_driver) : asi_driver :=
  let '(ra, dec) :=
    indigo_j2k_to_eq (number (core d) MOUNT_EPOCH_ITEM)
      (eq_target d MOUNT_EQUATORIAL_COORDINATES_RA_ITEM,
       eq_target d MOUNT_EQUATORIAL_COORDINATES_DEC_ITEM) in
  let '(message, d) :=
    if mount_sw d MOUNT_ON_COORDINATES_SET_TRACK_ITEM then
      let '(rate, d) := asi_set_tracking_rate d in
      let '(result, error_code, device) :=
        if rate then asi_slew (core d) ra dec else (false, 0, core d) in
      if result then
        (EmptyString,
         set_core d (set_state device MOUNT_EQUATORIAL_COORDINATES_PROPERTY INDIGO_BUSY_STATE))
      else
        let message := asi_error_string error_code in
        let message := if Ascii.eqb (deref message) NUL then "Slew failed" else message in
        (message,
         set_core d (set_state device MOUNT_EQUATORIAL_COORDINATES_PROPERTY INDIGO_ALERT_STATE))
    else if mount_sw d MOUNT_ON_COORDINATES_SET_SYNC_ITEM then
      let '(result, error_code, device) := asi_sync (core d) ra dec in
      if result then
        (EmptyString,
         set_core d (set_state device MOUNT_EQUATORIAL_COORDINATES_PROPERTY INDIGO_OK_STATE))
      else
        let message := asi_error_string error_code in
        let message := if Ascii.eqb (deref message) NUL then "Sync failed" else message in
        (message,
         set_core d (set_state device MOUNT_EQUATORIAL_COORDINATES_PROPERTY INDIGO_ALERT_STATE))
    else (EmptyString, d) in
  if Ascii.eqb (deref message) NUL
  then set_core d (indigo_update_coordinates (core d) None)
  else set_core d (indigo_update_coordinates (core d) (Some message)).

End Goto.

(** A driver around [idle_device], nothing selected. *)
Definition idle_driver : asi_driver :=
  {| core := idle_device; lastSlewRate := NUL; lastTrackRate := NUL;
     product := EmptyString; mount_sw := fun _ => false;
     eq_target := fun _ => 0%Q; mount_value := fun _ => 0%Q;
     mount_target := fun _ => 0%Q; mount_state := fun _ => INDIGO_OK_STATE;
     announced := []; slept := [] |}.

(** No event of the script delivers anything. *)
Definition silent (evs : list rx_event) : Prop :=
  Forall (fun e => e = RxQuiet) evs.

(* ------------------------------------------------------------------ *)
(** ** Texts and helpers of the further properties *)

(** The next character, if any, is not a digit: where [%d] stops. *)
Definition no_digit_ahead (s : string) : Prop :=
  match s with
  | String c _ => isdigit c = false
  | EmptyString => True
  end.

(** The digits [%d] prints for the magnitude of [n]. *)
Definition digits_of (n : Z) : string :=
  NilZero.string_of_uint (N.to_uint (Z.to_N (Z.abs n))).

(** The texts between the mnemonic and the terminator in the commands of
    [asi_set_utc]. *)
Definition date_text (tm : tm) : string :=
  sprintf_d false 2 (tm_mon tm + 1) ++ "/"
  ++ sprintf_d false 2 (tm_mday tm) ++ "/"
  ++ sprintf_d false 2 (Z.rem (tm_year tm) 100).

Definition time_text (tm : tm) : string :=
  sprintf_d false 2 (tm_hour tm) ++ ":"
  ++ sprintf_d false 2 (tm_min tm) ++ ":"
  ++ sprintf_d false 2 (tm_sec tm).

Definition offset_text (utc_offset : Z) : string :=
  sprintf_d true 3 (- utc_offset).

(** [PRIVATE_DATA->handle] after [asi_close]. *)
Definition asi_close (d : indigo_device) : indigo_device :=
  if handle d >? 0 then
    {| port := port d; handle := 0; lastMotionNS := lastMotionNS d;
       lastMotionWE := lastMotionWE d; lastRA := lastRA d; lastDec := lastDec d;
       use_dst_commands := use_dst_commands d; prev_home_state := prev_home_state d;
       sw := sw d; number := number d; text := text d; state := state d;
       position_timer := position_timer d; published := published d |}
  else d.

(** The items of the slew rate and of the track rate properties, in the
    order [asi_set_slew_rate] and [asi_set_tracking_rate] test them. *)
Definition slew_rate_items : list mount_switch :=
  [MOUNT_SLEW_RATE_GUIDE_ITEM; MOUNT_SLEW_RATE_CENTERING_ITEM;
   MOUNT_SLEW_RATE_FIND_ITEM; MOUNT_SLEW_RATE_MAX_ITEM].

Definition track_rate_items : list mount_switch :=
  [MOUNT_TRACK_RATE_SIDEREAL_ITEM; MOUNT_TRACK_RATE_SOLAR_ITEM;
   MOUNT_TRACK_RATE_LUNAR_ITEM].

(** At most one item of a property is on, as its one-of-many rule keeps it. *)
Definition one_of_many (d : asi_driver) (items : list mount_switch) : Prop :=
  (List.length (filter (mount_sw d) items) <= 1)%nat.

(* ------------------------------------------------------------------ *)
(** * Properties *)

(** ** Binary rounding and [fmod] *)

Lemma round_half_even_error y :
  (Qabs (inject_Z (round_half_even y) - y) <= 1 # 2)%Q.
Proof.
  unfold round_half_even.
  pose proof (Qfloor_le y) as Lo. pose proof (Qlt_floor y) as Hi.
  assert (I : (inject_Z (Qfloor y + 1) == inject_Z (Qfloor y) + 1)%Q)
    by (rewrite inject_Z_plus; reflexivity).
  rewrite I in Hi.
  destruct (Qcompare_spec (y - inject_Z (Qfloor y)) (1 # 2)) as [E|E|E].
  - destruct (Z.even (Qfloor y)); apply Qabs_Qle_condition; [|rewrite I]; split; lra.
  - apply Qabs_Qle_condition. split; lra.
  - apply Qabs_Qle_condition. rewrite I. split; lra.
Qed.

Lemma round_half_even_between y (lo hi : Z) :
  (inject_Z lo <= y <= inject_Z hi)%Q -> lo <= round_half_even y <= hi.
Proof.
  intros [Lo Hi]. unfold round_half_even.
  assert (F1 : lo <= Qfloor y).
  { rewrite <- (Qfloor_Z lo). apply Qfloor_resp_le. exact Lo. }
  assert (F2 : Qfloor y <= hi).
  { rewrite <- (Qfloor_Z hi). apply Qfloor_resp_le. exact Hi. }
  assert (F3 : (1 # 2 <= y - inject_Z (Qfloor y))%Q -> Qfloor y < hi).
  { intros E. destruct (Z.eq_dec (Qfloor y) hi) as [Eq|]; [|lia]. rewrite Eq in E. lra. }
  destruct (Qcompare_spec (y - inject_Z (Qfloor y)) (1 # 2)) as [E|E|E].
  - destruct (Z.even (Qfloor y)); [lia|]. assert (Qfloor y < hi) by (apply F3; lra). lia.
  - lia.
  - assert (Qfloor y < hi) by (apply F3; lra). lia.
Qed.

Lemma Qpower2_fraction (a b : Z) :
  0 <= a -> 0 <= b -> (Qpower 2 (a - b) == (2 ^ a) # Z.to_pos (2 ^ b))%Q.
Proof.
  intros Ha Hb.
  assert (P : 0 < 2 ^ b) by (apply Z.pow_pos_nonneg; lia).
  rewrite (Qmake_Qdiv (2 ^ a) (Z.to_pos (2 ^ b))), Z2Pos.id by exact P.
  replace (a - b) with (a + - b) by lia.
  rewrite Qpower_plus by discriminate.
  rewrite Qpower_opp, (Zpower_Qpower 2 a Ha), (Zpower_Qpower 2 b Hb).
  reflexivity.
Qed.

Lemma binade_spec (x : Q) :
  (0 < x)%Q -> (Qpower 2 (binade x) <= x /\ x < Qpower 2 (binade x + 1))%Q.
Proof.
  destruct x as [n d]. intros Hx.
  assert (Hn : 0 < n) by (unfold Qlt in Hx; simpl in Hx; lia).
  unfold binade. cbn [Qnum Qden].
  set (a := Z.log2 n). set (b := Z.log2 (Z.pos d)).
  assert (Ha : 0 <= a) by apply Z.log2_nonneg.
  assert (Hb : 0 <= b) by apply Z.log2_nonneg.
  destruct (Z.log2_spec n Hn) as [A1 A2]. fold a in A1, A2.
  destruct (Z.log2_spec (Z.pos d) (Pos2Z.is_pos d)) as [B1 B2]. fold b in B1, B2.
  replace (Z.succ a) with (a + 1) in A2 by lia.
  replace (Z.succ b) with (b + 1) in B2 by lia.
  assert (Pa : 0 < 2 ^ a) by (apply Z.pow_pos_nonneg; lia).
  assert (Pb : 0 < 2 ^ b) by (apply Z.pow_pos_nonneg; lia).
  assert (Pa1 : 0 < 2 ^ (a + 1)) by (apply Z.pow_pos_nonneg; lia).
  assert (Pb1 : 0 < 2 ^ (b + 1)) by (apply Z.pow_pos_nonneg; lia).
  assert (Lower : (Qpower 2 (a - b - 1) <= n # d)%Q).
  { replace (a - b - 1) with (a - (b + 1)) by lia.
    rewrite Qpower2_fraction by lia.
    unfold Qle. cbn [Qnum Qden]. rewrite Z2Pos.id by exact Pb1. nia. }
  assert (Upper : (n # d < Qpower 2 (a - b + 1))%Q).
  { replace (a - b + 1) with (a + 1 - b) by lia.
    rewrite Qpower2_fraction by lia.
    unfold Qlt. cbn [Qnum Qden]. rewrite Z2Pos.id by exact Pb. nia. }
  destruct (Qle_bool (Qpower 2 (a - b)) (n # d)) eqn:E.
  - apply Qle_bool_iff in E. split; assumption.
  - replace (a - b - 1 + 1) with (a - b) by lia. split; [exact Lower|].
    apply Qnot_le_lt. intros C. apply Qle_bool_iff in C. congruence.
Qed.

Lemma Qpower2_pos z : (0 < Qpower 2 z)%Q.
Proof. apply Qpower_0_lt. reflexivity. Qed.

Lemma round_binary_unfold p x :
  (0 < x)%Q ->
  round_binary p x
  = (inject_Z (round_half_even (x / Qpower 2 (binade x - p + 1))) * Qpower 2 (binade x - p + 1))%Q.
Proof.
  intros Hx. unfold round_binary, binade.
  destruct (Qle_bool x 0) eqn:E; [|reflexivity].
  apply Qle_bool_iff in E. lra.
Qed.

(** The relative error of rounding to 53 bits. *)
Lemma round_binary_error x :
  (0 < x)%Q -> (Qabs (round_binary 53 x - x) <= x * (1 # 2 ^ 53))%Q.
Proof.
  intros Hx. rewrite round_binary_unfold by exact Hx.
  set (e := binade x).
  destruct (binade_spec x Hx) as [Lo _]. fold e in Lo.
  set (ulp := Qpower 2 (e - 53 + 1)).
  assert (U : (0 < ulp)%Q) by apply Qpower2_pos.
  assert (Eu : (ulp == 2 * Qpower 2 e * (1 # 2 ^ 53))%Q).
  { unfold ulp. replace (e - 53 + 1) with (e + -52) by lia.
    rewrite Qpower_plus by discriminate.
    assert (C : (Qpower 2 (-52) == 2 * (1 # 2 ^ 53))%Q) by reflexivity.
    rewrite C. ring. }
  pose proof (round_half_even_error (x / ulp)) as R.
  set (m := inject_Z (round_half_even (x / ulp))) in *.
  apply Qabs_Qle_condition in R. destruct R as [R1 R2].
  assert (Xu : (x / ulp * ulp == x)%Q) by (field; lra).
  apply Qabs_Qle_condition.
  assert (H1 : ((m - x / ulp) * ulp <= (1 # 2) * ulp)%Q)
    by (apply Qmult_le_compat_r; lra).
  assert (H2 : (- (1 # 2) * ulp <= (m - x / ulp) * ulp)%Q)
    by (apply Qmult_le_compat_r; lra).
  assert (H3 : ((m - x / ulp) * ulp == m * ulp - x)%Q) by (rewrite <- Xu at 2; ring).
  assert (H4 : ((1 # 2) * ulp <= x * (1 # 2 ^ 53))%Q).
  { rewrite Eu.
    setoid_replace ((1 # 2) * (2 * Qpower 2 e * (1 # 2 ^ 53)))%Q
      with (Qpower 2 e * (1 # 2 ^ 53))%Q by ring.
    apply Qmult_le_compat_r; [exact Lo | discriminate]. }
  split; lra.
Qed.

(** Rounding does not cross an integer below 2^53: such integers are
    binary64 values. *)
Lemma round_binary_between x (lo hi : Z) :
  (0 < x)%Q -> (inject_Z lo <= x <= inject_Z hi)%Q -> hi < 2 ^ 53 ->
  (inject_Z lo <= round_binary 53 x <= inject_Z hi)%Q.
Proof.
  intros Hx [Lo Hi] Hhi. rewrite round_binary_unfold by exact Hx.
  set (e := binade x).
  destruct (binade_spec x Hx) as [Be _]. fold e in Be.
  assert (He : e < 53).
  { apply (Qpower_lt_compat_l_inv 2); [|reflexivity].
    apply Qle_lt_trans with x; [exact Be|].
    apply Qle_lt_trans with (inject_Z hi); [exact Hi|].
    change (Qpower 2 53) with (inject_Z (2 ^ 53)). rewrite <- Zlt_Qlt. exact Hhi. }
  set (k := 52 - e). assert (Hk : 0 <= k) by (unfold k; lia).
  set (ulp := Qpower 2 (e - 53 + 1)).
  assert (P : 0 < 2 ^ k) by (apply Z.pow_pos_nonneg; lia).
  assert (Pq : (0 < inject_Z (2 ^ k))%Q) by (rewrite Zlt_Qlt in P; exact P).
  assert (Eu : (ulp == / inject_Z (2 ^ k))%Q).
  { unfold ulp. replace (e - 53 + 1) with (- k) by (unfold k; lia).
    rewrite Qpower_opp, (Zpower_Qpower 2 k Hk). reflexivity. }
  assert (Ex : (x / ulp == x * inject_Z (2 ^ k))%Q).
  { rewrite Eu. field. lra. }
  assert (B : lo * 2 ^ k <= round_half_even (x / ulp) <= hi * 2 ^ k).
  { apply round_half_even_between. rewrite !inject_Z_mult, Ex. split.
    - apply Qmult_le_compat_r; lra.
    - apply Qmult_le_compat_r; lra. }
  destruct B as [B1 B2]. rewrite Zle_Qle, inject_Z_mult in B1, B2.
  set (m := inject_Z (round_half_even (x / ulp))) in *.
  rewrite Eu. split.
  - apply Qle_shift_div_l; [exact Pq | exact B1].
  - apply Qle_shift_div_r; [exact Pq | exact B2].
Qed.

Lemma round_double_error x :
  (Qabs (round_double x - x) <= Qabs x * (1 # 2 ^ 53))%Q.
Proof.
  unfold round_double, Qltb, to_double.
  destruct (Qle_bool 0 x) eqn:E; cbn [negb].
  - apply Qle_bool_iff in E.
    destruct (Qlt_le_dec 0 x) as [Hx|Hx].
    + rewrite (Qabs_pos x E). apply round_binary_error. exact Hx.
    + assert (Z0 : Qle_bool x 0 = true) by (apply Qle_bool_iff; exact Hx).
      unfold round_binary. rewrite Z0.
      setoid_replace (x - x)%Q with 0%Q by ring. rewrite (Qabs_pos x E).
      simpl. setoid_replace x with 0%Q by lra. discriminate.
  - assert (Hx : (x < 0)%Q).
    { apply Qnot_le_lt. intros C. apply Qle_bool_iff in C. congruence. }
    pose proof (round_binary_error (- x)) as R.
    assert (Hn : (0 < - x)%Q) by lra. specialize (R Hn).
    rewrite (Qabs_neg x) by lra.
    apply Qabs_Qle_condition in R. apply Qabs_Qle_condition. split; lra.
Qed.

Lemma round_double_between x (lo hi : Z) :
  (inject_Z lo <= x <= inject_Z hi)%Q -> 0 <= lo -> hi < 2 ^ 53 ->
  (inject_Z lo <= round_double x <= inject_Z hi)%Q.
Proof.
  intros [Lo Hi] Hlo Hhi.
  assert (L0 : (0 <= inject_Z lo)%Q) by (rewrite Zle_Qle in Hlo; exact Hlo).
  assert (X0 : (0 <= x)%Q) by lra.
  unfold round_double, Qltb, to_double.
  assert (E : Qle_bool 0 x = true) by (apply Qle_bool_iff; exact X0).
  rewrite E. cbn [negb].
  destruct (Qlt_le_dec 0 x) as [Hx|Hx].
  - apply round_binary_between; [exact Hx | split; assumption | exact Hhi].
  - unfold round_binary.
    assert (Z0 : Qle_bool x 0 = true) by (apply Qle_bool_iff; exact Hx).
    rewrite Z0. split; assumption.
Qed.

(** Truncation leaves a fraction below one, of the sign of the value. *)
Lemma Qtrunc_fraction x :
  (Qabs (x - inject_Z (Qtrunc x)) < 1)%Q
  /\ ((0 <= x)%Q -> (0 <= x - inject_Z (Qtrunc x))%Q).
Proof.
  destruct x as [n d]. unfold Qtrunc. cbn [Qnum Qden].
  pose proof (Z.quot_rem' n (Z.pos d)) as E.
  assert (F : ((n # d) - inject_Z (Z.quot n (Z.pos d)) == Z.rem n (Z.pos d) # d)%Q).
  { unfold Qeq, Qminus, Qplus, Qopp, inject_Z. cbn [Qnum Qden]. nia. }
  split.
  - rewrite F. apply Qabs_Qlt_condition.
    pose proof (Z.rem_bound_abs n (Z.pos d) ltac:(lia)) as B.
    unfold Qlt. cbn [Qnum Qden Qopp]. split; lia.
  - intros Hx. rewrite F.
    assert (Hn : 0 <= n) by (unfold Qle in Hx; cbn in Hx; lia).
    pose proof (Z.rem_nonneg n (Z.pos d) ltac:(lia) Hn) as B.
    unfold Qle. cbn [Qnum Qden]. lia.
Qed.

Lemma fmod_360 (x : Q) :
  (Qabs (fmod x 360) < 360)%Q
  /\ ((0 <= x)%Q -> (0 <= fmod x 360)%Q)
  /\ (fmod x 360 == x - inject_Z (Qtrunc (x / 360)) * 360)%Q.
Proof.
  destruct (Qtrunc_fraction (x / 360)) as [A B].
  assert (E : (fmod x 360 == 360 * (x / 360 - inject_Z (Qtrunc (x / 360))))%Q).
  { unfold fmod. field. }
  split; [|split].
  - rewrite E. apply Qabs_Qlt_condition in A. apply Qabs_Qlt_condition. split; lra.
  - intros Hx. rewrite E.
    assert (H0 : (0 <= x / 360)%Q) by (apply Qle_shift_div_l; lra).
    specialize (B H0). lra.
  - reflexivity.
Qed.

Lemma round_half_even_near y (m : Z) :
  (Qabs (y - inject_Z m) < 1 # 2)%Q -> round_half_even y = m.
Proof.
  intros A. pose proof (round_half_even_error y) as R.
  apply Qabs_Qlt_condition in A. apply Qabs_Qle_condition in R.
  destruct A as [A1 A2]. destruct R as [R1 R2].
  set (r := round_half_even y) in *.
  assert (L : (inject_Z (m - 1) < inject_Z r)%Q).
  { unfold Z.sub. rewrite inject_Z_plus, inject_Z_opp. change (inject_Z 1) with 1%Q. lra. }
  assert (U : (inject_Z r < inject_Z (m + 1))%Q).
  { rewrite inject_Z_plus. change (inject_Z 1) with 1%Q. lra. }
  rewrite <- Zlt_Qlt in L, U. lia.
Qed.

(** Just below 360 a [double] is a multiple of 2^-44: what lies within a
    quarter of that of 360 rounds to 360. *)
Lemma round_double_360 x :
  (360 - (1 # 2 ^ 46) <= x <= 360)%Q -> (round_double x == 360)%Q.
Proof.
  change (2 ^ 46)%positive with 70368744177664%positive. intros [Lo Hi].
  assert (Hx : (0 < x)%Q) by lra.
  unfold round_double, Qltb, to_double.
  assert (E : Qle_bool 0 x = true) by (apply Qle_bool_iff; lra).
  rewrite E. cbn [negb]. rewrite round_binary_unfold by exact Hx.
  destruct (binade_spec x Hx) as [B1 B2].
  assert (He : binade x = 8).
  { assert (H9 : binade x < 9).
    { apply (Qpower_lt_compat_l_inv 2); [|reflexivity].
      apply Qle_lt_trans with x; [exact B1|].
      apply Qle_lt_trans with 360%Q; [exact Hi | reflexivity]. }
    assert (H8 : 8 < binade x + 1).
    { apply (Qpower_lt_compat_l_inv 2); [|reflexivity].
      apply Qle_lt_trans with x; [|exact B2].
      apply Qle_trans with (360 - (1 # 70368744177664))%Q; [discriminate | exact Lo]. }
    lia. }
  rewrite He.
  change (Qpower 2 (8 - 53 + 1)) with (1 # 17592186044416)%Q.
  rewrite (round_half_even_near _ (360 * 17592186044416)).
  - reflexivity.
  - assert (Y : (x / (1 # 17592186044416) == x * 17592186044416)%Q) by (field; discriminate).
    rewrite Y. change (inject_Z (360 * 17592186044416)) with (360 * 17592186044416)%Q.
    apply Qabs_Qlt_condition. split; lra.
Qed.

Lemma round_double_zero x : (x == 0)%Q -> (round_double x == 0)%Q.
Proof.
  intros Hx. unfold round_double, Qltb, to_double, round_binary.
  assert (E : Qle_bool 0 x = true) by (apply Qle_bool_iff; lra).
  assert (F : Qle_bool x 0 = true) by (apply Qle_bool_iff; lra).
  rewrite E, F. exact Hx.
Qed.

(** ** The library models on known values *)

Example sprintf_d_plain : sprintf_d false 0 (-2) = "-2".
Proof. reflexivity. Qed.

Example sprintf_d_padded : sprintf_d false 2 6 = "06" /\ sprintf_d false 4 250 = "0250".
Proof. split; reflexivity. Qed.

Example sprintf_d_signed :
  sprintf_d true 3 (-2) = "-02" /\ sprintf_d true 3 0 = "+00" /\ sprintf_d true 3 11 = "+11".
Proof. repeat split; reflexivity. Qed.

Example sscanf_date : sscanf_dcdcd "06/15/23" = Some (6, 15, 23).
Proof. reflexivity. Qed.

Example sscanf_short : sscanf_dcdcd "10:30" = None.
Proof. reflexivity. Qed.

Example atoi_offset : atoi "-02" = -2 /\ atoi "+05:00" = 5 /\ atoi "x" = 0.
Proof. repeat split; reflexivity. Qed.

Example asi_error_code_e5 :
  asi_error_code "e5" = 5 /\ asi_error_code "0" = 0 /\ asi_error_code "e" = 0.
Proof. repeat split; reflexivity. Qed.

Example asi_error_string_range :
  asi_error_string 8 = "Unkonwn error" /\ asi_error_string 9 = EmptyString
  /\ asi_error_string (-1) = EmptyString.
Proof. repeat split; reflexivity. Qed.

Example gmtime_r_leap_day :
  let t := gmtime_r 951825600 in
  (tm_year t, tm_mon t, tm_mday t, tm_hour t, tm_min t, tm_sec t) = (100, 1, 29, 12, 0, 0).
Proof. reflexivity. Qed.

Example gmtime_r_before_epoch :
  let t := gmtime_r (-1) in
  (tm_year t, tm_mon t, tm_mday t, tm_hour t, tm_min t, tm_sec t) = (69, 11, 31, 23, 59, 59).
Proof. reflexivity. Qed.

(** 0.95 is not a binary fraction: as a [float] it lies below 0.95 and
    prints as 0.9; 0.25 and 0.75 are exact and their ties go to even. *)
Example guide_rate_rounding :
  sprintf_1f (to_float (to_double (95 # 100))) = "0.9"
  /\ sprintf_1f (to_float (to_double (25 # 100))) = "0.2"
  /\ sprintf_1f (to_float (to_double (75 # 100))) = "0.8".
Proof. repeat split; vm_compute; reflexivity. Qed.

Example float_of_095 : (to_float (to_double (95 # 100)) == 15938355 # 16777216)%Q.
Proof. vm_compute. reflexivity. Qed.

Example fmod_sign : (fmod 370 360 == 10)%Q /\ (fmod (-10) 360 == -10)%Q.
Proof. split; vm_compute; reflexivity. Qed.

(** The complement of a longitude is rounded before it is printed: for the
    [double] next below the [double] nearest to 0.1 the exact complement
    has 54 minutes, the one the driver computes 53. *)
Example longitude_complement_rounding :
  let longitude := (3602879701896396 # 36028797018963968)%Q in
  set_longitude_command (H := reference_host) (fmod (round_double (360 - longitude)) 360)
  = ":Sg359*53#"
  /\ set_longitude_command (H := reference_host) (fmod (360 - longitude) 360) = ":Sg359*54#".
Proof. split; vm_compute; reflexivity. Qed.

(** Next to zero the longitude read is rounded to an end of its range. *)
Example longitude_read_rounding :
  (round_double (360 - round_double (- (1 # 2 ^ 70) + 360)) == 0)%Q
  /\ (round_double (360 - (1 # 2 ^ 70)) == 360)%Q.
Proof. split; vm_compute; reflexivity. Qed.

(** ** The channel: what an exchange does to the device and to the wire *)

Lemma skipn_length_app {A : Type} (l l' : list A) :
  skipn (List.length l) (l ++ l') = l'.
Proof.
  induction l as [|a l IH]; simpl; [reflexivity | exact IH].
Qed.

Lemma issued_extension (d d' : indigo_device) (l : list string) :
  wire (port d') = (wire (port d) ++ l)%list -> issued d d' = l.
Proof.
  intros E. unfold issued. rewrite E. apply skipn_length_app.
Qed.

Lemma issued_nothing (d : indigo_device) : issued d d = [].
Proof.
  apply issued_extension. now rewrite app_nil_r.
Qed.

(** An exchange changes the port and nothing else. *)
Lemma asi_command_frame d c r m s :
  snd (asi_command d c r m s) = set_port d (port (snd (asi_command d c r m s))).
Proof.
  unfold asi_command.
  destruct (drain (rx (port d))) as [[|] evs]; simpl; [|reflexivity].
  destruct (indigo_write (set_rx (port d) evs) c) as [w l].
  destruct r; [reflexivity|].
  destruct (collect (Z.to_nat m) (rx l)) as [[ok stored] evs']. reflexivity.
Qed.

(** The command goes on the wire exactly when the flush succeeds. *)
Lemma asi_command_wire d c r m s :
  wire (port (snd (asi_command d c r m s)))
  = (wire (port d) ++ if fst (drain (rx (port d))) then [c] else [])%list.
Proof.
  unfold asi_command.
  destruct (drain (rx (port d))) as [[|] evs]; simpl.
  - unfold indigo_write; simpl.
    destruct (wr (port d)); destruct r; simpl; try reflexivity;
      match goal with
      | |- context [collect ?n ?e] => destruct (collect n e) as [[ok stored] evs']
      end; reflexivity.
  - now rewrite app_nil_r.
Qed.

Lemma asi_command_flushed d c r m s resp d' :
  asi_command d c r m s = (true, resp, d') -> fst (drain (rx (port d))) = true.
Proof.
  unfold asi_command.
  destruct (drain (rx (port d))) as [[|] evs]; simpl; [reflexivity|].
  intros E. inversion E.
Qed.

Lemma asi_command_sent d c r m s resp d' :
  asi_command d c r m s = (true, resp, d') ->
  wire (port d') = (wire (port d) ++ [c])%list.
Proof.
  intros E. pose proof (asi_command_wire d c r m s) as W.
  rewrite (asi_command_flushed _ _ _ _ _ _ _ E) in W.
  now rewrite E in W.
Qed.

(** Without a response to read, the exchange succeeds when its flush does. *)
Lemma asi_command_NULL d c m s :
  fst (fst (asi_command d c NULL m s)) = fst (drain (rx (port d))).
Proof.
  unfold asi_command.
  destruct (drain (rx (port d))) as [[|] evs]; simpl; [|reflexivity].
  destruct (indigo_write (set_rx (port d) evs) c) as [w l]. reflexivity.
Qed.

Lemma asi_command_NULL_rx d c m s :
  rx (port (snd (asi_command d c NULL m s))) = snd (drain (rx (port d))).
Proof.
  unfold asi_command.
  destruct (drain (rx (port d))) as [[|] evs]; simpl; [|reflexivity].
  unfold indigo_write; simpl. destruct (wr (port d)); reflexivity.
Qed.

(** The outcome of an exchange is decided by the port alone. *)
Lemma asi_command_link d d' c r m s :
  port d = port d' ->
  fst (asi_command d c r m s) = fst (asi_command d' c r m s)
  /\ port (snd (asi_command d c r m s)) = port (snd (asi_command d' c r m s)).
Proof.
  intros E. unfold asi_command. rewrite E.
  destruct (drain (rx (port d'))) as [[|] evs]; simpl; [|split; reflexivity].
  destruct (indigo_write (set_rx (port d') evs) c) as [w l].
  destruct r; [split; reflexivity|].
  destruct (collect (Z.to_nat m) (rx l)) as [[ok stored] evs']. split; reflexivity.
Qed.

(** The result of the write is looked at nowhere. *)
Lemma asi_command_write_blind d w c r m s :
  fst (asi_command (failing_writes d w) c r m s) = fst (asi_command d c r m s).
Proof.
  unfold asi_command, failing_writes, indigo_write; simpl.
  destruct (drain (rx (port d))) as [[|] evs]; simpl; [|reflexivity].
  destruct w, (wr (port d)); destruct r; simpl; try reflexivity;
    match goal with
    | |- context [collect ?n ?e] => destruct (collect n e) as [[ok stored] evs']
    end; reflexivity.
Qed.

(** *** The response loop *)

Lemma collect_clean room evs ok stored evs' :
  collect room evs = (ok, stored, evs') ->
  Forall (fun c => c <> "#"%char /\ char_negative c = false)
         (list_ascii_of_string stored).
Proof.
  revert evs ok stored evs'.
  induction room as [|room IH]; intros evs ok stored evs'; simpl.
  - intros E; inversion E; subst. constructor.
  - destruct evs as [|[c| | |] evs]; try (intros E; inversion E; subst; constructor).
    destruct (Ascii.eqb (stored_for c) "#") eqn:T.
    + intros E; inversion E; subst. constructor.
    + destruct (collect room evs) as [[ok1 stored1] evs1] eqn:C.
      intros E; inversion E; subst. simpl. constructor.
      * split.
        -- apply Ascii.eqb_neq. exact T.
        -- unfold stored_for. destruct (char_negative c) eqn:N; [reflexivity | exact N].
      * eapply IH. exact C.
Qed.

Lemma collect_until_terminator room bs rest :
  ~ In "#"%char bs -> (List.length bs < room)%nat ->
  collect room (map RxByte bs ++ RxByte "#" :: rest)
  = (true, string_of_list_ascii (map stored_for bs), rest).
Proof.
  revert room. induction bs as [|b bs IH]; intros room Hin Hlen; simpl in *.
  - destruct room; [lia|]. reflexivity.
  - destruct room; [lia|]. simpl.
    assert (Hb : Ascii.eqb (stored_for b) "#" = false).
    { apply Ascii.eqb_neq. unfold stored_for.
      destruct (char_negative b); [discriminate|]. intros ->. apply Hin. now left. }
    rewrite Hb. rewrite IH; [reflexivity | tauto | lia].
Qed.

Lemma collect_read_failure room bs rest :
  ~ In "#"%char bs -> (List.length bs < room)%nat ->
  fst (fst (collect room (map RxByte bs ++ RxReadErr :: rest))) = false.
Proof.
  revert room. induction bs as [|b bs IH]; intros room Hin Hlen; simpl in *.
  - destruct room; [lia|]. reflexivity.
  - destruct room; [lia|]. simpl.
    assert (Hb : Ascii.eqb (stored_for b) "#" = false).
    { apply Ascii.eqb_neq. unfold stored_for.
      destruct (char_negative b); [discriminate|]. intros ->. apply Hin. now left. }
    rewrite Hb.
    specialize (IH room (fun H => Hin (or_intror H)) ltac:(lia)).
    destruct (collect room (map RxByte bs ++ RxReadErr :: rest)) as [[ok stored] evs].
    exact IH.
Qed.

Lemma drain_stale stale evs :
  drain (map RxByte stale ++ RxQuiet :: evs) = (true, evs).
Proof.
  induction stale as [|b stale IH]; simpl; [reflexivity | exact IH].
Qed.

(** C9: an exchange that reads a response returns the bytes received before
    the terminator: the response never holds ['#'] nor a byte with its high
    bit set, and when the device sends [bs] and then ['#'] after the flush,
    the response is [bs] with every high-bit byte replaced by [':'], the
    terminator being consumed and left out. *)
Theorem asi_command_reply_bytes device command max sleep :
  (forall result response device',
      asi_command device command BUFFER max sleep = (result, response, device') ->
      Forall (fun c => c <> "#"%char /\ char_negative c = false)
             (list_ascii_of_string response))
  /\
  (forall stale bs rest,
      rx (port device)
      = (map RxByte stale ++ RxQuiet :: map RxByte bs ++ RxByte "#" :: rest)%list ->
      ~ In "#"%char bs ->
      (List.length bs < Z.to_nat max)%nat ->
      exists device',
        asi_command device command BUFFER max sleep
        = (true, string_of_list_ascii (map stored_for bs), device')
        /\ rx (port device') = rest).
Proof.
  split.
  - intros result response device'. unfold asi_command.
    destruct (drain (rx (port device))) as [[|] evs]; simpl.
    + destruct (indigo_write (set_rx (port device) evs) command) as [w l].
      destruct (collect (Z.to_nat max) (rx l)) as [[ok stored] evs'] eqn:C.
      intros E; inversion E; subst. eapply collect_clean. exact C.
    + intros E; inversion E; subst. constructor.
  - intros stale bs rest Hrx Hin Hlen. unfold asi_command.
    rewrite Hrx, drain_stale; simpl.
    unfold indigo_write; simpl.
    destruct (wr (port device)); simpl;
      rewrite (collect_until_terminator _ bs rest Hin Hlen);
      eexists; split; reflexivity.
Qed.

Lemma asi_command_reply_bytes_witness :
  let device := receiving idle_device (reply (String (ascii_of_nat 200) "AM5")) in
  Forall (fun c => c <> "#"%char /\ char_negative c = false)
         (list_ascii_of_string (snd (fst (asi_command device ":GVP#" BUFFER 128 0))))
  /\ exists device',
       asi_command device ":GVP#" BUFFER 128 0 = (true, ":AM5", device')
       /\ rx (port device') = [].
Proof.
  intro device.
  destruct (asi_command_reply_bytes device ":GVP#" 128 0) as [A B].
  split.
  - apply (A (fst (fst (asi_command device ":GVP#" BUFFER 128 0)))
             (snd (fst (asi_command device ":GVP#" BUFFER 128 0)))
             (snd (asi_command device ":GVP#" BUFFER 128 0))).
    reflexivity.
  - apply (B [] (list_ascii_of_string (String (ascii_of_nat 200) "AM5")) []).
    + reflexivity.
    + simpl. intros [E|[E|[E|[E|[]]]]]; discriminate E.
    + vm_compute. lia.
Defined.

(** C3, as stated, fails: the write of [":Te#"] fails and the exchange
    reports success. *)
Lemma asi_command_write_failure_unreported :
  let device := failing_writes idle_device [false] in
  fst (indigo_write (port device) ":Te#") = false
  /\ fst (fst (asi_command device ":Te#" NULL 0 0)) = true.
Proof.
  split; reflexivity.
Qed.

(** C3, amended: a failure of [select] or [read] during the flush, and a
    failure of [read] while the response is collected, make the exchange
    return failure; the result of the write is not examined, so the outcome
    of the exchange is the same whether its write succeeds or fails, and an
    exchange without a response returns success whenever its flush did. *)
Theorem asi_command_reported_failures device command response max sleep :
  (fst (drain (rx (port device))) = false ->
   fst (fst (asi_command device command response max sleep)) = false)
  /\
  (forall stale bs rest,
      rx (port device)
      = (map RxByte stale ++ RxQuiet :: map RxByte bs ++ RxReadErr :: rest)%list ->
      ~ In "#"%char bs ->
      (List.length bs < Z.to_nat max)%nat ->
      fst (fst (asi_command device command BUFFER max sleep)) = false)
  /\
  (forall w,
      fst (asi_command (failing_writes device w) command response max sleep)
      = fst (asi_command device command response max sleep))
  /\
  (forall w,
      fst (drain (rx (port device))) = true ->
      fst (fst (asi_command (failing_writes device w) command NULL max sleep)) = true).
Proof.
  repeat split.
  - intros D. unfold asi_command.
    destruct (drain (rx (port device))) as [[|] evs]; simpl in *;
      [discriminate D | reflexivity].
  - intros stale bs rest Hrx Hin Hlen. unfold asi_command.
    rewrite Hrx, drain_stale; simpl.
    unfold indigo_write; simpl.
    pose proof (collect_read_failure _ bs rest Hin Hlen) as F.
    destruct (wr (port device)); simpl;
      destruct (collect (Z.to_nat max) (map RxByte bs ++ RxReadErr :: rest))
        as [[ok stored] evs]; exact F.
  - intros w. apply asi_command_write_blind.
  - intros w D. rewrite asi_command_write_blind, asi_command_NULL. exact D.
Qed.

Lemma asi_command_reported_failures_witness :
  let device := receiving idle_device [RxQuiet; RxByte "1"; RxReadErr] in
  fst (fst (asi_command (receiving idle_device [RxSelErr]) ":GR#" BUFFER 128 0)) = false
  /\ fst (fst (asi_command device ":GR#" BUFFER 128 0)) = false
  /\ fst (fst (asi_command (failing_writes device [false]) ":Q#" NULL 0 0)) = true.
Proof.
  intro device. split; [|split].
  - apply (asi_command_reported_failures (receiving idle_device [RxSelErr])
             ":GR#" BUFFER 128 0).
    reflexivity.
  - apply (proj1 (proj2 (asi_command_reported_failures device ":GR#" BUFFER 128 0))
             [] ["1"%char] []).
    + reflexivity.
    + simpl. intros [E|[]]; discriminate E.
    + vm_compute. lia.
  - apply (asi_command_reported_failures device ":Q#" NULL 0 0). reflexivity.
Defined.

(* ------------------------------------------------------------------ *)
(** ** Guide pulses *)

(** C10: a guide pulse on either axis with both durations at most zero
    returns failure, writes nothing and leaves the device as it was. *)
Theorem guide_pulse_without_duration device a b :
  a <= 0 -> b <= 0 ->
  asi_guide_dec device a b = (false, device)
  /\ asi_guide_ra device a b = (false, device)
  /\ issued device (snd (asi_guide_dec device a b)) = []
  /\ issued device (snd (asi_guide_ra device a b)) = [].
Proof.
  intros Ha Hb. unfold asi_guide_dec, asi_guide_ra.
  destruct (Z.gtb_spec a 0); [lia|]. destruct (Z.gtb_spec b 0); [lia|].
  simpl. repeat split; try reflexivity; apply issued_nothing.
Qed.

Lemma guide_pulse_without_duration_witness :
  0 <= 0 /\ -250 <= 0
  /\ asi_guide_dec idle_device 0 (-250) = (false, idle_device)
  /\ asi_guide_ra idle_device 0 (-250) = (false, idle_device).
Proof.
  assert (A : 0 <= 0) by lia. assert (B : -250 <= 0) by lia.
  destruct (guide_pulse_without_duration idle_device 0 (-250) A B) as (G1 & G2 & _).
  exact (conj A (conj B (conj G1 G2))).
Defined.

(* ------------------------------------------------------------------ *)
(** ** Motion per axis *)

Lemma asi_command_NULL_ok d c m s :
  fst (drain (rx (port d))) = true ->
  exists d',
    asi_command d c NULL m s = (true, EmptyString, d')
    /\ d' = set_port d (port d')
    /\ rx (port d') = snd (drain (rx (port d)))
    /\ wire (port d') = (wire (port d) ++ [c])%list.
Proof.
  intros D.
  pose proof (asi_command_frame d c NULL m s) as F.
  pose proof (asi_command_NULL_rx d c m s) as R.
  pose proof (asi_command_wire d c NULL m s) as W.
  pose proof (asi_command_NULL d c m s) as N.
  rewrite D in W, N.
  assert (S : snd (fst (asi_command d c NULL m s)) = EmptyString).
  { unfold asi_command.
    destruct (drain (rx (port d))) as [[|] evs]; simpl; [|reflexivity].
    destruct (indigo_write (set_rx (port d) evs) c). reflexivity. }
  destruct (asi_command d c NULL m s) as [[ok stored] d']; simpl in *; subst.
  exists d'. repeat split; assumption.
Qed.

Lemma flushes_2 evs :
  flushes 2 evs = true ->
  fst (drain evs) = true /\ fst (drain (snd (drain evs))) = true.
Proof.
  simpl. destruct (drain evs) as [ok evs']; simpl.
  destruct (drain evs') as [ok' evs'']; simpl.
  destruct ok, ok'; simpl; intros E; try discriminate E; split; reflexivity.
Qed.

(** A recorded direction is stopped before anything else, whatever the
    switches ask for; then the requested direction is started. *)
Lemma asi_motion_dec_recorded device r q :
  flushes 2 (rx (port device)) = true ->
  In r ["n"%char; "s"%char] ->
  lastMotionNS device = r ->
  requested_dec device = Some q ->
  exists device',
    asi_motion_dec device = (true, device')
    /\ issued device device' = [stop_command r; start_command q]
    /\ lastMotionNS device' = q.
Proof.
  intros Fl Hr Hlast Hreq. apply flushes_2 in Fl as [D1 D2].
  unfold asi_motion_dec, requested_dec in *. rewrite Hlast.
  assert (Hstop : exists d1,
             (if Ascii.eqb r "n"
              then let '(result, _, device0) := asi_command device ":Qn#" NULL 0 0 in
                   (result, device0)
              else if Ascii.eqb r "s"
                   then let '(result, _, device0) := asi_command device ":Qs#" NULL 0 0 in
                        (result, device0)
                   else (true, device)) = (true, d1)
             /\ d1 = set_port device (port d1)
             /\ rx (port d1) = snd (drain (rx (port device)))
             /\ wire (port d1) = (wire (port device) ++ [stop_command r])%list).
  { destruct Hr as [<-|[<-|[]]]; simpl.
    - destruct (asi_command_NULL_ok device ":Qn#" 0 0 D1) as (d1 & E & F & R & W).
      rewrite E. exists d1. repeat split; assumption.
    - destruct (asi_command_NULL_ok device ":Qs#" 0 0 D1) as (d1 & E & F & R & W).
      rewrite E. exists d1. repeat split; assumption. }
  destruct Hstop as (d1 & -> & F & R & W).
  assert (Hsw : sw d1 = sw device) by (rewrite F; reflexivity).
  rewrite Hsw.
  destruct (sw device MOUNT_MOTION_NORTH_ITEM).
  - inversion Hreq; subst q.
    assert (D : fst (drain (rx (port (set_lastMotionNS d1 "n")))) = true)
      by (simpl; rewrite R; exact D2).
    destruct (asi_command_NULL_ok _ ":Mn#" 0 0 D) as (d2 & E2 & F2 & R2 & W2).
    rewrite E2. exists d2. split; [reflexivity|]. split.
    + apply issued_extension. rewrite W2. simpl. rewrite W, <- app_assoc. reflexivity.
    + rewrite F2. reflexivity.
  - destruct (sw device MOUNT_MOTION_SOUTH_ITEM); [|discriminate Hreq].
    inversion Hreq; subst q.
    assert (D : fst (drain (rx (port (set_lastMotionNS d1 "s")))) = true)
      by (simpl; rewrite R; exact D2).
    destruct (asi_command_NULL_ok _ ":Ms#" 0 0 D) as (d2 & E2 & F2 & R2 & W2).
    rewrite E2. exists d2. split; [reflexivity|]. split.
    + apply issued_extension. rewrite W2. simpl. rewrite W, <- app_assoc. reflexivity.
    + rewrite F2. reflexivity.
Qed.

Lemma asi_motion_ra_recorded device r q :
  flushes 2 (rx (port device)) = true ->
  In r ["w"%char; "e"%char] ->
  lastMotionWE device = r ->
  requested_ra device = Some q ->
  exists device',
    asi_motion_ra device = (true, device')
    /\ issued device device' = [stop_command r; start_command q]
    /\ lastMotionWE device' = q.
Proof.
  intros Fl Hr Hlast Hreq. apply flushes_2 in Fl as [D1 D2].
  unfold asi_motion_ra, requested_ra in *. rewrite Hlast.
  assert (Hstop : exists d1,
             (if Ascii.eqb r "w"
              then let '(result, _, device0) := asi_command device ":Qw#" NULL 0 0 in
                   (result, device0)
              else if Ascii.eqb r "e"
                   then let '(result, _, device0) := asi_command device ":Qe#" NULL 0 0 in
                        (result, device0)
                   else (true, device)) = (true, d1)
             /\ d1 = set_port device (port d1)
             /\ rx (port d1) = snd (drain (rx (port device)))
             /\ wire (port d1) = (wire (port device) ++ [stop_command r])%list).
  { destruct Hr as [<-|[<-|[]]]; simpl.
    - destruct (asi_command_NULL_ok device ":Qw#" 0 0 D1) as (d1 & E & F & R & W).
      rewrite E. exists d1. repeat split; assumption.
    - destruct (asi_command_NULL_ok device ":Qe#" 0 0 D1) as (d1 & E & F & R & W).
      rewrite E. exists d1. repeat split; assumption. }
  destruct Hstop as (d1 & -> & F & R & W).
  assert (Hsw : sw d1 = sw device) by (rewrite F; reflexivity).
  rewrite Hsw.
  destruct (sw device MOUNT_MOTION_WEST_ITEM).
  - inversion Hreq; subst q.
    assert (D : fst (drain (rx (port (set_lastMotionWE d1 "w")))) = true)
      by (simpl; rewrite R; exact D2).
    destruct (asi_command_NULL_ok _ ":Mw#" 0 0 D) as (d2 & E2 & F2 & R2 & W2).
    rewrite E2. exists d2. split; [reflexivity|]. split.
    + apply issued_extension. rewrite W2. simpl. rewrite W, <- app_assoc. reflexivity.
    + rewrite F2. reflexivity.
  - destruct (sw device MOUNT_MOTION_EAST_ITEM); [|discriminate Hreq].
    inversion Hreq; subst q.
    assert (D : fst (drain (rx (port (set_lastMotionWE d1 "e")))) = true)
      by (simpl; rewrite R; exact D2).
    destruct (asi_command_NULL_ok _ ":Me#" 0 0 D) as (d2 & E2 & F2 & R2 & W2).
    rewrite E2. exists d2. split; [reflexivity|]. split.
    + apply issued_extension. rewrite W2. simpl. rewrite W, <- app_assoc. reflexivity.
    + rewrite F2. reflexivity.
Qed.

(** With no direction recorded, the start is all that is written. *)
Lemma asi_motion_dec_fresh device q :
  fst (drain (rx (port device))) = true ->
  lastMotionNS device <> "n"%char -> lastMotionNS device <> "s"%char ->
  requested_dec device = Some q ->
  exists device',
    asi_motion_dec device = (true, device')
    /\ issued device device' = [start_command q]
    /\ lastMotionNS device' = q.
Proof.
  intros D Hn Hs Hreq. unfold asi_motion_dec, requested_dec in *.
  apply Ascii.eqb_neq in Hn, Hs. rewrite Hn, Hs.
  destruct (sw device MOUNT_MOTION_NORTH_ITEM).
  - inversion Hreq; subst q.
    destruct (asi_command_NULL_ok (set_lastMotionNS device "n") ":Mn#" 0 0 D)
      as (d2 & E2 & F2 & R2 & W2).
    rewrite E2. exists d2. split; [reflexivity|]. split.
    + apply issued_extension. rewrite W2. reflexivity.
    + rewrite F2. reflexivity.
  - destruct (sw device MOUNT_MOTION_SOUTH_ITEM); [|discriminate Hreq].
    inversion Hreq; subst q.
    destruct (asi_command_NULL_ok (set_lastMotionNS device "s") ":Ms#" 0 0 D)
      as (d2 & E2 & F2 & R2 & W2).
    rewrite E2. exists d2. split; [reflexivity|]. split.
    + apply issued_extension. rewrite W2. reflexivity.
    + rewrite F2. reflexivity.
Qed.

Lemma asi_motion_ra_fresh device q :
  fst (drain (rx (port device))) = true ->
  lastMotionWE device <> "w"%char -> lastMotionWE device <> "e"%char ->
  requested_ra device = Some q ->
  exists device',
    asi_motion_ra device = (true, device')
    /\ issued device device' = [start_command q]
    /\ lastMotionWE device' = q.
Proof.
  intros D Hn Hs Hreq. unfold asi_motion_ra, requested_ra in *.
  apply Ascii.eqb_neq in Hn, Hs. rewrite Hn, Hs.
  destruct (sw device MOUNT_MOTION_WEST_ITEM).
  - inversion Hreq; subst q.
    destruct (asi_command_NULL_ok (set_lastMotionWE device "w") ":Mw#" 0 0 D)
      as (d2 & E2 & F2 & R2 & W2).
    rewrite E2. exists d2. split; [reflexivity|]. split.
    + apply issued_extension. rewrite W2. reflexivity.
    + rewrite F2. reflexivity.
  - destruct (sw device MOUNT_MOTION_EAST_ITEM); [|discriminate Hreq].
    inversion Hreq; subst q.
    destruct (asi_command_NULL_ok (set_lastMotionWE device "e") ":Me#" 0 0 D)
      as (d2 & E2 & F2 & R2 & W2).
    rewrite E2. exists d2. split; [reflexivity|]. split.
    + apply issued_extension. rewrite W2. reflexivity.
    + rewrite F2. reflexivity.
Qed.

(** C1, as stated, fails: the same request made twice writes a stop the
    second time.  North is asked of an idle mount, then asked again. *)
Lemma motion_same_direction_stops_first :
  let device := set_sw idle_device MOUNT_MOTION_NORTH_ITEM true in
  let moving := snd (asi_motion_dec device) in
  issued device moving = [":Mn#"]
  /\ lastMotionNS moving = "n"%char
  /\ requested_dec moving = Some "n"%char
  /\ issued moving (snd (asi_motion_dec moving)) = [":Qn#"; ":Mn#"].
Proof.
  repeat split.
Qed.

(** C1, amended: on either axis, a motion request made while a direction is
    recorded first writes the stop of the recorded direction, whether the
    request is for that same direction or for the opposite one, and then
    exactly one start, of the requested direction; the recorded direction
    becomes the requested one.  With no direction recorded the start is the
    only command written.  (The exchanges are taken to get past their
    flush.) *)
Theorem motion_axis_stop_then_start device r q :
  (flushes 2 (rx (port device)) = true ->
   In r ["n"%char; "s"%char] ->
   lastMotionNS device = r ->
   requested_dec device = Some q ->
   exists device',
     asi_motion_dec device = (true, device')
     /\ issued device device' = [stop_command r; start_command q]
     /\ lastMotionNS device' = q)
  /\
  (flushes 2 (rx (port device)) = true ->
   In r ["w"%char; "e"%char] ->
   lastMotionWE device = r ->
   requested_ra device = Some q ->
   exists device',
     asi_motion_ra device = (true, device')
     /\ issued device device' = [stop_command r; start_command q]
     /\ lastMotionWE device' = q)
  /\
  (fst (drain (rx (port device))) = true ->
   lastMotionNS device <> "n"%char -> lastMotionNS device <> "s"%char ->
   requested_dec device = Some q ->
   exists device',
     asi_motion_dec device = (true, device')
     /\ issued device device' = [start_command q]
     /\ lastMotionNS device' = q)
  /\
  (fst (drain (rx (port device))) = true ->
   lastMotionWE device <> "w"%char -> lastMotionWE device <> "e"%char ->
   requested_ra device = Some q ->
   exists device',
     asi_motion_ra device = (true, device')
     /\ issued device device' = [start_command q]
     /\ lastMotionWE device' = q).
Proof.
  split; [|split; [|split]].
  - apply asi_motion_dec_recorded.
  - apply asi_motion_ra_recorded.
  - apply asi_motion_dec_fresh.
  - apply asi_motion_ra_fresh.
Qed.

Lemma motion_axis_stop_then_start_witness :
  let north := set_sw idle_device MOUNT_MOTION_NORTH_ITEM true in
  let east := set_sw idle_device MOUNT_MOTION_EAST_ITEM true in
  (exists device',
      asi_motion_dec (set_lastMotionNS north "n") = (true, device')
      /\ issued (set_lastMotionNS north "n") device' = [":Qn#"; ":Mn#"]
      /\ lastMotionNS device' = "n"%char)
  /\ (exists device',
      asi_motion_dec (set_lastMotionNS north "s") = (true, device')
      /\ issued (set_lastMotionNS north "s") device' = [":Qs#"; ":Mn#"]
      /\ lastMotionNS device' = "n"%char)
  /\ (exists device',
      asi_motion_ra (set_lastMotionWE east "w") = (true, device')
      /\ issued (set_lastMotionWE east "w") device' = [":Qw#"; ":Me#"]
      /\ lastMotionWE device' = "e"%char)
  /\ (exists device',
      asi_motion_dec north = (true, device')
      /\ issued north device' = [":Mn#"]
      /\ lastMotionNS device' = "n"%char)
  /\ (exists device',
      asi_motion_ra east = (true, device')
      /\ issued east device' = [":Me#"]
      /\ lastMotionWE device' = "e"%char).
Proof.
  intros north east.
  split; [|split; [|split; [|split]]].
  - apply (proj1 (motion_axis_stop_then_start (set_lastMotionNS north "n") "n" "n")).
    + reflexivity.
    + simpl; tauto.
    + reflexivity.
    + reflexivity.
  - apply (proj1 (motion_axis_stop_then_start (set_lastMotionNS north "s") "s" "n")).
    + reflexivity.
    + simpl; tauto.
    + reflexivity.
    + reflexivity.
  - apply (proj1 (proj2 (motion_axis_stop_then_start (set_lastMotionWE east "w") "w" "e"))).
    + reflexivity.
    + simpl; tauto.
    + reflexivity.
    + reflexivity.
  - apply (proj1 (proj2 (proj2 (motion_axis_stop_then_start north "n" "n")))).
    + reflexivity.
    + discriminate.
    + discriminate.
    + reflexivity.
  - apply (proj2 (proj2 (proj2 (motion_axis_stop_then_start east "e" "e")))).
    + reflexivity.
    + discriminate.
    + discriminate.
    + reflexivity.
Defined.

(* ------------------------------------------------------------------ *)
(** ** Guide rate *)

(** With unequal arguments, which no call site passes, the upper test looks
    at [dec] and not at [ra]: a rate of 200 beside a declination rate of 50
    would go out as 2.0. *)
Remark asi_set_guide_rate_unequal_arguments :
  issued idle_device (snd (asi_set_guide_rate idle_device 200 50)) = [":Rg2.0#"]
  /\ fst (asi_set_guide_rate idle_device 200 50) = true.
Proof.
  split; reflexivity.
Qed.

(** The lower clamp works: below 10 the rate goes out as 0.1, as long as
    the declination rate does not trigger the upper clamp. *)
Lemma asi_set_guide_rate_below_minimum device ra dec :
  fst (drain (rx (port device))) = true ->
  ra < 10 -> dec <= 90 ->
  issued device (snd (asi_set_guide_rate device ra dec)) = [":Rg0.1#"].
Proof.
  intros D Hra Hdec. unfold asi_set_guide_rate.
  destruct (Z.ltb_spec ra 10); [|lia].
  destruct (Z.gtb_spec dec 90); [lia|].
  change (":Rg" ++ sprintf_1f (to_float (to_double (inject_Z 10 / 100))) ++ "#")
    with ":Rg0.1#".
  destruct (asi_command_NULL_ok device ":Rg0.1#" 0 0 D) as (d' & E & _ & _ & W).
  rewrite E. simpl. apply issued_extension. exact W.
Qed.

Lemma guide_rate_in_range (n : nat) :
  (n <= 80)%nat ->
  In (":Rg" ++ sprintf_1f (to_float (to_double (inject_Z (Z.of_nat n + 10) / 100))) ++ "#")
     guide_rate_commands.
Proof.
  intros Hn.
  do 81 (destruct n as [|n];
         [vm_compute; repeat (first [left; reflexivity | right]) |]).
  lia.
Qed.

(** Both callers in the driver pass the same number for [ra] and [dec];
    then the two tests do clamp, and the rate goes out between 0.1 and
    0.9. *)
Lemma asi_set_guide_rate_equal_rates device rate :
  fst (drain (rx (port device))) = true ->
  exists command,
    In command guide_rate_commands
    /\ issued device (snd (asi_set_guide_rate device rate rate)) = [command].
Proof.
  intros D. unfold asi_set_guide_rate.
  set (ra := if rate >? 90 then 90 else if rate <? 10 then 10 else rate).
  assert (Hra : 10 <= ra <= 90).
  { unfold ra. destruct (Z.gtb_spec rate 90), (Z.ltb_spec rate 10); lia. }
  pose proof (guide_rate_in_range (Z.to_nat (ra - 10)) ltac:(lia)) as Hin.
  replace (Z.of_nat (Z.to_nat (ra - 10)) + 10) with ra in Hin by lia.
  fold ra.
  match goal with
  | |- context [asi_command device ?c NULL 0 0] =>
      destruct (asi_command_NULL_ok device c 0 0 D) as (d' & E & _ & _ & W);
      rewrite E; exists c
  end.
  split; [exact Hin|]. simpl. apply issued_extension. exact W.
Qed.

(** The command for one rate passed as both arguments. *)
Lemma asi_set_guide_rate_one_rate device rate :
  fst (drain (rx (port device))) = true ->
  issued device (snd (asi_set_guide_rate device rate rate))
  = [":Rg" ++ sprintf_1f (to_float (to_double (inject_Z (Z.max 10 (Z.min 90 rate)) / 100)))
     ++ "#"].
Proof.
  intros D. unfold asi_set_guide_rate.
  assert (C : (if rate >? 90 then 90 else if rate <? 10 then 10 else rate)
              = Z.max 10 (Z.min 90 rate)).
  { destruct (Z.gtb_spec rate 90), (Z.ltb_spec rate 10); lia. }
  rewrite C.
  match goal with
  | |- context [asi_command device ?c NULL 0 0] =>
      destruct (asi_command_NULL_ok device c 0 0 D) as (d' & E & _ & _ & W);
      rewrite E
  end.
  simpl. apply issued_extension. exact W.
Qed.

(** C2: the guide rate is clamped to 10..90 before it is encoded.  The two
    call sites of [asi_set_guide_rate] pass one number for both arguments;
    the command then written encodes that number raised to 10 or lowered to
    90, over 100, to one decimal: it is one of [:Rg0.1#] to [:Rg0.9#], it is
    [:Rg0.1#] for every rate below 10 and [:Rg0.9#] for every rate above 90.
    For every pair of rates requested through the guide rate property, the
    callback writes that command for the requested right ascension rate. *)
Theorem guide_rate_clamped :
  (forall device rate,
      fst (drain (rx (port device))) = true ->
      let command :=
        ":Rg" ++ sprintf_1f (to_float (to_double (inject_Z (Z.max 10 (Z.min 90 rate)) / 100)))
        ++ "#" in
      issued device (snd (asi_set_guide_rate device rate rate)) = [command]
      /\ In command guide_rate_commands
      /\ (rate < 10 -> command = ":Rg0.1#")
      /\ (90 < rate -> command = ":Rg0.9#"))
  /\
  (forall d,
      fst (drain (rx (port (core d)))) = true ->
      let requested := Qtrunc (mount_target d MOUNT_GUIDE_RATE_RA_ITEM) in
      issued (core d) (core (mount_guide_rate_callback d))
      = [":Rg" ++ sprintf_1f (to_float (to_double
                                          (inject_Z (Z.max 10 (Z.min 90 requested)) / 100)))
         ++ "#"]).
Proof.
  split.
  - intros device rate D command.
    split; [apply asi_set_guide_rate_one_rate; exact D|].
    split; [|split].
    + unfold command.
      assert (R : 10 <= Z.max 10 (Z.min 90 rate) <= 90) by lia.
      pose proof (guide_rate_in_range (Z.to_nat (Z.max 10 (Z.min 90 rate) - 10)) ltac:(lia))
        as Hin.
      replace (Z.of_nat (Z.to_nat (Z.max 10 (Z.min 90 rate) - 10)) + 10)
        with (Z.max 10 (Z.min 90 rate)) in Hin by lia.
      exact Hin.
    + intros L. unfold command.
      replace (Z.max 10 (Z.min 90 rate)) with 10 by lia. reflexivity.
    + intros L. unfold command.
      replace (Z.max 10 (Z.min 90 rate)) with 90 by lia. reflexivity.
  - intros d D requested.
    rewrite <- (asi_set_guide_rate_one_rate (core d) requested D).
    unfold mount_guide_rate_callback.
    cbn [core mount_target set_mount_value set_mount_target mount_number_beq].
    fold requested.
    destruct (asi_set_guide_rate (core d) requested requested) as [result device].
    reflexivity.
Qed.

Lemma guide_rate_clamped_witness :
  let low := set_mount_target (set_mount_target idle_driver MOUNT_GUIDE_RATE_RA_ITEM 5)
               MOUNT_GUIDE_RATE_DEC_ITEM 50 in
  let high := set_mount_target (set_mount_target idle_driver MOUNT_GUIDE_RATE_RA_ITEM 200)
                MOUNT_GUIDE_RATE_DEC_ITEM 50 in
  issued (core low) (core (mount_guide_rate_callback low)) = [":Rg0.1#"]
  /\ issued (core high) (core (mount_guide_rate_callback high)) = [":Rg0.9#"]
  /\ issued idle_device (snd (asi_set_guide_rate idle_device 5 5)) = [":Rg0.1#"].
Proof.
  intros low high.
  destruct guide_rate_clamped as [Function Callback].
  split; [|split].
  - rewrite (Callback low eq_refl). reflexivity.
  - rewrite (Callback high eq_refl). reflexivity.
  - destruct (Function idle_device 5 eq_refl) as (I & _ & Low & _).
    rewrite I, Low by lia. reflexivity.
Defined.

(* ------------------------------------------------------------------ *)
(** ** Slew *)

Lemma asi_command_cases d c r m s res resp d' :
  asi_command d c r m s = (res, resp, d') ->
  d' = set_port d (port d')
  /\ (wire (port d') = (wire (port d) ++ [c])%list
      \/ res = false /\ wire (port d') = wire (port d)).
Proof.
  intros E.
  pose proof (asi_command_frame d c r m s) as F.
  pose proof (asi_command_wire d c r m s) as W.
  rewrite E in F, W; simpl in F, W. split; [exact F|].
  destruct res.
  - left. eapply asi_command_sent. exact E.
  - destruct (fst (drain (rx (port d)))).
    + left. exact W.
    + right. split; [reflexivity|]. now rewrite app_nil_r in W.
Qed.

Section Slew.
Context `{Host}.

(** C5: when the target right ascension is accepted with ['1'] and the
    reply to the target declination is [e5], [asi_slew] returns failure with
    error code 5, which reads "Target is below horizon", and has written the
    two target commands only: [:MS#] is not sent. *)
Theorem asi_slew_below_horizon device ra dec r1 d1 d2 :
  asi_command device (target_ra_command ra) BUFFER 128 0 = (true, r1, d1) ->
  deref r1 = "1"%char ->
  asi_command d1 (target_dec_command dec) BUFFER 128 0 = (true, "e5", d2) ->
  asi_slew device ra dec = (false, 5, d2)
  /\ asi_error_string 5 = "Target is below horizon"
  /\ issued device d2 = [target_ra_command ra; target_dec_command dec]
  /\ ~ In ":MS#" (issued device d2).
Proof.
  intros E1 A1 E2.
  assert (I : issued device d2 = [target_ra_command ra; target_dec_command dec]).
  { apply issued_extension.
    rewrite (asi_command_sent _ _ _ _ _ _ _ E2), (asi_command_sent _ _ _ _ _ _ _ E1).
    now rewrite <- app_assoc. }
  split; [|split; [reflexivity | split; [exact I|]]].
  - unfold asi_slew. rewrite E1. unfold accepted at 1. rewrite A1. simpl.
    rewrite E2. reflexivity.
  - rewrite I. unfold target_ra_command, target_dec_command. simpl.
    intros [E|[E|[]]]; discriminate E.
Qed.

End Slew.

Lemma asi_slew_below_horizon_witness :
  let device := receiving idle_device (reply "1" ++ reply "e5") in
  asi_slew (H := reference_host) device 1 (-80)
  = (false, 5, snd (asi_slew (H := reference_host) device 1 (-80)))
  /\ issued device (snd (asi_slew (H := reference_host) device 1 (-80)))
     = [":Sr01:00:00#"; ":Sd-80*00:00#"].
Proof.
  intro device.
  destruct (asi_slew_below_horizon (H := reference_host) device 1 (-80) "1"
              (snd (asi_command device ":Sr01:00:00#" BUFFER 128 0))
              (snd (asi_slew (H := reference_host) device 1 (-80))))
    as (S & _ & I & _).
  - reflexivity.
  - reflexivity.
  - reflexivity.
  - split; [exact S | exact I].
Defined.

(* ------------------------------------------------------------------ *)
(** ** Setting the clock *)

Lemma accepted_result result response byte :
  accepted result response byte = true ->
  result = true /\ deref response = byte.
Proof.
  unfold accepted. destruct result; simpl; [|discriminate].
  intros E. apply Ascii.eqb_eq in E. split; [reflexivity | exact E].
Qed.

Lemma accepted_intro response byte :
  deref response = byte -> accepted true response byte = true.
Proof.
  intros <-. unfold accepted. simpl. apply Ascii.eqb_refl.
Qed.

Lemma date_is_not_offset tm utc_offset :
  set_date_command tm <> set_offset_command utc_offset.
Proof.
  unfold set_date_command, set_offset_command. cbn [append]. discriminate.
Qed.

Lemma date_is_not_time tm tm' :
  set_date_command tm <> set_time_command tm'.
Proof.
  unfold set_date_command, set_time_command. cbn [append]. discriminate.
Qed.

Lemma offset_is_not_time utc_offset tm :
  set_offset_command utc_offset <> set_time_command tm.
Proof.
  unfold set_offset_command, set_time_command. cbn [append]. discriminate.
Qed.

Lemma dst_is_not_time daylight tm :
  set_dst_command daylight <> set_time_command tm.
Proof.
  unfold set_dst_command, set_time_command. cbn [append]. discriminate.
Qed.

Lemma set_utc_commands_are_not_dst tm utc_offset c :
  In c [set_date_command tm; set_offset_command utc_offset; set_time_command tm] ->
  prefix ":SH" c = false.
Proof.
  intros [<-|[<-|[<-|[]]]]; reflexivity.
Qed.

Section Clock.
Context `{Host}.

(** With every reply ['1'], a device without DST commands is sent the
    date, the offset and the time, in that order. *)
Lemma asi_set_utc_accepted device secs utc_offset r1 d1 r2 d2 r3 d3 :
  let tm := gmtime_r (secs + utc_offset * 3600) in
  use_dst_commands device = false ->
  asi_command device (set_date_command tm) BUFFER 1 0 = (true, r1, d1) ->
  deref r1 = "1"%char ->
  asi_command d1 (set_offset_command utc_offset) BUFFER 1 0 = (true, r2, d2) ->
  deref r2 = "1"%char ->
  asi_command d2 (set_time_command tm) BUFFER 1 0 = (true, r3, d3) ->
  deref r3 = "1"%char ->
  asi_set_utc device secs utc_offset = (true, d3)
  /\ issued device d3
     = [set_date_command tm; set_offset_command utc_offset; set_time_command tm].
Proof.
  intros tm Hdst E1 A1 E2 A2 E3 A3. split.
  - unfold asi_set_utc. fold tm. rewrite E1, (accepted_intro _ _ A1). simpl.
    destruct (asi_command_cases _ _ _ _ _ _ _ _ E1) as [F1 _].
    assert (Hd1 : use_dst_commands d1 = false) by (rewrite F1; exact Hdst).
    rewrite Hd1, E2, (accepted_intro _ _ A2). simpl.
    rewrite E3, (accepted_intro _ _ A3). reflexivity.
  - apply issued_extension.
    rewrite (asi_command_sent _ _ _ _ _ _ _ E3), (asi_command_sent _ _ _ _ _ _ _ E2),
      (asi_command_sent _ _ _ _ _ _ _ E1).
    now rewrite <- !app_assoc.
Qed.

(** Without DST commands, what is written is an initial part of date,
    offset, time. *)
Lemma asi_set_utc_prefix device secs utc_offset :
  let tm := gmtime_r (secs + utc_offset * 3600) in
  use_dst_commands device = false ->
  exists n,
    issued device (snd (asi_set_utc device secs utc_offset))
    = firstn n [set_date_command tm; set_offset_command utc_offset; set_time_command tm].
Proof.
  intros tm Hdst. unfold asi_set_utc. fold tm.
  destruct (asi_command device (set_date_command tm) BUFFER 1 0) as [[res1 r1] d1] eqn:E1.
  destruct (asi_command_cases _ _ _ _ _ _ _ _ E1) as [F1 W1].
  destruct (accepted res1 r1 "1") eqn:A1; simpl.
  2:{ destruct W1 as [W1|[_ W1]].
      - exists 1%nat. apply issued_extension. exact W1.
      - exists 0%nat. apply issued_extension. now rewrite app_nil_r. }
  apply accepted_result in A1 as [-> _].
  destruct W1 as [W1|[W1 _]]; [|discriminate W1].
  assert (Hd1 : use_dst_commands d1 = false) by (rewrite F1; exact Hdst).
  rewrite Hd1.
  destruct (asi_command d1 (set_offset_command utc_offset) BUFFER 1 0)
    as [[res2 r2] d2] eqn:E2.
  destruct (asi_command_cases _ _ _ _ _ _ _ _ E2) as [F2 W2].
  destruct (accepted res2 r2 "1") eqn:A2; simpl.
  2:{ destruct W2 as [W2|[_ W2]].
      - exists 2%nat. apply issued_extension. rewrite W2, W1, <- app_assoc. reflexivity.
      - exists 1%nat. apply issued_extension. rewrite W2, W1. reflexivity. }
  apply accepted_result in A2 as [-> _].
  destruct W2 as [W2|[W2 _]]; [|discriminate W2].
  destruct (asi_command d2 (set_time_command tm) BUFFER 1 0) as [[res3 r3] d3] eqn:E3.
  destruct (asi_command_cases _ _ _ _ _ _ _ _ E3) as [F3 W3].
  assert (W : exists n,
             issued device d3
             = firstn n [set_date_command tm; set_offset_command utc_offset;
                         set_time_command tm]).
  { destruct W3 as [W3|[_ W3]].
    - exists 3%nat. apply issued_extension. rewrite W3, W2, W1, <- !app_assoc. reflexivity.
    - exists 2%nat. apply issued_extension. rewrite W3, W2, W1, <- app_assoc. reflexivity. }
  destruct (accepted res3 r3 "1"); simpl; exact W.
Qed.

(** A date that is not accepted ends the call: failure, and neither the
    offset nor the time is sent. *)
Lemma asi_set_utc_date_refused device secs utc_offset result r d1 :
  let tm := gmtime_r (secs + utc_offset * 3600) in
  asi_command device (set_date_command tm) BUFFER 1 0 = (result, r, d1) ->
  accepted result r "1" = false ->
  asi_set_utc device secs utc_offset = (false, d1)
  /\ ~ In (set_offset_command utc_offset) (issued device d1)
  /\ ~ In (set_time_command tm) (issued device d1).
Proof.
  intros tm E1 A1. split.
  - unfold asi_set_utc. fold tm. rewrite E1, A1. reflexivity.
  - destruct (asi_command_cases _ _ _ _ _ _ _ _ E1) as [_ [W1|[_ W1]]].
    + rewrite (issued_extension _ _ _ W1). simpl. split; intros [E|[]].
      * exact (date_is_not_offset _ _ E).
      * exact (date_is_not_time _ _ E).
    + assert (I : issued device d1 = []) by (apply issued_extension; now rewrite app_nil_r).
      rewrite I. simpl. tauto.
Qed.

(** An offset that is not accepted ends the call: failure, and the time
    is not sent. *)
Lemma asi_set_utc_offset_refused device secs utc_offset r1 d1 result r d2 :
  let tm := gmtime_r (secs + utc_offset * 3600) in
  asi_command device (set_date_command tm) BUFFER 1 0 = (true, r1, d1) ->
  deref r1 = "1"%char ->
  asi_command
    (if use_dst_commands d1
     then snd (asi_command d1 (set_dst_command daylight) NULL 0 0)
     else d1)
    (set_offset_command utc_offset) BUFFER 1 0 = (result, r, d2) ->
  accepted result r "1" = false ->
  asi_set_utc device secs utc_offset = (false, d2)
  /\ ~ In (set_time_command tm) (issued device d2).
Proof.
  intros tm E1 A1 E2 A2. split.
  - unfold asi_set_utc. fold tm. rewrite E1, (accepted_intro _ _ A1). simpl.
    rewrite E2, A2. reflexivity.
  - pose proof (asi_command_sent _ _ _ _ _ _ _ E1) as W1.
    destruct (asi_command_cases _ _ _ _ _ _ _ _ E2) as [_ W2].
    assert (Wd : exists l,
               wire (port (if use_dst_commands d1
                           then snd (asi_command d1 (set_dst_command daylight) NULL 0 0)
                           else d1))
               = (wire (port d1) ++ l)%list
               /\ ~ In (set_time_command tm) l).
    { destruct (use_dst_commands d1).
      - destruct (asi_command d1 (set_dst_command daylight) NULL 0 0)
          as [[res0 r0] d0] eqn:E0.
        destruct (asi_command_cases _ _ _ _ _ _ _ _ E0) as [_ [W0|[_ W0]]]; simpl.
        + exists [set_dst_command daylight]. split; [exact W0|].
          intros [E|[]]. exact (dst_is_not_time _ _ E).
        + exists []. split; [now rewrite app_nil_r | intros []].
      - exists []. split; [now rewrite app_nil_r | intros []]. }
    destruct Wd as (l & Wd & Hl).
    assert (I : exists l', issued device d2 = l' /\ ~ In (set_time_command tm) l').
    { destruct W2 as [W2|[_ W2]].
      - exists ([set_date_command tm] ++ l ++ [set_offset_command utc_offset])%list.
        split.
        + apply issued_extension. rewrite W2, Wd, W1, <- !app_assoc. reflexivity.
        + rewrite !in_app_iff. simpl. intros [[E|[]]|[E|[E|[]]]].
          * exact (date_is_not_time _ _ E).
          * exact (Hl E).
          * exact (offset_is_not_time _ _ E).
      - exists ([set_date_command tm] ++ l)%list. split.
        + apply issued_extension. rewrite W2, Wd, W1, <- !app_assoc. reflexivity.
        + rewrite in_app_iff. simpl. intros [[E|[]]|E].
          * exact (date_is_not_time _ _ E).
          * exact (Hl E). }
    destruct I as (l' & -> & Hl'). exact Hl'.
Qed.

(** A time that is not accepted makes the call fail. *)
Lemma asi_set_utc_time_refused device secs utc_offset r1 d1 r2 d2 result r d3 :
  let tm := gmtime_r (secs + utc_offset * 3600) in
  asi_command device (set_date_command tm) BUFFER 1 0 = (true, r1, d1) ->
  deref r1 = "1"%char ->
  asi_command
    (if use_dst_commands d1
     then snd (asi_command d1 (set_dst_command daylight) NULL 0 0)
     else d1)
    (set_offset_command utc_offset) BUFFER 1 0 = (true, r2, d2) ->
  deref r2 = "1"%char ->
  asi_command d2 (set_time_command tm) BUFFER 1 0 = (result, r, d3) ->
  accepted result r "1" = false ->
  asi_set_utc device secs utc_offset = (false, d3).
Proof.
  intros tm E1 A1 E2 A2 E3 A3.
  unfold asi_set_utc. fold tm. rewrite E1, (accepted_intro _ _ A1). simpl.
  rewrite E2, (accepted_intro _ _ A2). simpl.
  rewrite E3, A3. reflexivity.
Qed.

End Clock.

Lemma in_firstn {A : Type} (x : A) n l : In x (firstn n l) -> In x l.
Proof.
  revert l. induction n as [|n IH]; intros [|a l]; simpl; try tauto.
  intros [E|I]; [left; exact E | right; exact (IH _ I)].
Qed.

Section ClockSequence.
Context `{Host}.

(** C6: for the instant 2023-06-15T08:00:00Z and the offset +2 (local time
    10:00:00), a device without DST commands whose replies are ['1'] is sent
    [:SC06/15/23#], [:SG-02#], [:SL10:00:00#] in that order; without DST
    commands whatever is written is an initial part of date, offset, time,
    so no [:SH] command ever; and for every input, a date, offset or time
    exchange that fails or whose reply is not ['1'] ends the call with
    failure, no later command of the sequence being sent. *)
Theorem asi_set_utc_sequence :
  (forall device r1 d1 r2 d2 r3 d3,
      use_dst_commands device = false ->
      asi_command device ":SC06/15/23#" BUFFER 1 0 = (true, r1, d1) ->
      deref r1 = "1"%char ->
      asi_command d1 ":SG-02#" BUFFER 1 0 = (true, r2, d2) ->
      deref r2 = "1"%char ->
      asi_command d2 ":SL10:00:00#" BUFFER 1 0 = (true, r3, d3) ->
      deref r3 = "1"%char ->
      asi_set_utc device 1686816000 2 = (true, d3)
      /\ issued device d3 = [":SC06/15/23#"; ":SG-02#"; ":SL10:00:00#"])
  /\
  (forall device secs utc_offset,
      use_dst_commands device = false ->
      let tm := gmtime_r (secs + utc_offset * 3600) in
      let device' := snd (asi_set_utc device secs utc_offset) in
      (exists n,
          issued device device'
          = firstn n [set_date_command tm; set_offset_command utc_offset;
                      set_time_command tm])
      /\ forall c, In c (issued device device') -> prefix ":SH" c = false)
  /\
  (forall device secs utc_offset,
      let tm := gmtime_r (secs + utc_offset * 3600) in
      let after_dst d1 :=
        if use_dst_commands d1
        then snd (asi_command d1 (set_dst_command daylight) NULL 0 0)
        else d1 in
      (forall result r d1,
          asi_command device (set_date_command tm) BUFFER 1 0 = (result, r, d1) ->
          accepted result r "1" = false ->
          asi_set_utc device secs utc_offset = (false, d1)
          /\ ~ In (set_offset_command utc_offset) (issued device d1)
          /\ ~ In (set_time_command tm) (issued device d1))
      /\
      (forall r1 d1 result r d2,
          asi_command device (set_date_command tm) BUFFER 1 0 = (true, r1, d1) ->
          deref r1 = "1"%char ->
          asi_command (after_dst d1) (set_offset_command utc_offset) BUFFER 1 0
          = (result, r, d2) ->
          accepted result r "1" = false ->
          asi_set_utc device secs utc_offset = (false, d2)
          /\ ~ In (set_time_command tm) (issued device d2))
      /\
      (forall r1 d1 r2 d2 result r d3,
          asi_command device (set_date_command tm) BUFFER 1 0 = (true, r1, d1) ->
          deref r1 = "1"%char ->
          asi_command (after_dst d1) (set_offset_command utc_offset) BUFFER 1 0
          = (true, r2, d2) ->
          deref r2 = "1"%char ->
          asi_command d2 (set_time_command tm) BUFFER 1 0 = (result, r, d3) ->
          accepted result r "1" = false ->
          asi_set_utc device secs utc_offset = (false, d3))).
Proof.
  split; [|split].
  - intros device r1 d1 r2 d2 r3 d3 Hdst E1 A1 E2 A2 E3 A3.
    exact (asi_set_utc_accepted device 1686816000 2 r1 d1 r2 d2 r3 d3
             Hdst E1 A1 E2 A2 E3 A3).
  - intros device secs utc_offset Hdst tm device'.
    destruct (asi_set_utc_prefix device secs utc_offset Hdst) as [n I].
    fold tm device' in I. split.
    + exists n. exact I.
    + intros c Hc. rewrite I in Hc. apply in_firstn in Hc.
      exact (set_utc_commands_are_not_dst _ _ _ Hc).
  - intros device secs utc_offset tm after_dst. split; [|split].
    + intros result r d1. apply asi_set_utc_date_refused.
    + intros r1 d1 result r d2. apply asi_set_utc_offset_refused.
    + intros r1 d1 r2 d2 result r d3. apply asi_set_utc_time_refused.
Qed.

End ClockSequence.

Lemma asi_set_utc_sequence_witness :
  let device := receiving idle_device (reply "1" ++ reply "1" ++ reply "1") in
  let refusing := receiving idle_device (reply "1" ++ reply "0") in
  (use_dst_commands device = false
   /\ fst (asi_set_utc (H := reference_host) device 1686816000 2) = true
   /\ issued device (snd (asi_set_utc (H := reference_host) device 1686816000 2))
      = [":SC06/15/23#"; ":SG-02#"; ":SL10:00:00#"])
  /\ (forall c,
         In c (issued refusing (snd (asi_set_utc (H := reference_host) refusing 1686816000 2))) ->
         prefix ":SH" c = false)
  /\ (fst (asi_set_utc (H := reference_host) refusing 1686816000 2) = false
      /\ ~ In ":SL10:00:00#"
           (issued refusing (snd (asi_set_utc (H := reference_host) refusing 1686816000 2)))).
Proof.
  intros device refusing.
  destruct (asi_set_utc_sequence (H := reference_host)) as (Scenario & Prefix & Abort).
  split; [|split].
  - destruct (Scenario device
                "1" (snd (asi_command device ":SC06/15/23#" BUFFER 1 0))
                "1" (snd (asi_command (snd (asi_command device ":SC06/15/23#" BUFFER 1 0))
                                      ":SG-02#" BUFFER 1 0))
                "1" (snd (asi_set_utc (H := reference_host) device 1686816000 2)))
      as [R I]; try reflexivity.
    split; [reflexivity|]. split; [rewrite R; reflexivity | exact I].
  - apply (Prefix refusing 1686816000 2). reflexivity.
  - destruct (Abort refusing 1686816000 2) as (_ & Offset & _).
    destruct (Offset "1" (snd (asi_command refusing ":SC06/15/23#" BUFFER 1 0))
                true "0" (snd (asi_set_utc (H := reference_host) refusing 1686816000 2)))
      as [R N]; try reflexivity.
    split; [rewrite R; reflexivity | exact N].
Defined.

(* ------------------------------------------------------------------ *)
(** ** The poll tick *)

Lemma wrote_nothing allowed d : wrote allowed d d.
Proof.
  split; [destruct d; reflexivity|].
  exists []. split; [now rewrite app_nil_r | intros x []].
Qed.

Lemma wrote_command d c r m s res resp d' :
  asi_command d c r m s = (res, resp, d') -> wrote [c] d d'.
Proof.
  intros E. destruct (asi_command_cases _ _ _ _ _ _ _ _ E) as [F [W|[_ W]]].
  - split; [exact F|]. exists [c]. split; [exact W | apply incl_refl].
  - split; [exact F|]. exists []. split; [now rewrite app_nil_r | intros x []].
Qed.

Lemma wrote_then a b d d' d'' :
  wrote a d d' -> wrote b d' d'' -> wrote (a ++ b) d d''.
Proof.
  intros [F (l & W & I)] [F' (l' & W' & I')]. split.
  - rewrite F', F. reflexivity.
  - exists (l ++ l')%list. split.
    + rewrite W', W, app_assoc. reflexivity.
    + apply incl_app; [apply incl_appl | apply incl_appr]; assumption.
Qed.

Lemma wrote_among a b d d' :
  incl a b -> wrote a d d' -> wrote b d d'.
Proof.
  intros I [F (l & W & I')]. split; [exact F|].
  exists l. split; [exact W | exact (incl_tran I' I)].
Qed.

Lemma wrote_issued allowed d d' c :
  wrote allowed d d' -> ~ In c allowed -> ~ In c (issued d d').
Proof.
  intros [_ (l & W & I)] N. rewrite (issued_extension _ _ _ W).
  intros Hc. exact (N (I _ Hc)).
Qed.

Ltac among := intros ? ?; simpl in *; tauto.

Section Tick.
Context `{Host}.

Lemma asi_get_coordinates_wrote d ra dec :
  wrote [":GR#"; ":GD#"] d (snd (asi_get_coordinates d ra dec)).
Proof.
  unfold asi_get_coordinates.
  destruct (asi_command d ":GR#" BUFFER 128 0) as [[r1 s1] d1] eqn:E1.
  pose proof (wrote_command _ _ _ _ _ _ _ _ E1) as W1.
  destruct r1; simpl; [|eapply wrote_among; [|exact W1]; among].
  destruct (asi_command d1 ":GD#" BUFFER 128 0) as [[r2 s2] d2] eqn:E2.
  pose proof (wrote_then _ _ _ _ _ W1 (wrote_command _ _ _ _ _ _ _ _ E2)) as W2.
  destruct r2; exact W2.
Qed.

Lemma asi_get_utc_wrote d secs utc_offset :
  wrote [":GC#"; ":GL#"; ":GG#"; ":GH#"] d (snd (asi_get_utc d secs utc_offset)).
Proof.
  unfold asi_get_utc.
  destruct (asi_command d ":GC#" BUFFER 128 0) as [[r1 s1] d1] eqn:E1.
  pose proof (wrote_command _ _ _ _ _ _ _ _ E1) as W1.
  destruct (if r1 then sscanf_dcdcd s1 else None) as [[[mon mday] year]|]; simpl;
    [|eapply wrote_among; [|exact W1]; among].
  destruct (asi_command d1 ":GL#" BUFFER 128 0) as [[r2 s2] d2] eqn:E2.
  pose proof (wrote_then _ _ _ _ _ W1 (wrote_command _ _ _ _ _ _ _ _ E2)) as W2.
  destruct (if r2 then sscanf_dcdcd s2 else None) as [[[hour min] sec]|]; simpl;
    [|eapply wrote_among; [|exact W2]; among].
  destruct (asi_command d2 ":GG#" BUFFER 128 0) as [[r3 s3] d3] eqn:E3.
  pose proof (wrote_then _ _ _ _ _ W2 (wrote_command _ _ _ _ _ _ _ _ E3)) as W3.
  destruct r3; simpl; [|eapply wrote_among; [|exact W3]; among].
  destruct (use_dst_commands d3); simpl.
  - destruct (asi_command d3 ":GH#" BUFFER 128 0) as [[r4 s4] d4] eqn:E4.
    pose proof (wrote_then _ _ _ _ _ W3 (wrote_command _ _ _ _ _ _ _ _ E4)) as W4.
    simpl. exact W4.
  - eapply wrote_among; [|exact W3]; among.
Qed.

(** What the time read does to the link is decided by the port and by
    whether the device uses DST commands. *)
Lemma asi_get_utc_link d d' secs utc_offset :
  port d = port d' ->
  use_dst_commands d = use_dst_commands d' ->
  port (snd (asi_get_utc d secs utc_offset))
  = port (snd (asi_get_utc d' secs utc_offset)).
Proof.
  intros P U. unfold asi_get_utc.
  destruct (asi_command_link d d' ":GC#" BUFFER 128 0 P) as [R1 P1].
  pose proof (asi_command_frame d ":GC#" BUFFER 128 0) as F1.
  pose proof (asi_command_frame d' ":GC#" BUFFER 128 0) as F1'.
  destruct (asi_command d ":GC#" BUFFER 128 0) as [[r1 s1] d1].
  destruct (asi_command d' ":GC#" BUFFER 128 0) as [[r1' s1'] d1'].
  simpl in R1, P1, F1, F1'. injection R1 as <- <-.
  destruct (if r1 then sscanf_dcdcd s1 else None) as [[[mon mday] year]|]; simpl;
    [|exact P1].
  destruct (asi_command_link d1 d1' ":GL#" BUFFER 128 0 P1) as [R2 P2].
  pose proof (asi_command_frame d1 ":GL#" BUFFER 128 0) as F2.
  pose proof (asi_command_frame d1' ":GL#" BUFFER 128 0) as F2'.
  destruct (asi_command d1 ":GL#" BUFFER 128 0) as [[r2 s2] d2].
  destruct (asi_command d1' ":GL#" BUFFER 128 0) as [[r2' s2'] d2'].
  simpl in R2, P2, F2, F2'. injection R2 as <- <-.
  destruct (if r2 then sscanf_dcdcd s2 else None) as [[[hour min] sec]|]; simpl;
    [|exact P2].
  destruct (asi_command_link d2 d2' ":GG#" BUFFER 128 0 P2) as [R3 P3].
  pose proof (asi_command_frame d2 ":GG#" BUFFER 128 0) as F3.
  pose proof (asi_command_frame d2' ":GG#" BUFFER 128 0) as F3'.
  destruct (asi_command d2 ":GG#" BUFFER 128 0) as [[r3 s3] d3].
  destruct (asi_command d2' ":GG#" BUFFER 128 0) as [[r3' s3'] d3'].
  simpl in R3, P3, F3, F3'. injection R3 as <- <-.
  destruct r3; simpl; [|exact P3].
  assert (U3 : use_dst_commands d3 = use_dst_commands d3').
  { rewrite F3, F3', F2, F2', F1, F1'. exact U. }
  rewrite <- U3. destruct (use_dst_commands d3); simpl; [|exact P3].
  destruct (asi_command_link d3 d3' ":GH#" BUFFER 128 0 P3) as [R4 P4].
  destruct (asi_command d3 ":GH#" BUFFER 128 0) as [[r4 s4] d4].
  destruct (asi_command d3' ":GH#" BUFFER 128 0) as [[r4' s4'] d4'].
  simpl in R4, P4. simpl. exact P4.
Qed.

Lemma poll_utc_frame d :
  sw (poll_utc d) = sw d
  /\ state (poll_utc d) MOUNT_EQUATORIAL_COORDINATES_PROPERTY
     = state d MOUNT_EQUATORIAL_COORDINATES_PROPERTY
  /\ port (poll_utc d) = port (snd (asi_get_utc d 0 0)).
Proof.
  unfold poll_utc.
  destruct (asi_get_utc_wrote d 0 0) as [F _].
  destruct (asi_get_utc d 0 0) as [[[res secs] utc_offset] d']. simpl in F |- *.
  destruct res; rewrite F; simpl; repeat split; reflexivity.
Qed.

Lemma poll_finish_outcome success d :
  let d' := poll_finish success d in
  sw d' = sw d
  /\ state d' MOUNT_EQUATORIAL_COORDINATES_PROPERTY
     = (if success then state d MOUNT_EQUATORIAL_COORDINATES_PROPERTY
        else INDIGO_ALERT_STATE)
  /\ position_timer d'
     = Some (if indigo_property_state_beq
                  (state d' MOUNT_EQUATORIAL_COORDINATES_PROPERTY) INDIGO_BUSY_STATE
             then 1 # 2 else 1)%Q
  /\ port d' = port (snd (asi_get_utc d 0 0)).
Proof.
  unfold poll_finish.
  match goal with
  | |- context [poll_utc ?x] =>
      destruct (poll_utc_frame x) as (S & E & P); set (u := poll_utc x) in *
  end.
  cbn -[u]. split; [|split; [|split]].
  - rewrite S. destruct success; reflexivity.
  - rewrite E. destruct success; reflexivity.
  - reflexivity.
  - rewrite P. apply asi_get_utc_link; destruct success; reflexivity.
Qed.

Lemma poll_coordinates_frame d success d1 :
  poll_coordinates d = (success, d1) ->
  sw d1 = sw d
  /\ exists l, wire (port d1) = (wire (port d) ++ l)%list /\ incl l [":GR#"; ":GD#"].
Proof.
  unfold poll_coordinates.
  destruct (asi_get_coordinates_wrote d 0 0) as [F W].
  destruct (asi_get_coordinates d 0 0) as [[[ok ra] dec] d0]. simpl in F, W.
  destruct ok.
  - destruct (indigo_eq_to_j2k (number d0 MOUNT_EPOCH_ITEM) (ra, dec)) as [ra' dec'].
    intros E; inversion E; subst d1. simpl. split; [rewrite F; reflexivity | exact W].
  - intros E; inversion E; subst d1. split; [rewrite F; reflexivity | exact W].
Qed.

(** The time read starts with [:GC#] whenever its flush succeeds. *)
Lemma asi_get_utc_wire d secs utc_offset :
  exists l,
    wire (port (snd (asi_get_utc d secs utc_offset)))
    = (wire (port d) ++ (if fst (drain (rx (port d))) then [":GC#"] else []) ++ l)%list
    /\ incl l [":GL#"; ":GG#"; ":GH#"].
Proof.
  unfold asi_get_utc.
  pose proof (asi_command_wire d ":GC#" BUFFER 128 0) as W1.
  destruct (asi_command d ":GC#" BUFFER 128 0) as [[r1 s1] d1]. simpl in W1.
  set (first := if fst (drain (rx (port d))) then [":GC#"] else []) in *.
  assert (Stop : forall d', wrote [":GL#"; ":GG#"; ":GH#"] d1 d' ->
                 exists l, wire (port d') = (wire (port d) ++ first ++ l)%list
                           /\ incl l [":GL#"; ":GG#"; ":GH#"]).
  { intros d' [_ (l & W & I)]. exists l. split; [|exact I].
    rewrite W, W1, <- app_assoc. reflexivity. }
  destruct (if r1 then sscanf_dcdcd s1 else None) as [[[mon mday] year]|]; simpl;
    [|apply Stop, wrote_nothing].
  destruct (asi_command d1 ":GL#" BUFFER 128 0) as [[r2 s2] d2] eqn:E2.
  pose proof (wrote_command _ _ _ _ _ _ _ _ E2) as W2.
  destruct (if r2 then sscanf_dcdcd s2 else None) as [[[hour min] sec]|]; simpl;
    [|apply Stop; eapply wrote_among; [|exact W2]; among].
  destruct (asi_command d2 ":GG#" BUFFER 128 0) as [[r3 s3] d3] eqn:E3.
  pose proof (wrote_then _ _ _ _ _ W2 (wrote_command _ _ _ _ _ _ _ _ E3)) as W3.
  destruct r3; simpl; [|apply Stop; eapply wrote_among; [|exact W3]; among].
  destruct (use_dst_commands d3); simpl.
  - destruct (asi_command d3 ":GH#" BUFFER 128 0) as [[r4 s4] d4] eqn:E4.
    pose proof (wrote_then _ _ _ _ _ W3 (wrote_command _ _ _ _ _ _ _ _ E4)) as W4.
    simpl. apply Stop. exact W4.
  - apply Stop. eapply wrote_among; [|exact W3]; among.
Qed.

(** C4, amended: when the coordinate read of a tick fails, the tick leaves
    the equatorial coordinates in the alert state, does not send [:GU#] nor
    [:Gm#] (the status and pier-side reads are skipped), goes on to the time
    read, which leaves the link exactly as [asi_get_utc] does after the
    coordinate step and so sends [:GC#] when its flush succeeds, and
    schedules the next tick one second later. *)
Theorem poll_tick_coordinate_failure device d1 :
  handle device > 0 ->
  poll_coordinates device = (false, d1) ->
  let device' := position_timer_callback device in
  state device' MOUNT_EQUATORIAL_COORDINATES_PROPERTY = INDIGO_ALERT_STATE
  /\ ~ In ":GU#" (issued device device')
  /\ ~ In ":Gm#" (issued device device')
  /\ port device' = port (snd (asi_get_utc d1 0 0))
  /\ (fst (drain (rx (port d1))) = true -> In ":GC#" (issued device device'))
  /\ position_timer device' = Some 1%Q.
Proof.
  intros Hh Hc device'. unfold device', position_timer_callback.
  destruct (Z.gtb_spec (handle device) 0); [|lia].
  rewrite Hc. cbn [poll_status poll_pier_side].
  destruct (poll_finish_outcome false d1) as (_ & E & T & P).
  destruct (poll_coordinates_frame _ _ _ Hc) as (_ & l1 & W1 & I1).
  destruct (asi_get_utc_wire d1 0 0) as (l2 & W2 & I2).
  set (first := if fst (drain (rx (port d1))) then [":GC#"] else []) in *.
  assert (I : issued device (poll_finish false d1) = (l1 ++ first ++ l2)%list).
  { apply issued_extension. rewrite P, W2, W1, <- app_assoc. reflexivity. }
  assert (Hfirst : incl first [":GC#"]).
  { unfold first. destruct (fst (drain (rx (port d1)))); among. }
  split; [exact E|]. split; [|split; [|split; [exact P | split]]].
  - rewrite I, !in_app_iff. intros [G|[G|G]].
    + apply I1 in G. simpl in G. intuition discriminate.
    + apply Hfirst in G. simpl in G. intuition discriminate.
    + apply I2 in G. simpl in G. intuition discriminate.
  - rewrite I, !in_app_iff. intros [G|[G|G]].
    + apply I1 in G. simpl in G. intuition discriminate.
    + apply Hfirst in G. simpl in G. intuition discriminate.
    + apply I2 in G. simpl in G. intuition discriminate.
  - intros D. rewrite I, !in_app_iff. right; left.
    unfold first. rewrite D. now left.
  - rewrite T, E. reflexivity.
Qed.

Lemma apply_status_settled d response :
  strchr response "N" = true ->
  strchr response "n" = true ->
  state (apply_status d response) MOUNT_EQUATORIAL_COORDINATES_PROPERTY = INDIGO_OK_STATE
  /\ sw (apply_status d response) MOUNT_TRACKING_ON_ITEM = false
  /\ sw (apply_status d response) MOUNT_TRACKING_OFF_ITEM
     = (sw d MOUNT_TRACKING_ON_ITEM || sw d MOUNT_TRACKING_OFF_ITEM).
Proof.
  intros HN Hn. unfold apply_status. rewrite HN, Hn. cbn.
  destruct (sw d MOUNT_TRACKING_ON_ITEM) eqn:On;
    destruct (strchr response "H"); cbn;
    destruct (prev_home_state d); cbn; rewrite ?On; repeat split; reflexivity.
Qed.

Lemma apply_pier_side_frame d response :
  state (apply_pier_side d response) = state d
  /\ sw (apply_pier_side d response) MOUNT_TRACKING_ON_ITEM = sw d MOUNT_TRACKING_ON_ITEM
  /\ sw (apply_pier_side d response) MOUNT_TRACKING_OFF_ITEM = sw d MOUNT_TRACKING_OFF_ITEM.
Proof.
  unfold apply_pier_side.
  destruct (strchr response "W" && negb (sw d MOUNT_SIDE_OF_PIER_WEST_ITEM));
    [cbn; repeat split; reflexivity|].
  destruct (strchr response "E" && negb (sw d MOUNT_SIDE_OF_PIER_EAST_ITEM));
    [cbn; repeat split; reflexivity|].
  destruct (strchr response "N"
            && (sw d MOUNT_SIDE_OF_PIER_EAST_ITEM || sw d MOUNT_SIDE_OF_PIER_WEST_ITEM));
    cbn; repeat split; reflexivity.
Qed.

(** C8: a tick whose coordinate read succeeds and whose status reply holds
    both ['N'] and ['n'] ends with the equatorial coordinates not busy, the
    next tick scheduled one second later, and tracking reported off: the ON
    item is off, and the OFF item is on as soon as one of the two was on
    when the tick began. *)
Theorem poll_tick_idle_tracking_off device d1 response d2 :
  handle device > 0 ->
  poll_coordinates device = (true, d1) ->
  asi_command d1 ":GU#" BUFFER 128 0 = (true, response, d2) ->
  strchr response "N" = true ->
  strchr response "n" = true ->
  let device' := position_timer_callback device in
  state device' MOUNT_EQUATORIAL_COORDINATES_PROPERTY <> INDIGO_BUSY_STATE
  /\ position_timer device' = Some 1%Q
  /\ sw device' MOUNT_TRACKING_ON_ITEM = false
  /\ (sw device MOUNT_TRACKING_ON_ITEM || sw device MOUNT_TRACKING_OFF_ITEM = true ->
      sw device' MOUNT_TRACKING_OFF_ITEM = true).
Proof.
  intros Hh Hc E HN Hn device'. unfold device', position_timer_callback.
  destruct (Z.gtb_spec (handle device) 0); [|lia].
  rewrite Hc. unfold poll_status. rewrite E.
  destruct (poll_coordinates_frame _ _ _ Hc) as (S1 & _).
  destruct (asi_command_cases _ _ _ _ _ _ _ _ E) as [F2 _].
  assert (S2 : sw d2 = sw device) by (rewrite F2; exact S1).
  destruct (apply_status_settled d2 response HN Hn) as (St & On & Off).
  rewrite S2 in Off.
  set (x := apply_status d2 response) in *.
  unfold poll_pier_side.
  destruct (asi_command x ":Gm#" BUFFER 128 0) as [[r3 s3] d3] eqn:E3.
  destruct (asi_command_cases _ _ _ _ _ _ _ _ E3) as [F3 _].
  destruct r3.
  - destruct (poll_finish_outcome true (apply_pier_side d3 s3)) as (S & Es & T & _).
    destruct (apply_pier_side_frame d3 s3) as (Ps & Pon & Poff).
    rewrite Ps in Es.
    assert (Es' : state (poll_finish true (apply_pier_side d3 s3))
                    MOUNT_EQUATORIAL_COORDINATES_PROPERTY = INDIGO_OK_STATE).
    { rewrite Es, F3. exact St. }
    split; [rewrite Es'; discriminate|].
    split; [rewrite T, Es'; reflexivity|].
    rewrite S, Pon, Poff, F3. cbn [sw set_port].
    split; [exact On | intros B; rewrite Off; exact B].
  - destruct (poll_finish_outcome false d3) as (S & Es & T & _).
    split; [rewrite Es; discriminate|].
    split; [rewrite T, Es; reflexivity|].
    rewrite S, F3. cbn [sw set_port].
    split; [exact On | intros B; rewrite Off; exact B].
Qed.

End Tick.

(** C4, as stated, fails: the read of the right ascension fails, and the
    tick goes straight from [:GR#] to the time read; [:GU#] and [:Gm#] are
    not attempted. *)
Lemma poll_tick_skips_status_after_failure :
  let device := receiving idle_device [RxQuiet; RxReadErr] in
  let device' := position_timer_callback (H := reference_host) device in
  fst (poll_coordinates (H := reference_host) device) = false
  /\ issued device device' = [":GR#"; ":GC#"]
  /\ ~ In ":GU#" (issued device device')
  /\ ~ In ":Gm#" (issued device device').
Proof.
  split; [reflexivity|]. split; [reflexivity|].
  split; simpl; intros [E|[E|[]]]; discriminate E.
Qed.

Lemma poll_tick_coordinate_failure_witness :
  let device := receiving idle_device [RxQuiet; RxReadErr] in
  let device' := position_timer_callback (H := reference_host) device in
  handle device > 0
  /\ fst (poll_coordinates (H := reference_host) device) = false
  /\ state device' MOUNT_EQUATORIAL_COORDINATES_PROPERTY = INDIGO_ALERT_STATE
  /\ ~ In ":GU#" (issued device device')
  /\ ~ In ":Gm#" (issued device device')
  /\ In ":GC#" (issued device device')
  /\ position_timer device' = Some 1%Q.
Proof.
  intros device device'.
  assert (Hh : handle device > 0) by reflexivity.
  assert (Hc : poll_coordinates (H := reference_host) device
               = (false, snd (poll_coordinates (H := reference_host) device)))
    by reflexivity.
  destruct (poll_tick_coordinate_failure (H := reference_host) device _ Hh Hc)
    as (A & B & C & _ & D & E).
  split; [exact Hh|]. split; [reflexivity|].
  split; [exact A|]. split; [exact B|]. split; [exact C|].
  split; [apply D; reflexivity | exact E].
Defined.

Lemma poll_tick_idle_tracking_off_witness :
  let device :=
    receiving idle_device
      (reply "05:30:00" ++ reply "+45*00:00" ++ reply "NnH" ++ reply "W") in
  let device' := position_timer_callback (H := reference_host) device in
  handle device > 0
  /\ fst (poll_coordinates (H := reference_host) device) = true
  /\ state device' MOUNT_EQUATORIAL_COORDINATES_PROPERTY <> INDIGO_BUSY_STATE
  /\ position_timer device' = Some 1%Q
  /\ sw device' MOUNT_TRACKING_ON_ITEM = false
  /\ sw device' MOUNT_TRACKING_OFF_ITEM = true.
Proof.
  intros device device'.
  assert (Hh : handle device > 0) by reflexivity.
  assert (Hc : poll_coordinates (H := reference_host) device
               = (true, snd (poll_coordinates (H := reference_host) device)))
    by reflexivity.
  assert (Hs : asi_command (snd (poll_coordinates (H := reference_host) device))
                 ":GU#" BUFFER 128 0
               = (true, "NnH",
                  snd (asi_command (snd (poll_coordinates (H := reference_host) device))
                         ":GU#" BUFFER 128 0)))
    by reflexivity.
  destruct (poll_tick_idle_tracking_off (H := reference_host) device _ "NnH" _ Hh Hc Hs
              eq_refl eq_refl)
    as (A & B & C & D).
  split; [exact Hh|]. split; [reflexivity|].
  split; [exact A|]. split; [exact B|]. split; [exact C|].
  apply D. reflexivity.
Defined.

(* ------------------------------------------------------------------ *)
(** ** Site longitude *)

(** What [asi_get_site] makes of a longitude reply decoded to [v], when
    [v] is within an arc minute of the value [stored] that was sent, itself
    the complement [360 - longitude] rounded to [sent] and reduced by
    [fmod]. *)
Lemma longitude_decoding (v stored sent longitude : Q) (t : Z) :
  (stored == sent - inject_Z t * 360)%Q ->
  (Qabs (sent - (360 - longitude)) <= Qabs (360 - longitude) * (1 # 2 ^ 53))%Q ->
  (Qabs stored < 360)%Q ->
  (Qabs (v - stored) < 1 # 60)%Q ->
  exists k : Z,
    (Qabs (round_double (360 - (if Qltb v 0 then round_double (v + 360) else v))
           - longitude - 360 * inject_Z k)
     < (1 # 60) + (Qabs (360 - longitude) + 721) * (1 # 2 ^ 53))%Q.
Proof.
  intros S R B A.
  change (2 ^ 53)%positive with 9007199254740992%positive in *.
  pose proof (Qabs_nonneg (360 - longitude)) as A0.
  set (a := Qabs (360 - longitude)) in *.
  apply Qabs_Qle_condition in R. destruct R as [R1 R2].
  apply Qabs_Qlt_condition in B. destruct B as [B1 B2].
  apply Qabs_Qlt_condition in A. destruct A as [A1 A2].
  assert (bound : forall x c : Q,
             (Qabs x <= c)%Q ->
             (- (c * (1 # 9007199254740992)) <= round_double x - x <= c * (1 # 9007199254740992))%Q).
  { intros x c Hx. apply Qabs_Qle_condition.
    apply Qle_trans with (Qabs x * (1 # 9007199254740992))%Q; [apply round_double_error|].
    apply Qmult_le_compat_r; [exact Hx | discriminate]. }
  unfold Qltb. destruct (Qle_bool 0 v) eqn:E; cbn [negb].
  - apply Qle_bool_iff in E.
    assert (X2 : (Qabs (360 - v) <= 361)%Q) by (apply Qabs_Qle_condition; split; lra).
    destruct (bound _ _ X2) as [D1 D2].
    exists t. apply Qabs_Qlt_condition. split; lra.
  - assert (Hv : (v < 0)%Q).
    { apply Qnot_le_lt. intros C. apply Qle_bool_iff in C. congruence. }
    assert (X1 : (Qabs (v + 360) <= 360)%Q) by (apply Qabs_Qle_condition; split; lra).
    destruct (bound _ _ X1) as [D1 D2].
    set (r := round_double (v + 360)) in *.
    assert (X2 : (Qabs (360 - r) <= 361)%Q) by (apply Qabs_Qle_condition; split; lra).
    destruct (bound _ _ X2) as [D3 D4].
    exists (t - 1).
    assert (I : (inject_Z (t - 1) == inject_Z t - 1)%Q).
    { unfold Z.sub. rewrite inject_Z_plus. reflexivity. }
    rewrite I. apply Qabs_Qlt_condition. split; lra.
Qed.

Section Site.
Context `{Host}.

(** C7: the longitude complement round trip.  [asi_set_site] sends the
    complement of the longitude item, [360 - longitude] as binary64
    computes it, reduced by [fmod] into [0, 360) for every longitude up to
    360; when the mount answers [:Gg#] with what it was sent, to the arc
    minute, [asi_get_site] yields the longitude the site was set with,
    modulo 360, to the arc minute and the rounding of the three
    subtractions and additions: less than 2^-42 for a longitude between -360
    and 360.  The site is set as the driver sets it, with the longitude
    item passed as the argument. *)
Theorem site_longitude_round_trip device latitude device1 device2 la lo
    result_t reply_t d3 reply d4 :
  let longitude := number device MOUNT_GEOGRAPHIC_COORDINATES_LONGITUDE_ITEM in
  let stored := fmod (round_double (360 - longitude)) 360 in
  asi_set_site device latitude longitude = (true, device1) ->
  asi_command device2 ":Gt#" BUFFER 128 0 = (result_t, reply_t, d3) ->
  asi_command d3 ":Gg#" BUFFER 128 0 = (true, reply, d4) ->
  (Qabs (indigo_stod reply - stored) < 1 # 60)%Q ->
  issued device device1 = [set_latitude_command latitude; set_longitude_command stored]
  /\ ((longitude <= 360)%Q -> (0 <= stored < 360)%Q)
  /\ exists k : Z,
       let read := snd (fst (asi_get_site device2 la lo)) in
       (Qabs (read - longitude - 360 * inject_Z k)
        < (1 # 60) + (Qabs (360 - longitude) + 721) * (1 # 2 ^ 53))%Q
       /\ ((-360 <= longitude <= 360)%Q ->
           (Qabs (read - longitude - 360 * inject_Z k) < (1 # 60) + (1 # 2 ^ 42))%Q).
Proof.
  intros longitude stored Hset Et Eg Hecho.
  destruct (fmod_360 (round_double (360 - longitude))) as (Fb & Fp & Fe).
  fold stored in Fb, Fp, Fe.
  pose proof (round_double_error (360 - longitude)) as Re.
  split; [|split].
  - unfold asi_set_site in Hset.
    destruct (asi_command device (set_latitude_command latitude) BUFFER 1 0)
      as [[r1 s1] d1] eqn:E1.
    destruct (accepted r1 s1 "1") eqn:A1; simpl in Hset; [|discriminate Hset].
    apply accepted_result in A1 as [-> _].
    destruct (asi_command_cases _ _ _ _ _ _ _ _ E1) as [F1 _].
    assert (N : number d1 = number device) by (rewrite F1; reflexivity).
    rewrite N in Hset. fold longitude stored in Hset.
    destruct (asi_command d1 (set_longitude_command stored) BUFFER 1 0)
      as [[r2 s2] d2] eqn:E2.
    destruct (accepted r2 s2 "1") eqn:A2; simpl in Hset; [|discriminate Hset].
    apply accepted_result in A2 as [-> _]. inversion Hset; subst d2.
    apply issued_extension.
    rewrite (asi_command_sent _ _ _ _ _ _ _ E2), (asi_command_sent _ _ _ _ _ _ _ E1).
    now rewrite <- app_assoc.
  - intros Hl.
    assert (S0 : (0 <= round_double (360 - longitude))%Q).
    { rewrite (Qabs_pos (360 - longitude)) in Re by lra.
      apply Qabs_Qle_condition in Re. destruct Re as [Re1 _].
      change (2 ^ 53)%positive with 9007199254740992%positive in Re1.
      lra. }
    apply Qabs_Qlt_condition in Fb. split; [apply Fp; exact S0 | apply Fb].
  - destruct (longitude_decoding (indigo_stod reply) stored
                (round_double (360 - longitude)) longitude
                (Qtrunc (round_double (360 - longitude) / 360)) Fe Re Fb Hecho)
      as (k & K).
    exists k. unfold asi_get_site. rewrite Et, Eg. cbn [fst snd].
    split; [exact K|].
    intros [L1 L2].
    assert (A : (Qabs (360 - longitude) <= 720)%Q)
      by (apply Qabs_Qle_condition; split; lra).
    apply Qlt_le_trans with (1 := K).
    change (2 ^ 53)%positive with 9007199254740992%positive.
    change (2 ^ 42)%positive with 4398046511104%positive.
    lra.
Qed.

End Site.

Lemma site_longitude_round_trip_witness :
  let device :=
    receiving
      (set_number idle_device MOUNT_GEOGRAPHIC_COORDINATES_LONGITUDE_ITEM (21 # 2))
      (reply "1" ++ reply "1") in
  let later := receiving idle_device (reply "+45*00" ++ reply "349*30") in
  fst (asi_set_site (H := reference_host) device 45 (21 # 2)) = true
  /\ issued device (snd (asi_set_site (H := reference_host) device 45 (21 # 2)))
     = [":St+45*00#"; ":Sg349*30#"]
  /\ exists k : Z,
       (Qabs (snd (fst (asi_get_site (H := reference_host) later 0 0))
              - (21 # 2) - 360 * inject_Z k) < (1 # 60) + (1 # 2 ^ 42))%Q.
Proof.
  intros device later.
  assert (Hset : asi_set_site (H := reference_host) device 45
                   (number device MOUNT_GEOGRAPHIC_COORDINATES_LONGITUDE_ITEM)
                 = (true, snd (asi_set_site (H := reference_host) device 45 (21 # 2))))
    by (vm_compute; reflexivity).
  assert (Et : asi_command later ":Gt#" BUFFER 128 0
               = (true, "+45*00", snd (asi_command later ":Gt#" BUFFER 128 0)))
    by reflexivity.
  assert (Eg : asi_command (snd (asi_command later ":Gt#" BUFFER 128 0)) ":Gg#" BUFFER 128 0
               = (true, "349*30",
                  snd (asi_command (snd (asi_command later ":Gt#" BUFFER 128 0))
                         ":Gg#" BUFFER 128 0)))
    by reflexivity.
  assert (Hecho : (Qabs (indigo_stod (Host := reference_host) "349*30"
                         - fmod (round_double
                                   (360 - number device
                                            MOUNT_GEOGRAPHIC_COORDINATES_LONGITUDE_ITEM)) 360)
                   < 1 # 60)%Q)
    by (vm_compute; reflexivity).
  assert (Hrange : (-360 <= number device MOUNT_GEOGRAPHIC_COORDINATES_LONGITUDE_ITEM <= 360)%Q)
    by (split; discriminate).
  destruct (site_longitude_round_trip (H := reference_host) device 45 _ later 0 0
              _ _ _ _ _ Hset Et Eg Hecho) as (I & _ & k & _ & K).
  split; [vm_compute; reflexivity|]. split; [|exists k; exact (K Hrange)].
  rewrite I. vm_compute. reflexivity.
Defined.

(* ------------------------------------------------------------------ *)
(** * More of the driver *)

(** ** Decimal texts *)
Lemma scan_digits_stop rest acc :
  no_digit_ahead rest -> scan_digits rest acc = (acc, rest).
Proof.
  destruct rest as [|c r]; simpl; [reflexivity|]. intros ->. reflexivity.
Qed.

Lemma scan_digits_digit c r acc :
  isdigit c = true ->
  scan_digits (String c r) acc
  = scan_digits r (10 * acc + (Z.of_N (N_of_ascii c) - 48)).
Proof.
  simpl. intros ->. reflexivity.
Qed.

Ltac next_digit IH :=
  cbn [NilEmpty.string_of_uint append Pos.of_uint_acc];
  rewrite scan_digits_digit by reflexivity;
  match goal with
  | |- scan_digits _ ?a = (Z.pos (Pos.of_uint_acc _ ?b), _) =>
      replace a with (Z.pos b) by (vm_compute (Z.of_N (N_of_ascii _)); lia); apply IH
  end.

Lemma scan_digits_acc d acc rest :
  no_digit_ahead rest ->
  scan_digits (NilEmpty.string_of_uint d ++ rest) (Z.pos acc)
  = (Z.pos (Pos.of_uint_acc d acc), rest).
Proof.
  intros Hr. revert acc.
  induction d as [|d IH|d IH|d IH|d IH|d IH|d IH|d IH|d IH|d IH|d IH]; intros acc;
    [cbn; apply scan_digits_stop; exact Hr | next_digit IH ..].
Qed.

Lemma scan_digits_uint d rest :
  no_digit_ahead rest ->
  scan_digits (NilEmpty.string_of_uint d ++ rest) 0 = (Z.of_N (Pos.of_uint d), rest).
Proof.
  intros Hr.
  induction d as [|d IH|d IH|d IH|d IH|d IH|d IH|d IH|d IH|d IH|d IH];
    [cbn; apply scan_digits_stop; exact Hr | ..];
    cbn [NilEmpty.string_of_uint append Pos.of_uint];
    rewrite scan_digits_digit by reflexivity;
    [exact IH | apply (scan_digits_acc d _ rest Hr) ..].
Qed.

Lemma digits_of_nil_empty n :
  digits_of n = NilEmpty.string_of_uint (N.to_uint (Z.to_N (Z.abs n))).
Proof.
  unfold digits_of, NilZero.string_of_uint.
  destruct (N.to_uint (Z.to_N (Z.abs n))) eqn:E; try reflexivity.
  exfalso. destruct (Z.to_N (Z.abs n)); simpl in E; [discriminate|].
  exact (DecimalPos.Unsigned.to_uint_nonnil _ E).
Qed.

Lemma scan_digits_number n rest acc0 :
  no_digit_ahead rest -> acc0 = 0 ->
  scan_digits (digits_of n ++ rest) acc0 = (Z.abs n, rest).
Proof.
  intros Hr ->. rewrite digits_of_nil_empty, scan_digits_uint by exact Hr.
  change (Pos.of_uint ?d) with (N.of_uint d).
  rewrite DecimalN.Unsigned.of_to. f_equal. lia.
Qed.

(** The digits start with a digit. *)
Lemma digits_of_head n :
  exists c r, digits_of n = String c r /\ isdigit c = true.
Proof.
  rewrite digits_of_nil_empty.
  destruct (N.to_uint (Z.to_N (Z.abs n))) eqn:E;
    try (cbn; eexists; eexists; split; reflexivity).
  exfalso. destruct (Z.to_N (Z.abs n)); simpl in E; [discriminate|].
  exact (DecimalPos.Unsigned.to_uint_nonnil _ E).
Qed.

Lemma scan_d_unsigned c r :
  isdigit c = true ->
  scan_d (String c r) = (let '(n, r') := scan_digits (String c r) 0 in Some (n, r')).
Proof.
  intros Hc.
  destruct c as [[|] [|] [|] [|] [|] [|] [|] [|]]; try discriminate Hc; reflexivity.
Qed.

Lemma scan_d_minus c r :
  isdigit c = true ->
  scan_d (String "-" (String c r))
  = (let '(n, r') := scan_digits (String c r) 0 in Some (- n, r')).
Proof.
  intros Hc.
  destruct c as [[|] [|] [|] [|] [|] [|] [|] [|]]; try discriminate Hc; reflexivity.
Qed.

Lemma scan_d_plus c r :
  isdigit c = true ->
  scan_d (String "+" (String c r))
  = (let '(n, r') := scan_digits (String c r) 0 in Some (n, r')).
Proof.
  intros Hc.
  destruct c as [[|] [|] [|] [|] [|] [|] [|] [|]]; try discriminate Hc; reflexivity.
Qed.

Lemma scan_digits_zeros k s :
  scan_digits (zeros k ++ s) 0 = scan_digits s 0.
Proof.
  induction k as [|k IH]; [reflexivity|].
  cbn [zeros append]. rewrite scan_digits_digit by reflexivity. exact IH.
Qed.

Lemma padded_digits_head k n rest :
  exists c r, zeros k ++ digits_of n ++ rest = String c r /\ isdigit c = true.
Proof.
  destruct k as [|k].
  - destruct (digits_of_head n) as (c & r & E & Hc). rewrite E.
    exists c, (r ++ rest). split; [reflexivity | exact Hc].
  - exists "0"%char, (zeros k ++ digits_of n ++ rest). split; reflexivity.
Qed.

Lemma append_assoc (a b c : string) : (a ++ b) ++ c = a ++ (b ++ c).
Proof.
  induction a as [|x a IH]; simpl; [reflexivity | now rewrite IH].
Qed.

(** What [sprintf] prints with [%d], padded or signed, [sscanf] reads back
    with [%d], stopping where the digits stop. *)
Lemma scan_d_sprintf_d plus width n rest :
  no_digit_ahead rest ->
  scan_d (sprintf_d plus width n ++ rest) = Some (n, rest).
Proof.
  intros Hr. unfold sprintf_d. fold (digits_of n).
  set (k := (width - _ - _)%nat). clearbody k.
  rewrite !append_assoc.
  destruct (padded_digits_head k n rest) as (c & r & E & Hc).
  assert (S : scan_digits (String c r) 0 = (Z.abs n, rest)).
  { rewrite <- E, scan_digits_zeros. apply scan_digits_number; [exact Hr | reflexivity]. }
  destruct (Z.ltb_spec n 0).
  - cbn [append]. rewrite E, scan_d_minus, S by exact Hc. f_equal. f_equal. lia.
  - destruct plus; cbn [append]; rewrite E.
    + rewrite scan_d_plus, S by exact Hc. f_equal. f_equal. lia.
    + rewrite scan_d_unsigned, S by exact Hc. f_equal. f_equal. lia.
Qed.

Lemma cstr_append a b : cstr a = a -> cstr (a ++ b) = a ++ cstr b.
Proof.
  induction a as [|c a IH]; [reflexivity|]. simpl.
  destruct (Ascii.eqb c NUL); [discriminate|].
  intros E. injection E as E. now rewrite IH.
Qed.

Lemma cstr_digits d : cstr (NilEmpty.string_of_uint d) = NilEmpty.string_of_uint d.
Proof.
  induction d; cbn [NilEmpty.string_of_uint cstr];
    try reflexivity;
    match goal with
    | |- context [Ascii.eqb ?c NUL] => change (Ascii.eqb c NUL) with false
    end; cbn iota; now rewrite IHd.
Qed.

Lemma cstr_zeros k : cstr (zeros k) = zeros k.
Proof.
  induction k as [|k IH]; [reflexivity|]. cbn [zeros cstr].
  change (Ascii.eqb "0" NUL) with false. cbn iota. now rewrite IH.
Qed.

Lemma cstr_sprintf_d plus width n : cstr (sprintf_d plus width n) = sprintf_d plus width n.
Proof.
  unfold sprintf_d. fold (digits_of n).
  set (k := (width - _ - _)%nat). clearbody k.
  assert (D : cstr (zeros k ++ digits_of n) = zeros k ++ digits_of n).
  { rewrite cstr_append by apply cstr_zeros.
    now rewrite digits_of_nil_empty, cstr_digits. }
  destruct (n <? 0); [|destruct plus]; cbn [append cstr];
    try (match goal with
         | |- context [Ascii.eqb ?c NUL] => change (Ascii.eqb c NUL) with false
         end; cbn iota);
    now rewrite D.
Qed.

Lemma sscanf_three a b c (sep1 sep2 : ascii) :
  isdigit sep1 = false -> isdigit sep2 = false ->
  Ascii.eqb sep1 NUL = false -> Ascii.eqb sep2 NUL = false ->
  sscanf_dcdcd (sprintf_d false 2 a ++ String sep1 (sprintf_d false 2 b
                ++ String sep2 (sprintf_d false 2 c)))
  = Some (a, b, c).
Proof.
  intros D1 D2 N1 N2. unfold sscanf_dcdcd.
  rewrite cstr_append by apply cstr_sprintf_d. cbn [cstr]. rewrite N1.
  rewrite cstr_append by apply cstr_sprintf_d. cbn [cstr]. rewrite N2.
  rewrite cstr_sprintf_d.
  rewrite scan_d_sprintf_d by exact D1. cbn [scan_c].
  rewrite scan_d_sprintf_d by exact D2. cbn [scan_c].
  replace (sprintf_d false 2 c) with (sprintf_d false 2 c ++ EmptyString)
    by (clear; induction (sprintf_d false 2 c); simpl; congruence).
  rewrite scan_d_sprintf_d by exact I. reflexivity.
Qed.

Lemma sscanf_date_text tm :
  sscanf_dcdcd (date_text tm) = Some (tm_mon tm + 1, tm_mday tm, Z.rem (tm_year tm) 100).
Proof.
  unfold date_text. cbn [append]. apply sscanf_three; reflexivity.
Qed.

Lemma sscanf_time_text tm :
  sscanf_dcdcd (time_text tm) = Some (tm_hour tm, tm_min tm, tm_sec tm).
Proof.
  unfold time_text. cbn [append]. apply sscanf_three; reflexivity.
Qed.

Lemma atoi_sprintf_d plus width n : atoi (sprintf_d plus width n) = n.
Proof.
  unfold atoi. rewrite cstr_sprintf_d.
  replace (sprintf_d plus width n) with (sprintf_d plus width n ++ EmptyString)
    by (clear; induction (sprintf_d plus width n); simpl; congruence).
  rewrite scan_d_sprintf_d by exact I. reflexivity.
Qed.

Lemma set_utc_commands_texts tm utc_offset :
  set_date_command tm = ":SC" ++ date_text tm ++ "#"
  /\ set_time_command tm = ":SL" ++ time_text tm ++ "#"
  /\ set_offset_command utc_offset = ":SG" ++ offset_text utc_offset ++ "#".
Proof.
  unfold set_date_command, set_time_command, set_offset_command,
    date_text, time_text, offset_text.
  rewrite !append_assoc. repeat split; reflexivity.
Qed.

Section ClockRoundTrip.
Context `{Host}.

(** X1: the clock read back.  When the mount answers [:GC#], [:GL#] and
    [:GG#] with the date, time and offset that [asi_set_utc] sends for
    [secs] and [utc_offset], [asi_get_utc] succeeds, returns [utc_offset],
    and converts with [mktime] the same broken-down local time, its year
    rebuilt as the two digits plus 100: the year sent, for 2000 to 2099. *)
Theorem asi_get_utc_reads_what_set_utc_sends device secs utc_offset secs0 offset0 d1 d2 d3 :
  let tm := gmtime_r (secs + utc_offset * 3600) in
  use_dst_commands device = false ->
  asi_command device ":GC#" BUFFER 128 0 = (true, date_text tm, d1) ->
  asi_command d1 ":GL#" BUFFER 128 0 = (true, time_text tm, d2) ->
  asi_command d2 ":GG#" BUFFER 128 0 = (true, offset_text utc_offset, d3) ->
  (set_date_command tm = ":SC" ++ date_text tm ++ "#"
   /\ set_time_command tm = ":SL" ++ time_text tm ++ "#"
   /\ set_offset_command utc_offset = ":SG" ++ offset_text utc_offset ++ "#")
  /\ asi_get_utc device secs0 offset0
     = (true,
        mktime {| tm_sec := tm_sec tm; tm_min := tm_min tm; tm_hour := tm_hour tm;
                  tm_mday := tm_mday tm; tm_mon := tm_mon tm;
                  tm_year := Z.rem (tm_year tm) 100 + 100;
                  tm_isdst := daylight; tm_gmtoff := utc_offset * 3600 |},
        utc_offset, d3)
  /\ (100 <= tm_year tm < 200 -> Z.rem (tm_year tm) 100 + 100 = tm_year tm).
Proof.
  intros tm Hdst E1 E2 E3. split; [apply set_utc_commands_texts|]. split.
  - unfold asi_get_utc. rewrite E1, sscanf_date_text, E2, sscanf_time_text, E3.
    destruct (asi_command_cases _ _ _ _ _ _ _ _ E1) as [F1 _].
    destruct (asi_command_cases _ _ _ _ _ _ _ _ E2) as [F2 _].
    destruct (asi_command_cases _ _ _ _ _ _ _ _ E3) as [F3 _].
    assert (U : use_dst_commands d3 = false) by (rewrite F3, F2, F1; exact Hdst).
    rewrite U. unfold offset_text. rewrite atoi_sprintf_d.
    replace (- - utc_offset) with utc_offset by lia.
    replace (tm_mon tm + 1 - 1) with (tm_mon tm) by lia. reflexivity.
  - generalize (tm_year tm). intros y Hy. rewrite Z.rem_mod_nonneg by lia.
    Z.to_euclidean_division_equations. lia.
Qed.

End ClockRoundTrip.

Lemma asi_get_utc_reads_what_set_utc_sends_witness :
  let device :=
    receiving idle_device (reply "06/15/23" ++ reply "10:00:00" ++ reply "-02") in
  use_dst_commands device = false
  /\ set_date_command (gmtime_r (1686816000 + 2 * 3600)) = ":SC06/15/23#"
  /\ fst (asi_get_utc (H := reference_host) device 0 0) = (true, 1686823200, 2).
Proof.
  intro device.
  pose (d1 := snd (asi_command device ":GC#" BUFFER 128 0)).
  pose (d2 := snd (asi_command d1 ":GL#" BUFFER 128 0)).
  pose (d3 := snd (asi_command d2 ":GG#" BUFFER 128 0)).
  assert (Hd : use_dst_commands device = false) by reflexivity.
  assert (E1 : asi_command device ":GC#" BUFFER 128 0
               = (true, date_text (gmtime_r (1686816000 + 2 * 3600)), d1))
    by (vm_compute; reflexivity).
  assert (E2 : asi_command d1 ":GL#" BUFFER 128 0
               = (true, time_text (gmtime_r (1686816000 + 2 * 3600)), d2))
    by (vm_compute; reflexivity).
  assert (E3 : asi_command d2 ":GG#" BUFFER 128 0 = (true, offset_text 2, d3))
    by (vm_compute; reflexivity).
  destruct (asi_get_utc_reads_what_set_utc_sends (H := reference_host)
              device 1686816000 2 0 0 d1 d2 d3 Hd E1 E2 E3) as ((Date & _) & Read & _).
  split; [exact Hd|]. split.
  - rewrite Date. vm_compute. reflexivity.
  - rewrite Read. vm_compute. reflexivity.
Defined.

(* ------------------------------------------------------------------ *)
(** ** The channel, further *)

Lemma collect_length room evs ok stored evs' :
  collect room evs = (ok, stored, evs') -> (String.length stored <= room)%nat.
Proof.
  revert evs ok stored evs'.
  induction room as [|room IH]; intros evs ok stored evs'; simpl.
  - intros E; inversion E; subst. simpl. lia.
  - destruct evs as [|[c| | |] evs]; try (intros E; inversion E; subst; simpl; lia).
    destruct (Ascii.eqb (stored_for c) "#"); [intros E; inversion E; subst; simpl; lia|].
    destruct (collect room evs) as [[ok1 stored1] evs1] eqn:C.
    intros E; inversion E; subst. simpl. specialize (IH _ _ _ _ C). lia.
Qed.

Lemma collect_full room bs rest :
  ~ In "#"%char bs -> (room <= List.length bs)%nat ->
  collect room (map RxByte bs ++ rest)
  = (true, string_of_list_ascii (map stored_for (firstn room bs)),
     (map RxByte (skipn room bs) ++ rest)%list).
Proof.
  revert bs. induction room as [|room IH]; intros bs Hin Hlen.
  - reflexivity.
  - destruct bs as [|b bs]; [simpl in Hlen; lia|]. simpl in *.
    assert (Hb : Ascii.eqb (stored_for b) "#" = false).
    { apply Ascii.eqb_neq. unfold stored_for.
      destruct (char_negative b); [discriminate|]. intros ->. apply Hin. now left. }
    rewrite Hb, IH; [reflexivity | tauto | lia].
Qed.

(** X2: a response cut at [max].  For a caller whose array is larger than
    [max], as in [asi_set_utc] and [asi_set_site], which pass 1 with their
    [char response[128]], the bytes stored are [max] at most and their
    terminator lies inside the array; a reply that does not end within
    [max] bytes is cut there: the first [max] bytes are returned, and the
    others stay on the link, unread. *)
Theorem asi_command_reply_bounded device command max sleep :
  max < sizeof_response ->
  (forall result response device',
      asi_command device command BUFFER max sleep = (result, response, device') ->
      (String.length response <= Z.to_nat max)%nat
      /\ Z.of_nat (String.length response) < sizeof_response)
  /\
  (forall stale bs rest,
      rx (port device) = (map RxByte stale ++ RxQuiet :: map RxByte bs ++ rest)%list ->
      ~ In "#"%char bs ->
      (Z.to_nat max <= List.length bs)%nat ->
      exists device',
        asi_command device command BUFFER max sleep
        = (true, string_of_list_ascii (map stored_for (firstn (Z.to_nat max) bs)), device')
        /\ rx (port device') = (map RxByte (skipn (Z.to_nat max) bs) ++ rest)%list).
Proof.
  intros Hmax. split.
  - intros result response device' E.
    assert (L : (String.length response <= Z.to_nat max)%nat).
    { revert E. unfold asi_command.
      destruct (drain (rx (port device))) as [[|] evs]; simpl.
      + destruct (indigo_write (set_rx (port device) evs) command) as [w l].
        destruct (collect (Z.to_nat max) (rx l)) as [[ok stored] evs'] eqn:C.
        intros E; inversion E; subst. eapply collect_length. exact C.
      + intros E; inversion E; subst. simpl. lia. }
    split; [exact L | unfold sizeof_response in *; lia].
  - intros stale bs rest Hrx Hin Hlen. unfold asi_command.
    rewrite Hrx, drain_stale; simpl.
    unfold indigo_write; simpl.
    destruct (wr (port device)); simpl;
      rewrite (collect_full _ bs rest Hin Hlen);
      eexists; split; reflexivity.
Qed.

Lemma asi_command_reply_bounded_witness :
  let device := receiving idle_device (reply "1Updating Planetary Data") in
  1 < sizeof_response
  /\ (String.length (snd (fst (asi_command device ":SC06/15/23#" BUFFER 1 0))) <= 1)%nat
  /\ exists device',
       asi_command device ":SC06/15/23#" BUFFER 1 0 = (true, "1", device')
       /\ rx (port device')
          = (map RxByte (list_ascii_of_string "Updating Planetary Data")
             ++ [RxByte "#"%char])%list.
Proof.
  intro device.
  assert (Hmax : 1 < sizeof_response) by reflexivity.
  destruct (asi_command_reply_bounded device ":SC06/15/23#" 1 0 Hmax) as [A B].
  split; [exact Hmax|]. split.
  - apply (A (fst (fst (asi_command device ":SC06/15/23#" BUFFER 1 0)))
             (snd (fst (asi_command device ":SC06/15/23#" BUFFER 1 0)))
             (snd (asi_command device ":SC06/15/23#" BUFFER 1 0))).
    reflexivity.
  - apply (B [] (list_ascii_of_string "1Updating Planetary Data") [RxByte "#"%char]).
    + reflexivity.
    + simpl. intuition discriminate.
    + vm_compute. lia.
Defined.

Lemma silent_tail e evs : silent (e :: evs) -> e = RxQuiet /\ silent evs.
Proof.
  intros S. inversion S; subst. split; [reflexivity | assumption].
Qed.

Lemma drain_silent evs :
  silent evs -> exists evs', drain evs = (true, evs') /\ silent evs'.
Proof.
  destruct evs as [|e evs]; intros S.
  - exists []. split; [reflexivity | exact S].
  - apply silent_tail in S as [-> S]. exists evs. split; [reflexivity | exact S].
Qed.

Lemma collect_silent room evs :
  silent evs -> exists evs', collect room evs = (true, EmptyString, evs') /\ silent evs'.
Proof.
  intros S. destruct room as [|room].
  - exists evs. split; [reflexivity | exact S].
  - destruct evs as [|e evs].
    + exists []. split; [reflexivity | exact S].
    + apply silent_tail in S as [-> S]. exists evs. split; [reflexivity | exact S].
Qed.

Lemma asi_command_silent d c r m s :
  silent (rx (port d)) ->
  exists d',
    asi_command d c r m s = (true, EmptyString, d')
    /\ d' = set_port d (port d')
    /\ silent (rx (port d'))
    /\ wire (port d') = (wire (port d) ++ [c])%list.
Proof.
  intros S. unfold asi_command.
  destruct (drain_silent _ S) as (evs & D & S1). rewrite D. simpl.
  unfold indigo_write; simpl.
  destruct r.
  - destruct (wr (port d)); simpl; eexists; repeat split; simpl; try reflexivity; exact S1.
  - destruct (wr (port d)); simpl;
      destruct (collect_silent (Z.to_nat m) evs S1) as (evs' & C & S2); rewrite C;
      eexists; repeat split; simpl; try reflexivity; exact S2.
Qed.

(** X3: a reply that never comes is not a failure.  On a link that delivers
    nothing, every exchange, with or without a response to read, writes its
    command and returns success, the response empty. *)
Theorem asi_command_silence_is_success device command response max sleep :
  silent (rx (port device)) ->
  exists device',
    asi_command device command response max sleep = (true, EmptyString, device')
    /\ issued device device' = [command]
    /\ silent (rx (port device')).
Proof.
  intros S. destruct (asi_command_silent device command response max sleep S)
    as (d' & E & _ & S' & W).
  exists d'. split; [exact E|]. split; [apply issued_extension; exact W | exact S'].
Qed.

Lemma asi_command_silence_is_success_witness :
  let device := receiving idle_device [RxQuiet; RxQuiet] in
  silent (rx (port device))
  /\ exists device',
       asi_command device ":GR#" BUFFER 128 0 = (true, EmptyString, device')
       /\ issued device device' = [":GR#"]
       /\ silent (rx (port device')).
Proof.
  intro device.
  assert (S : silent (rx (port device))) by (repeat constructor).
  split; [exact S|].
  exact (asi_command_silence_is_success device ":GR#" BUFFER 128 0 S).
Defined.

(* ------------------------------------------------------------------ *)
(** ** Error codes *)

(** X4: only the codes 1 to 8 have a message, and only a reply that starts
    with [e] gives a code: every other reply, and every code outside 1..8
    (negative ones included, through the unsigned parameter), gives the
    empty message. *)
Theorem asi_error_message_range :
  (forall code, - 2 ^ 31 <= code < 2 ^ 31 ->
                (asi_error_string code <> EmptyString <-> 1 <= code <= 8))
  /\ (forall response,
         asi_error_code response <> 0 ->
         exists rest, cstr response = String "e" rest).
Proof.
  split.
  - intros code Hc. unfold asi_error_string.
    destruct (Z.ltb_spec code 0) as [Neg|Pos].
    + replace (code mod 2 ^ 32) with (code + 2 ^ 32)
        by (apply Z.mod_unique with (-1); lia).
      destruct (Z.gtb_spec (code + 2 ^ 32) 8); [|lia]. simpl. split; [congruence | lia].
    + rewrite Z.mod_small by lia.
      destruct (Z.gtb_spec code 8) as [Big|Small].
      * simpl. split; [congruence | lia].
      * assert (In code [0; 1; 2; 3; 4; 5; 6; 7; 8]) as Hin by (simpl; lia).
        simpl in Hin.
        destruct Hin as [<-|[<-|[<-|[<-|[<-|[<-|[<-|[<-|[<-|[]]]]]]]]]]; simpl;
          split; intros; try lia; try discriminate; congruence.
  - intros response. unfold asi_error_code.
    destruct (cstr response) as [|c rest]; [congruence|].
    destruct (Ascii.eqb_spec c "e") as [->|Hne].
    + intros _. exists rest. reflexivity.
    + intros N. exfalso. apply N.
      destruct c as [[|] [|] [|] [|] [|] [|] [|] [|]]; try reflexivity.
      exfalso. apply Hne. reflexivity.
Qed.

Lemma asi_error_message_range_witness :
  (- 2 ^ 31 <= -1 < 2 ^ 31 /\ asi_error_string (-1) = EmptyString)
  /\ (asi_error_code "e5" <> 0 /\ exists rest, cstr "e5" = String "e" rest).
Proof.
  destruct asi_error_message_range as [A B]. split.
  - assert (R : - 2 ^ 31 <= -1 < 2 ^ 31) by lia. split; [exact R|].
    destruct (string_dec (asi_error_string (-1)) EmptyString) as [E|N]; [exact E|].
    apply (A (-1) R) in N. lia.
  - assert (N : asi_error_code "e5" <> 0) by (vm_compute; discriminate).
    split; [exact N | exact (B "e5" N)].
Defined.

(* ------------------------------------------------------------------ *)
(** ** Motion, further *)

Lemma asi_command_NULL_failed d c m s :
  fst (drain (rx (port d))) = false ->
  exists d',
    asi_command d c NULL m s = (false, EmptyString, d')
    /\ d' = set_port d (port d')
    /\ wire (port d') = wire (port d).
Proof.
  intros D.
  pose proof (asi_command_frame d c NULL m s) as F.
  pose proof (asi_command_wire d c NULL m s) as W.
  rewrite D, app_nil_r in W.
  assert (R : fst (asi_command d c NULL m s) = (false, EmptyString)).
  { unfold asi_command.
    destruct (drain (rx (port d))) as [[|] evs]; simpl in *; [discriminate D | reflexivity]. }
  destruct (asi_command d c NULL m s) as [[ok stored] d']; simpl in *.
  injection R as -> ->. exists d'. repeat split; assumption.
Qed.

(** X5: when the stop of the recorded direction fails, nothing is started:
    the call returns failure, has written nothing, and the recorded
    direction stays, whatever the switches ask for. *)
Theorem motion_stop_failure_starts_nothing device r :
  fst (drain (rx (port device))) = false ->
  (In r ["n"%char; "s"%char] -> lastMotionNS device = r ->
   exists device',
     asi_motion_dec device = (false, device')
     /\ issued device device' = []
     /\ lastMotionNS device' = r)
  /\
  (In r ["w"%char; "e"%char] -> lastMotionWE device = r ->
   exists device',
     asi_motion_ra device = (false, device')
     /\ issued device device' = []
     /\ lastMotionWE device' = r).
Proof.
  intros D. split; intros Hr Hlast.
  - unfold asi_motion_dec. rewrite Hlast.
    destruct Hr as [<-|[<-|[]]]; simpl;
      match goal with
      | |- context [asi_command device ?c NULL 0 0] =>
          destruct (asi_command_NULL_failed device c 0 0 D) as (d' & E & F & W); rewrite E
      end;
      exists d'; (split; [reflexivity|]);
      (split; [apply issued_extension; now rewrite app_nil_r | rewrite F; exact Hlast]).
  - unfold asi_motion_ra. rewrite Hlast.
    destruct Hr as [<-|[<-|[]]]; simpl;
      match goal with
      | |- context [asi_command device ?c NULL 0 0] =>
          destruct (asi_command_NULL_failed device c 0 0 D) as (d' & E & F & W); rewrite E
      end;
      exists d'; (split; [reflexivity|]);
      (split; [apply issued_extension; now rewrite app_nil_r | rewrite F; exact Hlast]).
Qed.

Lemma motion_stop_failure_starts_nothing_witness :
  let device :=
    receiving (set_lastMotionNS (set_sw idle_device MOUNT_MOTION_SOUTH_ITEM true) "n")
      [RxSelErr] in
  fst (drain (rx (port device))) = false
  /\ exists device',
       asi_motion_dec device = (false, device')
       /\ issued device device' = []
       /\ lastMotionNS device' = "n"%char.
Proof.
  intro device.
  assert (D : fst (drain (rx (port device))) = false) by reflexivity.
  split; [exact D|].
  apply (proj1 (motion_stop_failure_starts_nothing device "n" D)).
  - simpl; tauto.
  - reflexivity.
Defined.

(** X6: with both switches of an axis off, the recorded direction is stopped
    and forgotten, and nothing is started; with nothing recorded either, the
    call succeeds without touching the link. *)
Theorem motion_release device r :
  (fst (drain (rx (port device))) = true ->
   In r ["n"%char; "s"%char] -> lastMotionNS device = r ->
   requested_dec device = None ->
   exists device',
     asi_motion_dec device = (true, device')
     /\ issued device device' = [stop_command r]
     /\ lastMotionNS device' = NUL)
  /\
  (fst (drain (rx (port device))) = true ->
   In r ["w"%char; "e"%char] -> lastMotionWE device = r ->
   requested_ra device = None ->
   exists device',
     asi_motion_ra device = (true, device')
     /\ issued device device' = [stop_command r]
     /\ lastMotionWE device' = NUL)
  /\
  (lastMotionNS device <> "n"%char -> lastMotionNS device <> "s"%char ->
   requested_dec device = None ->
   asi_motion_dec device = (true, set_lastMotionNS device NUL))
  /\
  (lastMotionWE device <> "w"%char -> lastMotionWE device <> "e"%char ->
   requested_ra device = None ->
   asi_motion_ra device = (true, set_lastMotionWE device NUL)).
Proof.
  split; [|split; [|split]].
  - intros D Hr Hlast Hreq. unfold asi_motion_dec, requested_dec in *. rewrite Hlast.
    destruct Hr as [<-|[<-|[]]]; simpl;
      match goal with
      | |- context [asi_command device ?c NULL 0 0] =>
          destruct (asi_command_NULL_ok device c 0 0 D) as (d' & E & F & _ & W); rewrite E
      end;
      (assert (Hsw : sw d' = sw device) by (rewrite F; reflexivity));
      rewrite Hsw;
      destruct (sw device MOUNT_MOTION_NORTH_ITEM); try discriminate Hreq;
      destruct (sw device MOUNT_MOTION_SOUTH_ITEM); try discriminate Hreq;
      eexists; (split; [reflexivity|]);
      (split; [apply issued_extension; exact W | reflexivity]).
  - intros D Hr Hlast Hreq. unfold asi_motion_ra, requested_ra in *. rewrite Hlast.
    destruct Hr as [<-|[<-|[]]]; simpl;
      match goal with
      | |- context [asi_command device ?c NULL 0 0] =>
          destruct (asi_command_NULL_ok device c 0 0 D) as (d' & E & F & _ & W); rewrite E
      end;
      (assert (Hsw : sw d' = sw device) by (rewrite F; reflexivity));
      rewrite Hsw;
      destruct (sw device MOUNT_MOTION_WEST_ITEM); try discriminate Hreq;
      destruct (sw device MOUNT_MOTION_EAST_ITEM); try discriminate Hreq;
      eexists; (split; [reflexivity|]);
      (split; [apply issued_extension; exact W | reflexivity]).
  - intros Hn Hs Hreq. unfold asi_motion_dec, requested_dec in *.
    apply Ascii.eqb_neq in Hn, Hs. rewrite Hn, Hs.
    destruct (sw device MOUNT_MOTION_NORTH_ITEM); try discriminate Hreq.
    destruct (sw device MOUNT_MOTION_SOUTH_ITEM); try discriminate Hreq.
    reflexivity.
  - intros Hn Hs Hreq. unfold asi_motion_ra, requested_ra in *.
    apply Ascii.eqb_neq in Hn, Hs. rewrite Hn, Hs.
    destruct (sw device MOUNT_MOTION_WEST_ITEM); try discriminate Hreq.
    destruct (sw device MOUNT_MOTION_EAST_ITEM); try discriminate Hreq.
    reflexivity.
Qed.

Lemma motion_release_witness :
  let moving := set_lastMotionWE idle_device "e" in
  (exists device',
      asi_motion_ra moving = (true, device')
      /\ issued moving device' = [":Qe#"]
      /\ lastMotionWE device' = NUL)
  /\ asi_motion_dec (receiving idle_device [RxSelErr])
     = (true, set_lastMotionNS (receiving idle_device [RxSelErr]) NUL).
Proof.
  intro moving. split.
  - apply (proj1 (proj2 (motion_release moving "e"))).
    + reflexivity.
    + simpl; tauto.
    + reflexivity.
    + reflexivity.
  - apply (proj1 (proj2 (proj2 (motion_release (receiving idle_device [RxSelErr]) "n")))).
    + discriminate.
    + discriminate.
    + reflexivity.
Defined.

(* ------------------------------------------------------------------ *)
(** ** Slew and sync, further *)

Section GotoOutcome.
Context `{Host}.

(** X7: with both targets accepted, the slew starts only on the reply ['0']
    to [:MS#]: then the call succeeds with error code 0, three commands
    written; any other first byte, the ['1'] that accepts the targets
    included, is a failure whose code is the one [asi_error_code] reads in
    the reply. *)
Theorem asi_slew_start device ra dec r1 d1 r2 d2 r3 d3 :
  asi_command device (target_ra_command ra) BUFFER 128 0 = (true, r1, d1) ->
  deref r1 = "1"%char ->
  asi_command d1 (target_dec_command dec) BUFFER 128 0 = (true, r2, d2) ->
  deref r2 = "1"%char ->
  asi_command d2 ":MS#" BUFFER 128 100000 = (true, r3, d3) ->
  issued device d3 = [target_ra_command ra; target_dec_command dec; ":MS#"]
  /\ (deref r3 = "0"%char -> asi_slew device ra dec = (true, 0, d3))
  /\ (deref r3 <> "0"%char -> asi_slew device ra dec = (false, asi_error_code r3, d3)).
Proof.
  intros E1 A1 E2 A2 E3. split; [|split].
  - apply issued_extension.
    rewrite (asi_command_sent _ _ _ _ _ _ _ E3), (asi_command_sent _ _ _ _ _ _ _ E2),
      (asi_command_sent _ _ _ _ _ _ _ E1).
    now rewrite <- !app_assoc.
  - intros A3. unfold asi_slew.
    rewrite E1, (accepted_intro _ _ A1). simpl.
    rewrite E2, (accepted_intro _ _ A2). simpl.
    rewrite E3, (accepted_intro _ _ A3). reflexivity.
  - intros A3. unfold asi_slew.
    rewrite E1, (accepted_intro _ _ A1). simpl.
    rewrite E2, (accepted_intro _ _ A2). simpl.
    rewrite E3. unfold accepted. apply Ascii.eqb_neq in A3. rewrite A3. reflexivity.
Qed.

(** X8: a sync sends the two targets and [:CM#], never [:MS#]; with both
    targets accepted it fails only when the reply to [:CM#] starts with [e],
    with the code read in that reply, and succeeds on every other reply, the
    empty one of a mount that does not answer included. *)
Theorem asi_sync_outcome device ra dec r1 d1 r2 d2 r3 d3 :
  asi_command device (target_ra_command ra) BUFFER 128 0 = (true, r1, d1) ->
  deref r1 = "1"%char ->
  asi_command d1 (target_dec_command dec) BUFFER 128 0 = (true, r2, d2) ->
  deref r2 = "1"%char ->
  asi_command d2 ":CM#" BUFFER 128 100000 = (true, r3, d3) ->
  issued device d3 = [target_ra_command ra; target_dec_command dec; ":CM#"]
  /\ ~ In ":MS#" (issued device d3)
  /\ (deref r3 <> "e"%char -> asi_sync device ra dec = (true, 0, d3))
  /\ (deref r3 = "e"%char -> asi_sync device ra dec = (false, asi_error_code r3, d3)).
Proof.
  intros E1 A1 E2 A2 E3.
  assert (I : issued device d3
              = [target_ra_command ra; target_dec_command dec; ":CM#"]).
  { apply issued_extension.
    rewrite (asi_command_sent _ _ _ _ _ _ _ E3), (asi_command_sent _ _ _ _ _ _ _ E2),
      (asi_command_sent _ _ _ _ _ _ _ E1).
    now rewrite <- !app_assoc. }
  split; [exact I|]. split; [|split].
  - rewrite I. unfold target_ra_command, target_dec_command. simpl.
    intros [E|[E|[E|[]]]]; discriminate E.
  - intros A3. unfold asi_sync.
    rewrite E1, (accepted_intro _ _ A1). simpl.
    rewrite E2, (accepted_intro _ _ A2). simpl.
    rewrite E3. apply Ascii.eqb_neq in A3. rewrite A3. reflexivity.
  - intros A3. unfold asi_sync.
    rewrite E1, (accepted_intro _ _ A1). simpl.
    rewrite E2, (accepted_intro _ _ A2). simpl.
    rewrite E3, A3. reflexivity.
Qed.

End GotoOutcome.

Lemma asi_slew_start_witness :
  let device := receiving idle_device (reply "1" ++ reply "1" ++ reply "1") in
  asi_slew (H := reference_host) device 1 (-80)
  = (false, 0, snd (asi_slew (H := reference_host) device 1 (-80)))
  /\ issued device (snd (asi_slew (H := reference_host) device 1 (-80)))
     = [":Sr01:00:00#"; ":Sd-80*00:00#"; ":MS#"].
Proof.
  intro device.
  destruct (asi_slew_start (H := reference_host) device 1 (-80)
              "1" (snd (asi_command device ":Sr01:00:00#" BUFFER 128 0))
              "1" (snd (asi_command (snd (asi_command device ":Sr01:00:00#" BUFFER 128 0))
                          ":Sd-80*00:00#" BUFFER 128 0))
              "1" (snd (asi_slew (H := reference_host) device 1 (-80))))
    as (I & _ & F); try reflexivity.
  split; [apply F; discriminate | exact I].
Defined.

Lemma asi_sync_outcome_witness :
  let device := receiving idle_device (reply "1" ++ reply "1" ++ [RxQuiet; RxQuiet]) in
  asi_sync (H := reference_host) device 1 (-80)
  = (true, 0, snd (asi_sync (H := reference_host) device 1 (-80)))
  /\ issued device (snd (asi_sync (H := reference_host) device 1 (-80)))
     = [":Sr01:00:00#"; ":Sd-80*00:00#"; ":CM#"].
Proof.
  intro device.
  destruct (asi_sync_outcome (H := reference_host) device 1 (-80)
              "1" (snd (asi_command device ":Sr01:00:00#" BUFFER 128 0))
              "1" (snd (asi_command (snd (asi_command device ":Sr01:00:00#" BUFFER 128 0))
                          ":Sd-80*00:00#" BUFFER 128 0))
              EmptyString (snd (asi_sync (H := reference_host) device 1 (-80))))
    as (I & _ & S & _); try reflexivity.
  split; [apply S; discriminate | exact I].
Defined.

(* ------------------------------------------------------------------ *)
(** ** Site, further *)

Section SiteFurther.
Context `{Host}.

(** X9: the range of the longitude read.  For a reply that decodes within
    one turn, [asi_get_site] returns a longitude between 0 and 360, both
    ends included: binary64 rounding gives exactly 0 for a reply just below
    zero and exactly 360 for a reply at or just above zero. *)
Theorem asi_get_site_longitude_range device la lo result_t reply_t d1 reply d2 :
  asi_command device ":Gt#" BUFFER 128 0 = (result_t, reply_t, d1) ->
  asi_command d1 ":Gg#" BUFFER 128 0 = (true, reply, d2) ->
  (- (360) < indigo_stod reply < 360)%Q ->
  let longitude := snd (fst (asi_get_site device la lo)) in
  (0 <= longitude <= 360)%Q
  /\ ((- (1 # 2 ^ 46) <= indigo_stod reply < 0)%Q -> (longitude == 0)%Q)
  /\ ((0 <= indigo_stod reply <= 1 # 2 ^ 46)%Q -> (longitude == 360)%Q).
Proof.
  intros Et Eg [Lo Hi] longitude. unfold longitude, asi_get_site.
  rewrite Et, Eg. cbn [fst snd]. clear longitude.
  set (v := indigo_stod reply) in *.
  change (inject_Z 0 <= round_double (360 - (if Qltb v 0 then round_double (v + 360) else v))
          <= inject_Z 360
          /\ ((- (1 # 2 ^ 46) <= v < 0)%Q ->
              round_double (360 - (if Qltb v 0 then round_double (v + 360) else v)) == 0)
          /\ ((0 <= v <= 1 # 2 ^ 46)%Q ->
              round_double (360 - (if Qltb v 0 then round_double (v + 360) else v)) == 360))%Q.
  unfold Qltb. destruct (Qle_bool 0 v) eqn:E; cbn [negb].
  - apply Qle_bool_iff in E. split; [|split].
    + apply round_double_between; [|lia|reflexivity].
      change (inject_Z 0) with 0%Q. change (inject_Z 360) with 360%Q. split; lra.
    + intros [_ C]. lra.
    + intros [_ C]. apply round_double_360. split; lra.
  - assert (Hv : (v < 0)%Q).
    { apply Qnot_le_lt. intros C. apply Qle_bool_iff in C. congruence. }
    assert (R : (inject_Z 0 <= round_double (v + 360) <= inject_Z 360)%Q).
    { apply round_double_between; [|lia|reflexivity].
      change (inject_Z 0) with 0%Q. change (inject_Z 360) with 360%Q. split; lra. }
    change (inject_Z 0) with 0%Q in *. change (inject_Z 360) with 360%Q in *.
    split; [|split].
    + change 0%Q with (inject_Z 0). change 360%Q with (inject_Z 360) at 3.
      apply round_double_between; [|lia|reflexivity].
      change (inject_Z 0) with 0%Q. change (inject_Z 360) with 360%Q. split; lra.
    + intros [C _]. apply round_double_zero.
      rewrite (round_double_360 (v + 360)) by (split; lra). reflexivity.
    + intros [C _]. lra.
Qed.

(** X10: a latitude that the mount does not accept ends [asi_set_site]: it
    fails and the longitude is not sent; with the latitude accepted, the
    call succeeds exactly when the longitude is accepted too. *)
Theorem asi_set_site_fails_fast device latitude longitude :
  let stored :=
    fmod (round_double (360 - number device MOUNT_GEOGRAPHIC_COORDINATES_LONGITUDE_ITEM)) 360 in
  (forall result r d1,
      asi_command device (set_latitude_command latitude) BUFFER 1 0 = (result, r, d1) ->
      accepted result r "1" = false ->
      asi_set_site device latitude longitude = (false, d1)
      /\ ~ In (set_longitude_command stored) (issued device d1))
  /\
  (forall r1 d1 result r d2,
      asi_command device (set_latitude_command latitude) BUFFER 1 0 = (true, r1, d1) ->
      deref r1 = "1"%char ->
      asi_command d1 (set_longitude_command stored) BUFFER 1 0 = (result, r, d2) ->
      asi_set_site device latitude longitude = (accepted result r "1", d2)).
Proof.
  intros stored. split.
  - intros result r d1 E1 A1. split.
    + unfold asi_set_site. rewrite E1, A1. reflexivity.
    + destruct (asi_command_cases _ _ _ _ _ _ _ _ E1) as [_ [W|[_ W]]].
      * rewrite (issued_extension _ _ _ W). simpl. intros [E|[]].
        unfold set_latitude_command, set_longitude_command in E.
        cbn [append] in E. discriminate E.
      * assert (I : issued device d1 = [])
          by (apply issued_extension; now rewrite app_nil_r).
        rewrite I. intros [].
  - intros r1 d1 result r d2 E1 A1 E2. unfold asi_set_site.
    rewrite E1, (accepted_intro _ _ A1). simpl.
    destruct (asi_command_cases _ _ _ _ _ _ _ _ E1) as [F1 _].
    assert (N : number d1 = number device) by (rewrite F1; reflexivity).
    rewrite N. fold stored. rewrite E2.
    destruct (accepted result r "1"); reflexivity.
Qed.

End SiteFurther.

Lemma asi_get_site_longitude_range_witness :
  let device := receiving idle_device (reply "+45*00" ++ reply "000*00") in
  (0 <= snd (fst (asi_get_site (H := reference_host) device 0 0)) <= 360)%Q
  /\ (snd (fst (asi_get_site (H := reference_host) device 0 0)) == 360)%Q.
Proof.
  intro device.
  assert (Et : asi_command device ":Gt#" BUFFER 128 0
               = (true, "+45*00", snd (asi_command device ":Gt#" BUFFER 128 0)))
    by reflexivity.
  assert (Eg : asi_command (snd (asi_command device ":Gt#" BUFFER 128 0)) ":Gg#" BUFFER 128 0
               = (true, "000*00",
                  snd (asi_command (snd (asi_command device ":Gt#" BUFFER 128 0))
                         ":Gg#" BUFFER 128 0)))
    by reflexivity.
  assert (R : (- (360) < indigo_stod (Host := reference_host) "000*00" < 360)%Q)
    by (split; reflexivity).
  assert (Z0 : (0 <= indigo_stod (Host := reference_host) "000*00" <= 1 # 2 ^ 46)%Q)
    by (split; discriminate).
  destruct (asi_get_site_longitude_range (H := reference_host) device 0 0
              _ _ _ _ _ Et Eg R) as (Range & _ & Top).
  split; [exact Range | exact (Top Z0)].
Defined.

Lemma asi_set_site_fails_fast_witness :
  let device := receiving idle_device (reply "0") in
  fst (asi_set_site (H := reference_host) device 45 10) = false
  /\ ~ In ":Sg000*00#" (issued device (snd (asi_set_site (H := reference_host) device 45 10))).
Proof.
  intro device.
  destruct (asi_set_site_fails_fast (H := reference_host) device 45 10) as [A _].
  destruct (A true "0" (snd (asi_set_site (H := reference_host) device 45 10)))
    as [R N]; try reflexivity.
  split; [rewrite R; reflexivity | exact N].
Defined.

(* ------------------------------------------------------------------ *)
(** ** The time read, further *)

Section TimeRead.
Context `{Host}.

Lemma asi_get_utc_failure_keeps d secs utc_offset :
  fst (fst (fst (asi_get_utc d secs utc_offset))) = false ->
  snd (fst (fst (asi_get_utc d secs utc_offset))) = secs
  /\ snd (fst (asi_get_utc d secs utc_offset)) = utc_offset.
Proof.
  unfold asi_get_utc.
  destruct (asi_command d ":GC#" BUFFER 128 0) as [[r1 s1] d1].
  destruct (if r1 then sscanf_dcdcd s1 else None) as [[[mon mday] year]|]; simpl;
    [|split; reflexivity].
  destruct (asi_command d1 ":GL#" BUFFER 128 0) as [[r2 s2] d2].
  destruct (if r2 then sscanf_dcdcd s2 else None) as [[[hour min] sec]|]; simpl;
    [|split; reflexivity].
  destruct (asi_command d2 ":GG#" BUFFER 128 0) as [[r3 s3] d3].
  destruct r3; simpl; [|split; reflexivity].
  destruct (use_dst_commands d3); simpl.
  - destruct (asi_command d3 ":GH#" BUFFER 128 0) as [[r4 s4] d4]. simpl. discriminate.
  - discriminate.
Qed.

(** X11: a time read that fails gives back the time and the offset it was
    given, and stops at the first reply that is not three numbers: after a
    date that does not parse, [:GL#] and [:GG#] are not sent.  The tick then
    keeps the UTC texts and marks the UTC property as alert. *)
Theorem asi_get_utc_failure device secs utc_offset :
  (fst (fst (fst (asi_get_utc device secs utc_offset))) = false ->
   snd (fst (fst (asi_get_utc device secs utc_offset))) = secs
   /\ snd (fst (asi_get_utc device secs utc_offset)) = utc_offset)
  /\
  (forall result r d1,
      asi_command device ":GC#" BUFFER 128 0 = (result, r, d1) ->
      (if result then sscanf_dcdcd r else None) = None ->
      asi_get_utc device secs utc_offset = (false, secs, utc_offset, d1)
      /\ ~ In ":GL#" (issued device d1) /\ ~ In ":GG#" (issued device d1))
  /\
  (fst (fst (fst (asi_get_utc device 0 0))) = false ->
   (forall i, text (poll_utc device) i = text device i)
   /\ state (poll_utc device) MOUNT_UTC_TIME_PROPERTY = INDIGO_ALERT_STATE).
Proof.
  split; [apply asi_get_utc_failure_keeps|]. split.
  - intros result r d1 E1 P. split.
    + unfold asi_get_utc. rewrite E1, P. reflexivity.
    + pose proof (wrote_command _ _ _ _ _ _ _ _ E1) as W.
      split; apply (wrote_issued _ _ _ _ W); simpl; intuition discriminate.
  - intros F. unfold poll_utc.
    destruct (asi_get_utc_wrote device 0 0) as [Fr _].
    destruct (asi_get_utc device 0 0) as [[[res secs'] off'] d']. simpl in F, Fr.
    subst res. rewrite Fr. simpl. split; [intros i; reflexivity | reflexivity].
Qed.

End TimeRead.

Lemma asi_get_utc_failure_witness :
  let device := receiving idle_device (reply "garbage" ++ reply "10:00:00") in
  asi_get_utc (H := reference_host) device 7 3
  = (false, 7, 3, snd (asi_get_utc (H := reference_host) device 7 3))
  /\ ~ In ":GL#" (issued device (snd (asi_get_utc (H := reference_host) device 7 3)))
  /\ state (poll_utc (H := reference_host) device) MOUNT_UTC_TIME_PROPERTY
     = INDIGO_ALERT_STATE.
Proof.
  intro device.
  destruct (asi_get_utc_failure (H := reference_host) device 7 3) as (_ & A & _).
  destruct (asi_get_utc_failure (H := reference_host) device 0 0) as (_ & _ & B).
  destruct (A true "garbage" (snd (asi_get_utc (H := reference_host) device 7 3)))
    as (R & N & _); try reflexivity.
  split; [exact R|]. split; [exact N|].
  apply B. reflexivity.
Defined.

(* ------------------------------------------------------------------ *)
(** ** The poll tick, further *)

Lemma apply_status_frame d response :
  port (apply_status d response) = port d
  /\ number (apply_status d response) = number d
  /\ state (apply_status d response) MOUNT_UTC_TIME_PROPERTY
     = state d MOUNT_UTC_TIME_PROPERTY.
Proof.
  unfold apply_status.
  destruct (strchr response "N"), (strchr response "n"), (strchr response "H"); cbn;
    destruct (sw d MOUNT_TRACKING_ON_ITEM), (sw d MOUNT_TRACKING_OFF_ITEM);
    cbn; destruct (prev_home_state d); cbn; repeat split; reflexivity.
Qed.

Lemma apply_status_moving d response :
  strchr response "N" = false ->
  strchr response "n" = false ->
  state (apply_status d response) MOUNT_EQUATORIAL_COORDINATES_PROPERTY = INDIGO_BUSY_STATE
  /\ sw (apply_status d response) MOUNT_TRACKING_ON_ITEM
     = (sw d MOUNT_TRACKING_OFF_ITEM || sw d MOUNT_TRACKING_ON_ITEM).
Proof.
  intros HN Hn. unfold apply_status. rewrite HN, Hn. cbn.
  destruct (sw d MOUNT_TRACKING_OFF_ITEM) eqn:Off;
    destruct (strchr response "H"); cbn;
    destruct (prev_home_state d); cbn; repeat split; reflexivity.
Qed.

Lemma apply_status_busy d response :
  strchr response "N" = false ->
  state (apply_status d response) MOUNT_EQUATORIAL_COORDINATES_PROPERTY = INDIGO_BUSY_STATE.
Proof.
  intros HN. unfold apply_status. rewrite HN.
  destruct (strchr response "n"), (strchr response "H"); cbn;
    destruct (sw d MOUNT_TRACKING_ON_ITEM), (sw d MOUNT_TRACKING_OFF_ITEM);
    cbn; destruct (prev_home_state d); cbn; reflexivity.
Qed.

Section TickFurther.
Context `{Host}.

Lemma poll_utc_failure d :
  fst (fst (fst (asi_get_utc d 0 0))) = false ->
  (forall i, text (poll_utc d) i = text d i)
  /\ state (poll_utc d) MOUNT_UTC_TIME_PROPERTY = INDIGO_ALERT_STATE.
Proof.
  intros F. unfold poll_utc.
  destruct (asi_get_utc_wrote d 0 0) as [Fr _].
  destruct (asi_get_utc d 0 0) as [[[res secs'] off'] d']. simpl in F, Fr.
  subst res. rewrite Fr. simpl. split; [intros i; reflexivity | reflexivity].
Qed.

Lemma asi_get_utc_silent d secs utc_offset :
  silent (rx (port d)) ->
  fst (fst (fst (asi_get_utc d secs utc_offset))) = false
  /\ wire (port (snd (asi_get_utc d secs utc_offset))) = (wire (port d) ++ [":GC#"])%list.
Proof.
  intros S. unfold asi_get_utc.
  destruct (asi_command_silent d ":GC#" BUFFER 128 0 S) as (d1 & E1 & _ & _ & W1).
  rewrite E1. simpl. split; [reflexivity | exact W1].
Qed.

(** X12: a mount that has stopped answering looks busy.  On a link that
    delivers nothing, the tick sends [:GR#], [:GD#], [:GU#], [:Gm#] and
    [:GC#], every read but the time read counts as a success, and the tick
    ends with the equatorial coordinates busy, the next tick half a second
    later, tracking switched on if it was off, and the UTC property in
    alert. *)
Theorem poll_tick_on_silent_mount device :
  handle device > 0 ->
  silent (rx (port device)) ->
  let device' := position_timer_callback device in
  issued device device' = [":GR#"; ":GD#"; ":GU#"; ":Gm#"; ":GC#"]
  /\ state device' MOUNT_EQUATORIAL_COORDINATES_PROPERTY = INDIGO_BUSY_STATE
  /\ position_timer device' = Some (1 # 2)%Q
  /\ sw device' MOUNT_TRACKING_ON_ITEM
     = (sw device MOUNT_TRACKING_OFF_ITEM || sw device MOUNT_TRACKING_ON_ITEM)
  /\ state device' MOUNT_UTC_TIME_PROPERTY = INDIGO_ALERT_STATE.
Proof.
  intros Hh S device'. unfold device', position_timer_callback.
  destruct (Z.gtb_spec (handle device) 0); [|lia].
  unfold poll_coordinates, asi_get_coordinates.
  destruct (asi_command_silent device ":GR#" BUFFER 128 0 S) as (d1 & E1 & F1 & S1 & W1).
  rewrite E1.
  destruct (asi_command_silent d1 ":GD#" BUFFER 128 0 S1) as (d2 & E2 & F2 & S2 & W2).
  rewrite E2.
  destruct (indigo_eq_to_j2k (number d2 MOUNT_EPOCH_ITEM)
              (indigo_stod EmptyString, indigo_stod EmptyString)) as [ra dec].
  unfold poll_status.
  match goal with
  | |- context [asi_command ?x ":GU#" BUFFER 128 0] =>
      destruct (asi_command_silent x ":GU#" BUFFER 128 0 S2) as (d3 & E3 & F3 & S3 & W3)
  end.
  rewrite E3.
  destruct (apply_status_frame d3 EmptyString) as (P4 & _ & _).
  destruct (apply_status_moving d3 EmptyString eq_refl eq_refl) as (B4 & T4).
  set (x := apply_status d3 EmptyString) in *.
  unfold poll_pier_side.
  assert (Sx : silent (rx (port x))) by (rewrite P4; exact S3).
  destruct (asi_command_silent x ":Gm#" BUFFER 128 0 Sx) as (d5 & E5 & F5 & S5 & W5).
  rewrite E5.
  change (apply_pier_side d5 EmptyString) with d5.
  destruct (poll_finish_outcome true d5) as (Sw & Es & T & P).
  destruct (asi_get_utc_silent d5 0 0 S5) as (U & Wu).
  assert (Es' : state (poll_finish true d5) MOUNT_EQUATORIAL_COORDINATES_PROPERTY
                = INDIGO_BUSY_STATE).
  { rewrite Es, F5. exact B4. }
  split; [|split; [exact Es' | split; [|split]]].
  - apply issued_extension. rewrite P, Wu, W5, P4, W3. simpl. rewrite W2, W1.
    rewrite <- !app_assoc. reflexivity.
  - rewrite T, Es'. reflexivity.
  - rewrite Sw, F5. cbn [sw set_port]. rewrite T4, F3. cbn [sw set_port set_number].
    rewrite F2, F1. reflexivity.
  - unfold poll_finish. cbn [state indigo_reschedule_timer].
    match goal with
    | |- state (poll_utc ?y) _ = _ =>
        apply (fun F => proj2 (poll_utc_failure y F))
    end.
    apply asi_get_utc_silent. exact S5.
Qed.

(** X13: the half-second cadence.  When the coordinates are read and the
    status reply has no ['N'], the tick ends busy with the next tick half a
    second later, provided the pier side is read as well; if that read
    fails the tick ends in alert and the next tick is a second later. *)
Theorem poll_tick_busy_cadence device d1 response d2 result r d3 :
  handle device > 0 ->
  poll_coordinates device = (true, d1) ->
  asi_command d1 ":GU#" BUFFER 128 0 = (true, response, d2) ->
  strchr response "N" = false ->
  asi_command (apply_status d2 response) ":Gm#" BUFFER 128 0 = (result, r, d3) ->
  let device' := position_timer_callback device in
  state device' MOUNT_EQUATORIAL_COORDINATES_PROPERTY
  = (if result then INDIGO_BUSY_STATE else INDIGO_ALERT_STATE)
  /\ position_timer device' = Some (if result then 1 # 2 else 1)%Q.
Proof.
  intros Hh Hc E HN E3 device'. unfold device', position_timer_callback.
  destruct (Z.gtb_spec (handle device) 0); [|lia].
  rewrite Hc. unfold poll_status. rewrite E. unfold poll_pier_side. rewrite E3.
  destruct (asi_command_cases _ _ _ _ _ _ _ _ E3) as [F3 _].
  pose proof (apply_status_busy d2 response HN) as B.
  destruct result.
  - destruct (poll_finish_outcome true (apply_pier_side d3 r)) as (_ & Es & T & _).
    destruct (apply_pier_side_frame d3 r) as (Ps & _ & _).
    assert (Sd : state d3 MOUNT_EQUATORIAL_COORDINATES_PROPERTY = INDIGO_BUSY_STATE)
      by (rewrite F3; exact B).
    rewrite Ps, Sd in Es.
    split; [exact Es | rewrite T, Es; reflexivity].
  - destruct (poll_finish_outcome false d3) as (_ & Es & T & _).
    split; [exact Es | rewrite T, Es; reflexivity].
Qed.

(** X14: the tick keeps its books.  Without an open handle it does nothing at
    all, and does not reschedule itself; with one, it always reschedules,
    and the last coordinates it records are the ones the coordinate items
    hold when it ends. *)
Theorem poll_tick_bookkeeping device :
  (handle device <= 0 -> position_timer_callback device = device)
  /\ (handle device > 0 ->
      let device' := position_timer_callback device in
      position_timer device' <> None
      /\ lastRA device' = number device' MOUNT_EQUATORIAL_COORDINATES_RA_ITEM
      /\ lastDec device' = number device' MOUNT_EQUATORIAL_COORDINATES_DEC_ITEM).
Proof.
  split; intros Hh; unfold position_timer_callback.
  - destruct (Z.gtb_spec (handle device) 0); [lia | reflexivity].
  - destruct (Z.gtb_spec (handle device) 0); [|lia].
    destruct (poll_coordinates device) as [s1 d1].
    destruct (poll_status s1 d1) as [s2 d2].
    destruct (poll_pier_side s2 d2) as [s3 d3].
    cbv zeta. unfold poll_finish.
    match goal with
    | |- context [poll_utc ?x] =>
        set (y := x);
        assert (L : lastRA y = number y MOUNT_EQUATORIAL_COORDINATES_RA_ITEM
                    /\ lastDec y = number y MOUNT_EQUATORIAL_COORDINATES_DEC_ITEM)
          by (unfold y; destruct s3; split; reflexivity)
    end.
    unfold poll_utc.
    destruct (asi_get_utc_wrote y 0 0) as [Fr _].
    destruct (asi_get_utc y 0 0) as [[[res secs] off] y']. simpl in Fr.
    destruct L as [L1 L2].
    split; [destruct res; discriminate|].
    rewrite Fr. destruct res; cbn; split; assumption.
Qed.

End TickFurther.

Lemma poll_tick_on_silent_mount_witness :
  let device := receiving (set_sw (set_sw idle_device MOUNT_TRACKING_ON_ITEM false)
                             MOUNT_TRACKING_OFF_ITEM true)
                  [RxQuiet; RxQuiet; RxQuiet] in
  let device' := position_timer_callback (H := reference_host) device in
  handle device > 0 /\ silent (rx (port device))
  /\ issued device device' = [":GR#"; ":GD#"; ":GU#"; ":Gm#"; ":GC#"]
  /\ state device' MOUNT_EQUATORIAL_COORDINATES_PROPERTY = INDIGO_BUSY_STATE
  /\ position_timer device' = Some (1 # 2)%Q
  /\ sw device' MOUNT_TRACKING_ON_ITEM = true.
Proof.
  intros device device'.
  assert (Hh : handle device > 0) by reflexivity.
  assert (S : silent (rx (port device))) by (repeat constructor).
  destruct (poll_tick_on_silent_mount (H := reference_host) device Hh S)
    as (A & B & C & D & _).
  split; [exact Hh|]. split; [exact S|]. split; [exact A|]. split; [exact B|].
  split; [exact C | exact D].
Defined.

Lemma poll_tick_busy_cadence_witness :
  let device :=
    receiving idle_device
      (reply "05:30:00" ++ reply "+45*00:00" ++ reply "nG" ++ reply "E") in
  let device' := position_timer_callback (H := reference_host) device in
  handle device > 0
  /\ state device' MOUNT_EQUATORIAL_COORDINATES_PROPERTY = INDIGO_BUSY_STATE
  /\ position_timer device' = Some (1 # 2)%Q.
Proof.
  intros device device'.
  assert (Hh : handle device > 0) by reflexivity.
  assert (Hc : poll_coordinates (H := reference_host) device
               = (true, snd (poll_coordinates (H := reference_host) device)))
    by reflexivity.
  assert (Hs : asi_command (snd (poll_coordinates (H := reference_host) device))
                 ":GU#" BUFFER 128 0
               = (true, "nG",
                  snd (asi_command (snd (poll_coordinates (H := reference_host) device))
                         ":GU#" BUFFER 128 0)))
    by reflexivity.
  assert (Hn : strchr "nG" "N" = false) by reflexivity.
  assert (Hp : asi_command
                 (apply_status
                    (snd (asi_command (snd (poll_coordinates (H := reference_host) device))
                            ":GU#" BUFFER 128 0)) "nG")
                 ":Gm#" BUFFER 128 0
               = (true, "E",
                  snd (asi_command
                         (apply_status
                            (snd (asi_command
                                    (snd (poll_coordinates (H := reference_host) device))
                                    ":GU#" BUFFER 128 0)) "nG")
                         ":Gm#" BUFFER 128 0)))
    by (vm_compute; reflexivity).
  destruct (poll_tick_busy_cadence (H := reference_host) device _ "nG" _ _ _ _
              Hh Hc Hs Hn Hp)
    as (A & B).
  split; [exact Hh|]. split; [exact A | exact B].
Defined.


Lemma poll_tick_bookkeeping_witness :
  let closed := asi_close idle_device in
  handle closed <= 0
  /\ position_timer_callback (H := reference_host) closed = closed
  /\ handle idle_device > 0
  /\ position_timer (position_timer_callback (H := reference_host) idle_device) <> None.
Proof.
  intro closed.
  assert (Hc : handle closed <= 0) by (vm_compute; discriminate).
  assert (Ho : handle idle_device > 0) by reflexivity.
  destruct (poll_tick_bookkeeping (H := reference_host) closed) as [A _].
  destruct (poll_tick_bookkeeping (H := reference_host) idle_device) as [_ B].
  split; [exact Hc|]. split; [exact (A Hc)|]. split; [exact Ho|].
  exact (proj1 (B Ho)).
Defined.

(** X15: the status is published on its edges.  Whatever the reply, a second
    tick with the same status reply publishes nothing and changes no switch:
    the tracking and home updates go out only when they flip. *)
Theorem status_updates_are_edge_triggered d response :
  let once := apply_status d response in
  let twice := apply_status once response in
  published twice = published once
  /\ (forall i, sw twice i = sw once i)
  /\ prev_home_state twice = prev_home_state once
  /\ (List.length (published once) <= List.length (published d) + 2)%nat.
Proof.
  unfold apply_status.
  destruct (strchr response "N"), (strchr response "n"), (strchr response "H"); cbn;
    destruct (sw d MOUNT_TRACKING_ON_ITEM) eqn:On;
    destruct (sw d MOUNT_TRACKING_OFF_ITEM) eqn:Off;
    cbn; rewrite ?On, ?Off; cbn;
    destruct (prev_home_state d) eqn:Ph; cbn; rewrite ?On, ?Off, ?Ph; cbn;
    (split; [reflexivity|]);
    (split; [intros i; destruct i; reflexivity|]);
    (split; [reflexivity|]);
    rewrite ?length_app; simpl; lia.
Qed.

(** X16: the pier side is decoded from one letter.  For a mount whose pier
    side switches are not both on, a reply with ['W'] alone leaves west on
    and east off, ['E'] alone east on and west off, ['N'] alone both off,
    and a reply with none of the three changes nothing; decoding the same
    reply again changes and publishes nothing. *)
Theorem pier_side_decoding d response :
  sw d MOUNT_SIDE_OF_PIER_WEST_ITEM && sw d MOUNT_SIDE_OF_PIER_EAST_ITEM = false ->
  let once := apply_pier_side d response in
  let west := sw once MOUNT_SIDE_OF_PIER_WEST_ITEM in
  let east := sw once MOUNT_SIDE_OF_PIER_EAST_ITEM in
  (strchr response "W" = true -> strchr response "E" = false ->
   strchr response "N" = false -> west = true /\ east = false)
  /\ (strchr response "W" = false -> strchr response "E" = true ->
      strchr response "N" = false -> west = false /\ east = true)
  /\ (strchr response "W" = false -> strchr response "E" = false ->
      strchr response "N" = true -> west = false /\ east = false)
  /\ (strchr response "W" = false -> strchr response "E" = false ->
      strchr response "N" = false -> once = d)
  /\ (strchr response "W" && strchr response "E" = false ->
      strchr response "W" && strchr response "N" = false ->
      strchr response "E" && strchr response "N" = false ->
      apply_pier_side once response = once).
Proof.
  intros Hone. unfold apply_pier_side.
  destruct (strchr response "W"), (strchr response "E"), (strchr response "N");
    destruct (sw d MOUNT_SIDE_OF_PIER_WEST_ITEM) eqn:West;
    destruct (sw d MOUNT_SIDE_OF_PIER_EAST_ITEM) eqn:East;
    try discriminate Hone; cbn; rewrite ?West, ?East; cbn;
    repeat split; intros; try discriminate; try reflexivity; try assumption.
Qed.

Lemma pier_side_decoding_witness :
  let d := set_sw idle_device MOUNT_SIDE_OF_PIER_EAST_ITEM true in
  sw d MOUNT_SIDE_OF_PIER_WEST_ITEM && sw d MOUNT_SIDE_OF_PIER_EAST_ITEM = false
  /\ sw (apply_pier_side d "W") MOUNT_SIDE_OF_PIER_WEST_ITEM = true
  /\ sw (apply_pier_side d "W") MOUNT_SIDE_OF_PIER_EAST_ITEM = false
  /\ apply_pier_side (apply_pier_side d "W") "W" = apply_pier_side d "W".
Proof.
  intro d.
  assert (Hone : sw d MOUNT_SIDE_OF_PIER_WEST_ITEM && sw d MOUNT_SIDE_OF_PIER_EAST_ITEM = false)
    by reflexivity.
  destruct (pier_side_decoding d "W" Hone) as (W & _ & _ & _ & Again).
  destruct (W eq_refl eq_refl eq_refl) as [Ww We].
  split; [exact Hone|]. split; [exact Ww|]. split; [exact We|].
  apply Again; reflexivity.
Defined.

(* ------------------------------------------------------------------ *)
(** ** Going home *)

(** X17: going home re-arms the "At home" event.  With the home item on and
    the exchange past its flush, the callback sends [:hC#], switches the item
    off and forgets the home state, so that the next status reply with ['H']
    publishes "At home" and switches the item on again.  When the exchange
    fails the home property goes to alert and the home state is kept; with
    the item off the callback does nothing. *)
Theorem going_home_rearms_at_home d :
  (sw d MOUNT_HOME_ITEM = true -> fst (drain (rx (port d))) = true ->
   let d' := mount_home_callback d in
   issued d d' = [":hC#"]
   /\ sw d' MOUNT_HOME_ITEM = false
   /\ prev_home_state d' = false
   /\ forall response, strchr response "H" = true ->
        In (MOUNT_HOME_PROPERTY, Some "At home") (published (apply_status d' response))
        /\ sw (apply_status d' response) MOUNT_HOME_ITEM = true
        /\ state (apply_status d' response) MOUNT_HOME_PROPERTY = INDIGO_OK_STATE)
  /\
  (sw d MOUNT_HOME_ITEM = true -> fst (drain (rx (port d))) = false ->
   let d' := mount_home_callback d in
   issued d d' = []
   /\ state d' MOUNT_HOME_PROPERTY = INDIGO_ALERT_STATE
   /\ prev_home_state d' = prev_home_state d)
  /\
  (sw d MOUNT_HOME_ITEM = false -> mount_home_callback d = d).
Proof.
  split; [|split].
  - intros On D d'. unfold d', mount_home_callback, asi_home. rewrite On.
    destruct (asi_command_NULL_ok (set_sw d MOUNT_HOME_ITEM false) ":hC#" 0 0 D)
      as (d1 & E & F & _ & W).
    rewrite E. cbn [negb].
    split; [apply issued_extension; exact W|].
    split; [rewrite F; cbn; reflexivity|].
    split; [reflexivity|].
    intros response HH. unfold apply_status. rewrite HH. cbn.
    destruct (strchr response "N"), (strchr response "n"); cbn;
      rewrite F; cbn;
      destruct (sw d MOUNT_TRACKING_ON_ITEM), (sw d MOUNT_TRACKING_OFF_ITEM); cbn;
      (split; [rewrite ?in_app_iff; simpl; tauto | split; reflexivity]).
  - intros On D d'. unfold d', mount_home_callback, asi_home. rewrite On.
    destruct (asi_command_NULL_failed (set_sw d MOUNT_HOME_ITEM false) ":hC#" 0 0 D)
      as (d1 & E & F & W).
    rewrite E. cbn [negb].
    split; [apply issued_extension; now rewrite app_nil_r|].
    split; [reflexivity|]. rewrite F. reflexivity.
  - intros Off. unfold mount_home_callback. rewrite Off. reflexivity.
Qed.

Lemma going_home_rearms_at_home_witness :
  let d := set_prev_home_state (set_sw idle_device MOUNT_HOME_ITEM true) true in
  let d' := mount_home_callback d in
  issued d d' = [":hC#"]
  /\ prev_home_state d' = false
  /\ In (MOUNT_HOME_PROPERTY, Some "At home") (published (apply_status d' "NH")).
Proof.
  intros d d'.
  destruct (going_home_rearms_at_home d) as (A & _ & _).
  destruct (A eq_refl eq_refl) as (I & _ & P & Next).
  split; [exact I|]. split; [exact P|].
  exact (proj1 (Next "NH" eq_refl)).
Defined.

(* ------------------------------------------------------------------ *)
(** ** Rates *)

Lemma asi_command_NULL_shape d c m s :
  exists p,
    asi_command d c NULL m s = (fst (drain (rx (port d))), EmptyString, set_port d p)
    /\ wire p = (wire (port d) ++ if fst (drain (rx (port d))) then [c] else [])%list
    /\ rx p = snd (drain (rx (port d))).
Proof.
  pose proof (asi_command_NULL_rx d c m s) as R.
  destruct (fst (drain (rx (port d)))) eqn:D.
  - destruct (asi_command_NULL_ok d c m s D) as (d' & E & F & _ & W).
    rewrite E in R. exists (port d'). rewrite <- F. repeat split; assumption.
  - destruct (asi_command_NULL_failed d c m s D) as (d' & E & F & W).
    rewrite E in R. exists (port d'). rewrite <- F, app_nil_r. repeat split; assumption.
Qed.

Ltac exchange :=
  match goal with
  | |- context [asi_command ?d ?c NULL ?m ?s] =>
      let p := fresh "p" in
      let E := fresh "E" in
      let W := fresh "W" in
      let R := fresh "R" in
      destruct (asi_command_NULL_shape d c m s) as (p & E & W & R); rewrite E; clear E
  end.

(** What a rate setter leaves: the driver it was given, but for the rate
    remembered and the port. *)
Lemma asi_set_slew_rate_shape d :
  one_of_many d slew_rate_items ->
  exists c p,
    snd (asi_set_slew_rate d) = set_core (set_lastSlewRate d c) (set_port (core d) p)
    /\ (forall d', (forall i, mount_sw d' i = mount_sw d i) -> lastSlewRate d' = c ->
                    asi_set_slew_rate d' = (true, d'))
    /\ (fst (asi_set_slew_rate d) = false -> wire p = wire (port (core d)) /\ c <> lastSlewRate d)
    /\ (wire p = wire (port (core d))
        \/ exists command, In command [":RG#"; ":RC#"; ":RM#"; ":RS#"]
             /\ wire p = (wire (port (core d)) ++ [command])%list).
Proof.
  unfold one_of_many, slew_rate_items. intros One.
  assert (Same : d = set_core (set_lastSlewRate d (lastSlewRate d)) (set_port (core d) (port (core d)))).
  { destruct d as [[[] ] ]; reflexivity. }
  unfold asi_set_slew_rate.
  destruct (mount_sw d MOUNT_SLEW_RATE_GUIDE_ITEM) eqn:G;
    destruct (mount_sw d MOUNT_SLEW_RATE_CENTERING_ITEM) eqn:C;
    destruct (mount_sw d MOUNT_SLEW_RATE_FIND_ITEM) eqn:F;
    destruct (mount_sw d MOUNT_SLEW_RATE_MAX_ITEM) eqn:M;
    simpl in One; rewrite ?G, ?C, ?F, ?M in One; simpl in One; try lia; clear One;
    cbn [andb];
    try (exists (lastSlewRate d), (port (core d)); cbn [snd fst];
         rewrite ?G, ?C, ?F, ?M; cbn [andb];
         split; [exact Same|];
         split; [intros d' Hsw Hl; unfold asi_set_slew_rate;
                 rewrite !Hsw, Hl, ?G, ?C, ?F, ?M; reflexivity|];
         split; [discriminate | left; reflexivity]);
    match goal with
    | |- context [Ascii.eqb (lastSlewRate d) ?c] =>
        destruct (Ascii.eqb (lastSlewRate d) c) eqn:L; cbn [negb]
    end;
    try (exists (lastSlewRate d), (port (core d)); cbn [snd fst];
         rewrite ?G, ?C, ?F, ?M, ?L; cbn [andb negb];
         split; [exact Same|];
         split; [intros d' Hsw Hl; unfold asi_set_slew_rate;
                 rewrite !Hsw, Hl, ?G, ?C, ?F, ?M, ?L; reflexivity|];
         split; [discriminate | left; reflexivity]);
    cbn [core set_lastSlewRate]; exchange; cbn [snd fst];
    eexists _, p; (split; [reflexivity|]);
    (split; [intros d' Hsw Hl; unfold asi_set_slew_rate;
             rewrite !Hsw, Hl, ?G, ?C, ?F, ?M, ?Ascii.eqb_refl; reflexivity|]);
    (split;
     [ intros D; rewrite D, app_nil_r in W; split; [exact W|];
       intros Eq; rewrite <- Eq in L; discriminate L
     | destruct (fst (drain (rx (port (core d)))));
       [ right; eexists; split; [|exact W]; simpl; tauto
       | left; now rewrite app_nil_r in W ] ]).
Qed.

Lemma asi_set_tracking_rate_shape d :
  one_of_many d track_rate_items ->
  exists c p,
    snd (asi_set_tracking_rate d) = set_core (set_lastTrackRate d c) (set_port (core d) p)
    /\ (forall d', (forall i, mount_sw d' i = mount_sw d i) -> lastTrackRate d' = c ->
                    asi_set_tracking_rate d' = (true, d'))
    /\ (fst (asi_set_tracking_rate d) = false ->
        wire p = wire (port (core d)) /\ c <> lastTrackRate d)
    /\ (wire p = wire (port (core d))
        \/ exists command, In command [":TQ#"; ":TS#"; ":TL#"]
             /\ wire p = (wire (port (core d)) ++ [command])%list).
Proof.
  unfold one_of_many, track_rate_items. intros One.
  assert (Same : d = set_core (set_lastTrackRate d (lastTrackRate d)) (set_port (core d) (port (core d)))).
  { destruct d as [[[] ] ]; reflexivity. }
  unfold asi_set_tracking_rate.
  destruct (mount_sw d MOUNT_TRACK_RATE_SIDEREAL_ITEM) eqn:G;
    destruct (mount_sw d MOUNT_TRACK_RATE_SOLAR_ITEM) eqn:C;
    destruct (mount_sw d MOUNT_TRACK_RATE_LUNAR_ITEM) eqn:F;
    simpl in One; rewrite ?G, ?C, ?F in One; simpl in One; try lia; clear One;
    cbn [andb];
    try (exists (lastTrackRate d), (port (core d)); cbn [snd fst];
         rewrite ?G, ?C, ?F; cbn [andb];
         split; [exact Same|];
         split; [intros d' Hsw Hl; unfold asi_set_tracking_rate;
                 rewrite !Hsw, Hl, ?G, ?C, ?F; reflexivity|];
         split; [discriminate | left; reflexivity]);
    match goal with
    | |- context [Ascii.eqb (lastTrackRate d) ?c] =>
        destruct (Ascii.eqb (lastTrackRate d) c) eqn:L; cbn [negb]
    end;
    try (exists (lastTrackRate d), (port (core d)); cbn [snd fst];
         rewrite ?G, ?C, ?F, ?L; cbn [andb negb];
         split; [exact Same|];
         split; [intros d' Hsw Hl; unfold asi_set_tracking_rate;
                 rewrite !Hsw, Hl, ?G, ?C, ?F, ?L; reflexivity|];
         split; [discriminate | left; reflexivity]);
    cbn [core set_lastTrackRate]; exchange; cbn [snd fst];
    eexists _, p; (split; [reflexivity|]);
    (split; [intros d' Hsw Hl; unfold asi_set_tracking_rate;
             rewrite !Hsw, Hl, ?G, ?C, ?F, ?Ascii.eqb_refl; reflexivity|]);
    (split;
     [ intros D; rewrite D, app_nil_r in W; split; [exact W|];
       intros Eq; rewrite <- Eq in L; discriminate L
     | destruct (fst (drain (rx (port (core d)))));
       [ right; eexists; split; [|exact W]; simpl; tauto
       | left; now rewrite app_nil_r in W ] ]).
Qed.

(** X18: a rate is sent once, whether or not it arrived.  With at most one
    item of the property on, a second call of the rate setter right after
    the first returns success and changes nothing, even when the first
    returned failure; a failed first call has written nothing and has still
    replaced the remembered rate, so the rate the mount never received
    counts as set. *)
Theorem rate_is_sent_once d :
  (one_of_many d slew_rate_items ->
   let d1 := snd (asi_set_slew_rate d) in
   asi_set_slew_rate d1 = (true, d1)
   /\ (List.length (issued (core d) (core d1)) <= 1)%nat
   /\ (fst (asi_set_slew_rate d) = false ->
       issued (core d) (core d1) = [] /\ lastSlewRate d1 <> lastSlewRate d))
  /\
  (one_of_many d track_rate_items ->
   let d1 := snd (asi_set_tracking_rate d) in
   asi_set_tracking_rate d1 = (true, d1)
   /\ (List.length (issued (core d) (core d1)) <= 1)%nat
   /\ (fst (asi_set_tracking_rate d) = false ->
       issued (core d) (core d1) = [] /\ lastTrackRate d1 <> lastTrackRate d)).
Proof.
  split; intros One d1.
  - destruct (asi_set_slew_rate_shape d One) as (c & p & S & Again & Failed & Sent).
    fold d1 in S. split; [apply Again; rewrite S; reflexivity|]. split.
    + rewrite S. cbn [core set_core].
      destruct Sent as [W | (command & _ & W)].
      * rewrite (issued_extension (core d) (set_port (core d) p) []); [simpl; lia|].
        now rewrite app_nil_r.
      * rewrite (issued_extension (core d) (set_port (core d) p) [command] W). simpl; lia.
    + intros Fail. destruct (Failed Fail) as [W Hc]. rewrite S. cbn. split; [|exact Hc].
      apply issued_extension. now rewrite app_nil_r.
  - destruct (asi_set_tracking_rate_shape d One) as (c & p & S & Again & Failed & Sent).
    fold d1 in S. split; [apply Again; rewrite S; reflexivity|]. split.
    + rewrite S. cbn [core set_core].
      destruct Sent as [W | (command & _ & W)].
      * rewrite (issued_extension (core d) (set_port (core d) p) []); [simpl; lia|].
        now rewrite app_nil_r.
      * rewrite (issued_extension (core d) (set_port (core d) p) [command] W). simpl; lia.
    + intros Fail. destruct (Failed Fail) as [W Hc]. rewrite S. cbn. split; [|exact Hc].
      apply issued_extension. now rewrite app_nil_r.
Qed.

Lemma rate_is_sent_once_witness :
  let d := set_core (set_mount_sw idle_driver MOUNT_SLEW_RATE_MAX_ITEM true)
             (receiving idle_device [RxSelErr]) in
  let d1 := snd (asi_set_slew_rate d) in
  one_of_many d slew_rate_items
  /\ fst (asi_set_slew_rate d) = false
  /\ asi_set_slew_rate d1 = (true, d1)
  /\ issued (core d) (core d1) = []
  /\ lastSlewRate d1 <> lastSlewRate d.
Proof.
  intros d d1.
  assert (One : one_of_many d slew_rate_items) by (unfold one_of_many; simpl; lia).
  destruct (proj1 (rate_is_sent_once d) One) as (Again & _ & Failed).
  assert (Fail : fst (asi_set_slew_rate d) = false) by reflexivity.
  destruct (Failed Fail) as [I L].
  split; [exact One|]. split; [exact Fail|]. split; [exact Again|].
  split; [exact I | exact L].
Defined.

(* ------------------------------------------------------------------ *)
(** ** The motion callbacks *)

Lemma asi_motion_dec_shape device :
  exists p c,
    snd (asi_motion_dec device) = set_lastMotionNS (set_port device p) c
    /\ (exists l, wire p = (wire (port device) ++ l)%list
                  /\ incl l [":Qn#"; ":Qs#"; ":Mn#"; ":Ms#"])
    /\ (fst (asi_motion_dec device) = true ->
        requested_dec device = Some c \/ requested_dec device = None /\ c = NUL)
    /\ (fst (asi_motion_dec device) = false -> c = lastMotionNS device \/ requested_dec device = Some c)
    /\ (flushes 2 (rx (port device)) = true -> fst (asi_motion_dec device) = true).
Proof.
  unfold asi_motion_dec, requested_dec.
  destruct (Ascii.eqb (lastMotionNS device) "n") eqn:Ln;
    [|destruct (Ascii.eqb (lastMotionNS device) "s") eqn:Ls];
    try exchange;
    try (destruct (fst (drain (rx (port device)))) eqn:D1);
    cbn [sw set_port];
    destruct (sw device MOUNT_MOTION_NORTH_ITEM) eqn:N;
    try destruct (sw device MOUNT_MOTION_SOUTH_ITEM) eqn:S;
    try exchange;
    cbn [port set_port set_lastMotionNS rx] in *;
    try (destruct (fst (drain (rx _))) eqn:D2 in |- *);
    cbn [fst snd];
    try rewrite D1 in W; try rewrite D2 in W0; try rewrite D2 in W;
    eexists _, _;
    (split; [reflexivity|]);
    (split;
     [ eexists; split;
       [ rewrite ?W0, ?W, <- ?app_assoc; first [reflexivity | symmetry; apply app_nil_r]
       | intros x Hx; simpl in Hx |- *; tauto ]
     | ]);
    (split; [intros Ok; try discriminate Ok; auto|]);
    (split; [intros Ok; try discriminate Ok; auto|]);
    intros Fl; apply flushes_2 in Fl as [Fa Fb]; rewrite ?R in *; congruence.
Qed.

Lemma asi_motion_ra_shape device :
  exists p c,
    snd (asi_motion_ra device) = set_lastMotionWE (set_port device p) c
    /\ (exists l, wire p = (wire (port device) ++ l)%list
                  /\ incl l [":Qw#"; ":Qe#"; ":Mw#"; ":Me#"])
    /\ (fst (asi_motion_ra device) = true ->
        requested_ra device = Some c \/ requested_ra device = None /\ c = NUL)
    /\ (fst (asi_motion_ra device) = false -> c = lastMotionWE device \/ requested_ra device = Some c)
    /\ (flushes 2 (rx (port device)) = true -> fst (asi_motion_ra device) = true).
Proof.
  unfold asi_motion_ra, requested_ra.
  destruct (Ascii.eqb (lastMotionWE device) "w") eqn:Ln;
    [|destruct (Ascii.eqb (lastMotionWE device) "e") eqn:Ls];
    try exchange;
    try (destruct (fst (drain (rx (port device)))) eqn:D1);
    cbn [sw set_port];
    destruct (sw device MOUNT_MOTION_WEST_ITEM) eqn:N;
    try destruct (sw device MOUNT_MOTION_EAST_ITEM) eqn:S;
    try exchange;
    cbn [port set_port set_lastMotionWE rx] in *;
    try (destruct (fst (drain (rx _))) eqn:D2 in |- *);
    cbn [fst snd];
    try rewrite D1 in W; try rewrite D2 in W0; try rewrite D2 in W;
    eexists _, _;
    (split; [reflexivity|]);
    (split;
     [ eexists; split;
       [ rewrite ?W0, ?W, <- ?app_assoc; first [reflexivity | symmetry; apply app_nil_r]
       | intros x Hx; simpl in Hx |- *; tauto ]
     | ]);
    (split; [intros Ok; try discriminate Ok; auto|]);
    (split; [intros Ok; try discriminate Ok; auto|]);
    intros Fl; apply flushes_2 in Fl as [Fa Fb]; rewrite ?R in *; congruence.
Qed.

Lemma flushes_3 evs :
  flushes 3 evs = true ->
  flushes 2 evs = true /\ flushes 2 (snd (drain evs)) = true.
Proof.
  simpl. destruct (drain evs) as [ok evs1]; simpl.
  destruct (drain evs1) as [ok1 evs2]; simpl.
  destruct (drain evs2) as [ok2 evs3]; simpl.
  destruct ok, ok1, ok2; simpl; intros E; try discriminate E; split; reflexivity.
Qed.

(** The slew rate setter touches the port only, and takes one exchange at
    most. *)
Lemma asi_set_slew_rate_core d :
  exists c p,
    snd (asi_set_slew_rate d) = set_core (set_lastSlewRate d c) (set_port (core d) p)
    /\ (rx p = rx (port (core d)) \/ rx p = snd (drain (rx (port (core d)))))
    /\ (fst (drain (rx (port (core d)))) = true -> fst (asi_set_slew_rate d) = true).
Proof.
  assert (Same : d = set_core (set_lastSlewRate d (lastSlewRate d)) (set_port (core d) (port (core d)))).
  { destruct d as [[[] ] ]; reflexivity. }
  unfold asi_set_slew_rate.
  repeat match goal with
         | |- context [if ?b && negb ?e then _ else _] => destruct (b && negb e)
         end;
    try (cbn [core set_lastSlewRate]; exchange; cbn [fst snd];
         eexists _, p; split; [reflexivity|]; split; [right; exact R | tauto]).
  exists (lastSlewRate d), (port (core d)). cbn [fst snd].
  split; [exact Same|]. split; [left; reflexivity | reflexivity].
Qed.

(** X19: what the state of a motion property says.  After the callback the
    property is busy only if a direction is requested and recorded, OK only
    if none is requested and none is recorded any more, and with three
    clean flushes ahead on the link it is not in alert; the update carries no
    message. *)
Theorem motion_callback_state d :
  (let d1 := mount_motion_dec_callback d in
   let s := state (core d1) MOUNT_MOTION_DEC_PROPERTY in
   published (core d1) = (published (core d) ++ [(MOUNT_MOTION_DEC_PROPERTY, None)])%list
   /\ (s = INDIGO_BUSY_STATE -> requested_dec (core d) = Some (lastMotionNS (core d1)))
   /\ (s = INDIGO_OK_STATE ->
       requested_dec (core d) = None /\ lastMotionNS (core d1) = NUL)
   /\ (flushes 3 (rx (port (core d))) = true -> s <> INDIGO_ALERT_STATE))
  /\
  (let d1 := mount_motion_ra_callback d in
   let s := state (core d1) MOUNT_MOTION_RA_PROPERTY in
   published (core d1) = (published (core d) ++ [(MOUNT_MOTION_RA_PROPERTY, None)])%list
   /\ (s = INDIGO_BUSY_STATE -> requested_ra (core d) = Some (lastMotionWE (core d1)))
   /\ (s = INDIGO_OK_STATE ->
       requested_ra (core d) = None /\ lastMotionWE (core d1) = NUL)
   /\ (flushes 3 (rx (port (core d))) = true -> s <> INDIGO_ALERT_STATE)).
Proof.
  split.
  - unfold mount_motion_dec_callback.
    destruct (asi_set_slew_rate_core d) as (c & p & S & Rx & Ok).
    destruct (asi_set_slew_rate d) as [rate d0]. cbn [fst snd] in S, Ok. subst d0.
    cbn [core set_core].
    destruct rate.
    + destruct (asi_motion_dec_shape (set_port (core d) p)) as (p' & c' & S' & _ & T & _ & Fl).
      destruct (asi_motion_dec (set_port (core d) p)) as [result device].
      cbn [fst snd] in S', T, Fl. subst device.
      change (requested_dec (set_port (core d) p)) with (requested_dec (core d)) in T.
      destruct result.
      * destruct (T eq_refl) as [Req | [Req ->]].
        -- assert (Hc : Ascii.eqb c' NUL = false).
           { unfold requested_dec in Req.
             destruct (sw (core d) MOUNT_MOTION_NORTH_ITEM);
               [|destruct (sw (core d) MOUNT_MOTION_SOUTH_ITEM)];
               inversion Req; reflexivity. }
           cbn. rewrite Hc. cbn.
           split; [reflexivity|]. split; [intros _; exact Req|].
           split; [discriminate | intros _; discriminate].
        -- cbn. split; [reflexivity|]. split; [discriminate|].
           split; [intros _; split; [exact Req | reflexivity] | intros _; discriminate].
      * cbn. split; [reflexivity|]. split; [discriminate|]. split; [discriminate|].
        intros F3. apply flushes_3 in F3 as [Fa Fb].
        cbn [port set_port] in Fl.
        destruct Rx as [Rx | Rx]; rewrite Rx in Fl; [apply Fl in Fa | apply Fl in Fb]; discriminate.
    + cbn. split; [reflexivity|]. split; [discriminate|]. split; [discriminate|].
      intros F3. apply flushes_3 in F3 as [Fa _]. apply flushes_2 in Fa as [Fa _].
      apply Ok in Fa. discriminate Fa.
  - unfold mount_motion_ra_callback.
    destruct (asi_set_slew_rate_core d) as (c & p & S & Rx & Ok).
    destruct (asi_set_slew_rate d) as [rate d0]. cbn [fst snd] in S, Ok. subst d0.
    cbn [core set_core].
    destruct rate.
    + destruct (asi_motion_ra_shape (set_port (core d) p)) as (p' & c' & S' & _ & T & _ & Fl).
      destruct (asi_motion_ra (set_port (core d) p)) as [result device].
      cbn [fst snd] in S', T, Fl. subst device.
      change (requested_ra (set_port (core d) p)) with (requested_ra (core d)) in T.
      destruct result.
      * destruct (T eq_refl) as [Req | [Req ->]].
        -- assert (Hc : Ascii.eqb c' NUL = false).
           { unfold requested_ra in Req.
             destruct (sw (core d) MOUNT_MOTION_WEST_ITEM);
               [|destruct (sw (core d) MOUNT_MOTION_EAST_ITEM)];
               inversion Req; reflexivity. }
           cbn. rewrite Hc. cbn.
           split; [reflexivity|]. split; [intros _; exact Req|].
           split; [discriminate | intros _; discriminate].
        -- cbn. split; [reflexivity|]. split; [discriminate|].
           split; [intros _; split; [exact Req | reflexivity] | intros _; discriminate].
      * cbn. split; [reflexivity|]. split; [discriminate|]. split; [discriminate|].
        intros F3. apply flushes_3 in F3 as [Fa Fb].
        cbn [port set_port] in Fl.
        destruct Rx as [Rx | Rx]; rewrite Rx in Fl; [apply Fl in Fa | apply Fl in Fb]; discriminate.
    + cbn. split; [reflexivity|]. split; [discriminate|]. split; [discriminate|].
      intros F3. apply flushes_3 in F3 as [Fa _]. apply flushes_2 in Fa as [Fa _].
      apply Ok in Fa. discriminate Fa.
Qed.

Lemma motion_callback_state_witness :
  let d := set_core idle_driver (set_sw idle_device MOUNT_MOTION_NORTH_ITEM true) in
  let d1 := mount_motion_dec_callback d in
  flushes 3 (rx (port (core d))) = true
  /\ state (core d1) MOUNT_MOTION_DEC_PROPERTY <> INDIGO_ALERT_STATE
  /\ requested_dec (core d) = Some (lastMotionNS (core d1)).
Proof.
  intros d d1.
  destruct (proj1 (motion_callback_state d)) as (_ & Busy & _ & Clean).
  split; [reflexivity|].
  split; [apply Clean; reflexivity | apply Busy; reflexivity].
Defined.

(** X20: a motion after a slew rate that did not arrive.  When the slew rate
    exchange fails, the motion callback puts the property in alert, writes
    nothing and keeps the recorded direction.  The rate counts as set all the
    same: the next motion callback writes stop and start commands only, no
    rate command, and with two clean flushes ahead it does not end in alert. *)
Theorem motion_after_failed_slew_rate d :
  one_of_many d slew_rate_items ->
  fst (asi_set_slew_rate d) = false ->
  let d1 := mount_motion_dec_callback d in
  let d2 := mount_motion_dec_callback d1 in
  state (core d1) MOUNT_MOTION_DEC_PROPERTY = INDIGO_ALERT_STATE
  /\ issued (core d) (core d1) = []
  /\ lastMotionNS (core d1) = lastMotionNS (core d)
  /\ (forall command, In command (issued (core d1) (core d2)) ->
        In command [":Qn#"; ":Qs#"; ":Mn#"; ":Ms#"])
  /\ (flushes 2 (rx (port (core d1))) = true ->
      state (core d2) MOUNT_MOTION_DEC_PROPERTY <> INDIGO_ALERT_STATE).
Proof.
  intros One Fail d1 d2.
  destruct (asi_set_slew_rate_shape d One) as (c & p & S & Again & Failed & _).
  destruct (Failed Fail) as [W _].
  assert (E1 : d1 = set_core (set_lastSlewRate d c)
                      (indigo_update_property
                         (set_state (set_port (core d) p) MOUNT_MOTION_DEC_PROPERTY
                            INDIGO_ALERT_STATE)
                         MOUNT_MOTION_DEC_PROPERTY None)).
  { unfold d1, mount_motion_dec_callback.
    destruct (asi_set_slew_rate d) as [rate d0]. cbn [fst snd] in S, Fail. subst d0 rate.
    reflexivity. }
  split; [rewrite E1; reflexivity|].
  split; [rewrite E1; cbn; apply issued_extension; now rewrite app_nil_r|].
  split; [rewrite E1; reflexivity|].
  assert (E2 : exists p' c',
             d2 = set_core d1
                    (indigo_update_property
                       (set_state (set_lastMotionNS (set_port (core d1) p') c')
                          MOUNT_MOTION_DEC_PROPERTY
                          (if fst (asi_motion_dec (core d1))
                           then if negb (Ascii.eqb c' NUL)
                                then INDIGO_BUSY_STATE else INDIGO_OK_STATE
                           else INDIGO_ALERT_STATE))
                       MOUNT_MOTION_DEC_PROPERTY None)
             /\ snd (asi_motion_dec (core d1)) = set_lastMotionNS (set_port (core d1) p') c').
  { destruct (asi_motion_dec_shape (core d1)) as (p' & c' & S' & _).
    exists p', c'. split; [|exact S'].
    unfold d2, mount_motion_dec_callback.
    assert (R : asi_set_slew_rate d1 = (true, d1)) by (apply Again; rewrite E1; reflexivity).
    rewrite R.
    destruct (asi_motion_dec (core d1)) as [result device]. cbn [fst snd] in S' |- *.
    subst device. cbn [lastMotionNS set_lastMotionNS].
    destruct result; [destruct (negb (Ascii.eqb c' NUL))|]; reflexivity. }
  destruct E2 as (p' & c' & E2 & S').
  destruct (asi_motion_dec_shape (core d1)) as (p'' & c'' & S'' & (l & Wl & Incl) & _ & _ & Fl).
  rewrite S' in S''.
  assert (Hp : p'' = p') by (apply (f_equal port) in S''; cbn in S''; congruence).
  subst p''. split.
  - intros command Hin. apply Incl.
    rewrite (issued_extension (core d1) (core d2) l) in Hin; [exact Hin|].
    rewrite E2. cbn [core set_core indigo_update_property set_state set_lastMotionNS set_port port].
    exact Wl.
  - intros F2. apply Fl in F2. rewrite E2. cbn. rewrite F2.
    destruct (negb (Ascii.eqb c' NUL)); discriminate.
Qed.

Lemma motion_after_failed_slew_rate_witness :
  let d := set_core (set_mount_sw idle_driver MOUNT_SLEW_RATE_MAX_ITEM true)
             (receiving (set_sw idle_device MOUNT_MOTION_NORTH_ITEM true) [RxSelErr]) in
  let d1 := mount_motion_dec_callback d in
  let d2 := mount_motion_dec_callback d1 in
  state (core d1) MOUNT_MOTION_DEC_PROPERTY = INDIGO_ALERT_STATE
  /\ issued (core d) (core d1) = []
  /\ state (core d2) MOUNT_MOTION_DEC_PROPERTY <> INDIGO_ALERT_STATE
  /\ issued (core d1) (core d2) = [":Mn#"].
Proof.
  intros d d1 d2.
  assert (One : one_of_many d slew_rate_items) by (unfold one_of_many; simpl; lia).
  assert (Fail : fst (asi_set_slew_rate d) = false) by reflexivity.
  destruct (motion_after_failed_slew_rate d One Fail) as (A & I & _ & _ & Next).
  split; [exact A|]. split; [exact I|]. split; [apply Next; reflexivity | reflexivity].
Defined.

(** X21: a track rate that did not arrive is reported once.  When the
    exchange of [asi_set_tracking_rate] fails, the callback puts the track
    rate property in alert; the same request made again finds the rate
    remembered, writes nothing and reports OK, so that after both calls no
    command at all has been written. *)
Theorem track_rate_failure_is_forgotten d :
  one_of_many d track_rate_items ->
  fst (asi_set_tracking_rate d) = false ->
  let d1 := mount_track_rate_callback d in
  let d2 := mount_track_rate_callback d1 in
  mount_state d1 MOUNT_TRACK_RATE_PROPERTY = INDIGO_ALERT_STATE
  /\ mount_state d2 MOUNT_TRACK_RATE_PROPERTY = INDIGO_OK_STATE
  /\ issued (core d) (core d2) = []
  /\ announced d2
     = (announced d ++ [(MOUNT_TRACK_RATE_PROPERTY, None); (MOUNT_TRACK_RATE_PROPERTY, None)])%list.
Proof.
  intros One Fail d1 d2.
  destruct (asi_set_tracking_rate_shape d One) as (c & p & S & Again & Failed & _).
  destruct (Failed Fail) as [W _].
  assert (E1 : d1 = announce
                      (set_mount_state
                         (set_core (set_lastTrackRate d c) (set_port (core d) p))
                         MOUNT_TRACK_RATE_PROPERTY INDIGO_ALERT_STATE)
                      MOUNT_TRACK_RATE_PROPERTY None).
  { unfold d1, mount_track_rate_callback.
    destruct (asi_set_tracking_rate d) as [rate d0]. cbn [fst snd] in S, Fail. subst d0 rate.
    reflexivity. }
  assert (E2 : d2 = announce (set_mount_state d1 MOUNT_TRACK_RATE_PROPERTY INDIGO_OK_STATE)
                      MOUNT_TRACK_RATE_PROPERTY None).
  { unfold d2, mount_track_rate_callback.
    rewrite (Again d1) by (rewrite E1; reflexivity). reflexivity. }
  split; [rewrite E1; reflexivity|].
  split; [rewrite E2; reflexivity|].
  split.
  - rewrite E2, E1. cbn. apply issued_extension. now rewrite app_nil_r.
  - rewrite E2, E1. cbn. now rewrite <- app_assoc.
Qed.

Lemma track_rate_failure_is_forgotten_witness :
  let d := set_core (set_mount_sw idle_driver MOUNT_TRACK_RATE_LUNAR_ITEM true)
             (receiving idle_device [RxReadErr]) in
  let d2 := mount_track_rate_callback (mount_track_rate_callback d) in
  one_of_many d track_rate_items
  /\ fst (asi_set_tracking_rate d) = false
  /\ mount_state d2 MOUNT_TRACK_RATE_PROPERTY = INDIGO_OK_STATE
  /\ issued (core d) (core d2) = [].
Proof.
  intros d d2.
  assert (One : one_of_many d track_rate_items) by (unfold one_of_many; simpl; lia).
  assert (Fail : fst (asi_set_tracking_rate d) = false) by reflexivity.
  destruct (track_rate_failure_is_forgotten d One Fail) as (_ & Ok & I & _).
  split; [exact One|]. split; [exact Fail|]. split; [exact Ok | exact I].
Defined.

(* ------------------------------------------------------------------ *)
(** ** Abort *)

(** X22: what an abort does.  With the abort item on, the callback switches
    it off and keeps the recorded directions of both axes.  When the
    exchange gets past its flush it writes [:Q#] alone, switches the four
    motion items off, makes the targets of the equatorial coordinates equal
    to their values, leaves the motion and coordinate properties OK and
    announces "Aborted"; when the flush fails it writes nothing, leaves
    every switch of the mount as it was and announces "Failed to abort" in
    alert. *)
Theorem abort_outcome d :
  mount_sw d MOUNT_ABORT_MOTION_ITEM = true ->
  let d1 := mount_abort_callback d in
  mount_sw d1 MOUNT_ABORT_MOTION_ITEM = false
  /\ lastMotionNS (core d1) = lastMotionNS (core d)
  /\ lastMotionWE (core d1) = lastMotionWE (core d)
  /\ (fst (drain (rx (port (core d)))) = true ->
      issued (core d) (core d1) = [":Q#"]
      /\ (forall i, In i [MOUNT_MOTION_NORTH_ITEM; MOUNT_MOTION_SOUTH_ITEM;
                          MOUNT_MOTION_WEST_ITEM; MOUNT_MOTION_EAST_ITEM] ->
                    sw (core d1) i = false)
      /\ eq_target d1 MOUNT_EQUATORIAL_COORDINATES_RA_ITEM
         = number (core d) MOUNT_EQUATORIAL_COORDINATES_RA_ITEM
      /\ eq_target d1 MOUNT_EQUATORIAL_COORDINATES_DEC_ITEM
         = number (core d) MOUNT_EQUATORIAL_COORDINATES_DEC_ITEM
      /\ (forall q, In q [MOUNT_MOTION_DEC_PROPERTY; MOUNT_MOTION_RA_PROPERTY;
                          MOUNT_EQUATORIAL_COORDINATES_PROPERTY] ->
                    state (core d1) q = INDIGO_OK_STATE)
      /\ mount_state d1 MOUNT_ABORT_MOTION_PROPERTY = INDIGO_OK_STATE
      /\ announced d1 = (announced d ++ [(MOUNT_ABORT_MOTION_PROPERTY, Some "Aborted")])%list)
  /\ (fst (drain (rx (port (core d)))) = false ->
      issued (core d) (core d1) = []
      /\ sw (core d1) = sw (core d)
      /\ state (core d1) = state (core d)
      /\ eq_target d1 = eq_target d
      /\ mount_state d1 MOUNT_ABORT_MOTION_PROPERTY = INDIGO_ALERT_STATE
      /\ announced d1
         = (announced d ++ [(MOUNT_ABORT_MOTION_PROPERTY, Some "Failed to abort")])%list).
Proof.
  intros On d1. unfold d1, mount_abort_callback, asi_stop. rewrite On.
  cbn [core set_mount_sw]. exchange.
  destruct (fst (drain (rx (port (core d))))) eqn:D.
  - cbn. split; [reflexivity|]. split; [reflexivity|]. split; [reflexivity|].
    split; [|discriminate]. intros _.
    split; [apply issued_extension; exact W|].
    split; [intros i [<-|[<-|[<-|[<-|[]]]]]; reflexivity|].
    split; [reflexivity|]. split; [reflexivity|].
    split; [intros q [<-|[<-|[<-|[]]]]; reflexivity|].
    split; reflexivity.
  - cbn. split; [reflexivity|]. split; [reflexivity|]. split; [reflexivity|].
    split; [discriminate|]. intros _.
    split; [apply issued_extension; exact W|].
    repeat split; reflexivity.
Qed.

Lemma abort_outcome_witness :
  let d := set_core (set_mount_sw idle_driver MOUNT_ABORT_MOTION_ITEM true)
             (set_lastMotionNS (set_sw idle_device MOUNT_MOTION_NORTH_ITEM true) "n") in
  let d1 := mount_abort_callback d in
  issued (core d) (core d1) = [":Q#"]
  /\ sw (core d1) MOUNT_MOTION_NORTH_ITEM = false
  /\ lastMotionNS (core d1) = "n"%char.
Proof.
  intros d d1.
  destruct (abort_outcome d eq_refl) as (_ & Kept & _ & Done & _).
  destruct (Done eq_refl) as (I & Off & _).
  split; [exact I|]. split; [apply Off; simpl; tauto | exact Kept].
Defined.

(* ------------------------------------------------------------------ *)
(** ** The guide rate *)

Lemma asi_set_guide_rate_shape device ra dec :
  exists p,
    asi_set_guide_rate device ra dec = (fst (drain (rx (port device))), set_port device p)
    /\ (fst (drain (rx (port device))) = false -> wire p = (wire (port device) ++ [])%list).
Proof.
  unfold asi_set_guide_rate. exchange. exists p. split; [reflexivity|].
  intros D. rewrite D in W. exact W.
Qed.

(** X23: one guide rate for both axes.  The callback copies the requested
    right ascension rate to the declination item; when the exchange gets
    past its flush it writes one command, which is one of [:Rg0.1#] to
    [:Rg0.9#] whatever rate was requested, and the property is OK; when the
    flush fails nothing is written and the property is in alert. *)
Theorem guide_rate_callback_one_rate d :
  let d1 := mount_guide_rate_callback d in
  let rate := mount_target d MOUNT_GUIDE_RATE_RA_ITEM in
  mount_value d1 MOUNT_GUIDE_RATE_RA_ITEM = rate
  /\ mount_target d1 MOUNT_GUIDE_RATE_DEC_ITEM = rate
  /\ mount_value d1 MOUNT_GUIDE_RATE_DEC_ITEM = rate
  /\ (fst (drain (rx (port (core d)))) = true ->
      (exists command,
          In command guide_rate_commands /\ issued (core d) (core d1) = [command])
      /\ mount_state d1 MOUNT_GUIDE_RATE_PROPERTY = INDIGO_OK_STATE)
  /\ (fst (drain (rx (port (core d)))) = false ->
      issued (core d) (core d1) = []
      /\ mount_state d1 MOUNT_GUIDE_RATE_PROPERTY = INDIGO_ALERT_STATE).
Proof.
  intros d1 rate. unfold d1, rate, mount_guide_rate_callback. clear d1 rate.
  cbn [core mount_target set_mount_value set_mount_target mount_number_beq].
  set (rate := Qtrunc (mount_target d MOUNT_GUIDE_RATE_RA_ITEM)).
  pose proof (asi_set_guide_rate_equal_rates (core d) rate) as Sent.
  destruct (asi_set_guide_rate_shape (core d) rate rate) as (p & E & W).
  rewrite E in Sent |- *. cbn [fst snd] in Sent. cbn.
  split; [reflexivity|]. split; [reflexivity|]. split; [reflexivity|].
  destruct (fst (drain (rx (port (core d))))).
  - split; [|discriminate]. intros _. split; [exact (Sent eq_refl) | reflexivity].
  - split; [discriminate|]. intros _. split; [|reflexivity].
    apply issued_extension. exact (W eq_refl).
Qed.

Lemma guide_rate_callback_one_rate_witness :
  let d := set_mount_target idle_driver MOUNT_GUIDE_RATE_RA_ITEM 200 in
  let d1 := mount_guide_rate_callback d in
  issued (core d) (core d1) = [":Rg0.9#"]
  /\ In ":Rg0.9#" guide_rate_commands
  /\ mount_state d1 MOUNT_GUIDE_RATE_PROPERTY = INDIGO_OK_STATE.
Proof.
  intros d d1.
  destruct (guide_rate_callback_one_rate d) as (_ & _ & _ & Sent & _).
  destruct (Sent eq_refl) as ((command & Hin & I) & Ok).
  assert (Hc : command = ":Rg0.9#").
  { assert (I' : [command] = [":Rg0.9#"]) by (rewrite <- I; vm_compute; reflexivity).
    injection I' as ->. reflexivity. }
  rewrite Hc in *.
  split; [exact I|]. split; [exact Hin | exact Ok].
Defined.

(* ------------------------------------------------------------------ *)
(** ** Guide pulses *)

Lemma asi_guide_dec_shape device north south :
  exists p,
    snd (asi_guide_dec device north south) = set_port device p
    /\ wire p
       = (wire (port device)
          ++ if north >? 0
             then if fst (drain (rx (port device)))
                  then [(":Mgn" ++ sprintf_d false 4 north ++ "#")%string] else []
             else if south >? 0
                  then if fst (drain (rx (port device)))
                       then [(":Mgs" ++ sprintf_d false 4 south ++ "#")%string] else []
                  else [])%list.
Proof.
  unfold asi_guide_dec.
  destruct (north >? 0); [|destruct (south >? 0)]; try exchange.
  - exists p. split; [reflexivity | exact W].
  - exists p. split; [reflexivity | exact W].
  - exists (port device). split; [destruct device; reflexivity | now rewrite app_nil_r].
Qed.

Lemma asi_guide_ra_shape device west east :
  exists p,
    snd (asi_guide_ra device west east) = set_port device p
    /\ wire p
       = (wire (port device)
          ++ if west >? 0
             then if fst (drain (rx (port device)))
                  then [(":Mgw" ++ sprintf_d false 4 west ++ "#")%string] else []
             else if east >? 0
                  then if fst (drain (rx (port device)))
                       then [(":Mge" ++ sprintf_d false 4 east ++ "#")%string] else []
                  else [])%list.
Proof.
  unfold asi_guide_ra.
  destruct (west >? 0); [|destruct (east >? 0)]; try exchange.
  - exists p. split; [reflexivity | exact W].
  - exists p. split; [reflexivity | exact W].
  - exists (port device). split; [destruct device; reflexivity | now rewrite app_nil_r].
Qed.

(** X24: a guide pulse is never reported as failed.  Whatever the link does,
    the guider callbacks leave their property OK, zero both durations and
    send one update without message.  North (west) wins when both durations
    are positive: the one command written, if the flush lets it through, is
    the pulse of that direction, its duration field reading back as the
    duration, and the callback sleeps a thousand times the duration (while
    that product fits an [int]); with no positive duration nothing is
    written and nothing slept. *)
Theorem guider_pulse_always_ok d :
  (let north := Qtrunc (mount_value d GUIDER_GUIDE_NORTH_ITEM) in
   let south := Qtrunc (mount_value d GUIDER_GUIDE_SOUTH_ITEM) in
   let d1 := guider_guide_dec_callback d in
   mount_state d1 GUIDER_GUIDE_DEC_PROPERTY = INDIGO_OK_STATE
   /\ mount_value d1 GUIDER_GUIDE_NORTH_ITEM = 0%Q
   /\ mount_value d1 GUIDER_GUIDE_SOUTH_ITEM = 0%Q
   /\ announced d1 = (announced d ++ [(GUIDER_GUIDE_DEC_PROPERTY, None)])%list
   /\ (0 < north <= 2147483 ->
       slept d1 = (slept d ++ [1000 * north])%list
       /\ exists field, atoi field = north
            /\ issued (core d) (core d1)
               = if fst (drain (rx (port (core d))))
                 then [":Mgn" ++ field ++ "#"] else [])
   /\ (north <= 0 -> 0 < south <= 2147483 ->
       slept d1 = (slept d ++ [1000 * south])%list
       /\ exists field, atoi field = south
            /\ issued (core d) (core d1)
               = if fst (drain (rx (port (core d))))
                 then [":Mgs" ++ field ++ "#"] else [])
   /\ (north <= 0 -> south <= 0 ->
       slept d1 = slept d /\ issued (core d) (core d1) = []))
  /\
  (let west := Qtrunc (mount_value d GUIDER_GUIDE_WEST_ITEM) in
   let east := Qtrunc (mount_value d GUIDER_GUIDE_EAST_ITEM) in
   let d1 := guider_guide_ra_callback d in
   mount_state d1 GUIDER_GUIDE_RA_PROPERTY = INDIGO_OK_STATE
   /\ mount_value d1 GUIDER_GUIDE_WEST_ITEM = 0%Q
   /\ mount_value d1 GUIDER_GUIDE_EAST_ITEM = 0%Q
   /\ announced d1 = (announced d ++ [(GUIDER_GUIDE_RA_PROPERTY, None)])%list
   /\ (0 < west <= 2147483 ->
       slept d1 = (slept d ++ [1000 * west])%list
       /\ exists field, atoi field = west
            /\ issued (core d) (core d1)
               = if fst (drain (rx (port (core d))))
                 then [":Mgw" ++ field ++ "#"] else [])
   /\ (west <= 0 -> 0 < east <= 2147483 ->
       slept d1 = (slept d ++ [1000 * east])%list
       /\ exists field, atoi field = east
            /\ issued (core d) (core d1)
               = if fst (drain (rx (port (core d))))
                 then [":Mge" ++ field ++ "#"] else [])
   /\ (west <= 0 -> east <= 0 ->
       slept d1 = slept d /\ issued (core d) (core d1) = [])).
Proof.
  split.
  - intros north south d1. unfold d1, guider_guide_dec_callback. fold north south.
    destruct (asi_guide_dec_shape (core d) north south) as (p & S & W).
    destruct (asi_guide_dec (core d) north south) as [result device].
    cbn [snd] in S. subst device.
    destruct (Z.gtb_spec north 0) as [Hn|Hn]; [|destruct (Z.gtb_spec south 0) as [Hs|Hs]];
      cbn; (split; [reflexivity|]); (split; [reflexivity|]);
      (split; [reflexivity|]); (split; [reflexivity|]).
    + split; [|split; intros; lia]. intros _. split; [reflexivity|].
      exists (sprintf_d false 4 north). split; [apply atoi_sprintf_d|].
      destruct (fst (drain (rx (port (core d))))); apply issued_extension; exact W.
    + split; [intros; lia|]. split; [|intros; lia]. intros _ _. split; [reflexivity|].
      exists (sprintf_d false 4 south). split; [apply atoi_sprintf_d|].
      destruct (fst (drain (rx (port (core d))))); apply issued_extension; exact W.
    + split; [intros; lia|]. split; [intros; lia|]. intros _ _. split; [reflexivity|].
      apply issued_extension; exact W.
  - intros west east d1. unfold d1, guider_guide_ra_callback. fold west east.
    destruct (asi_guide_ra_shape (core d) west east) as (p & S & W).
    destruct (asi_guide_ra (core d) west east) as [result device].
    cbn [snd] in S. subst device.
    destruct (Z.gtb_spec west 0) as [Hn|Hn]; [|destruct (Z.gtb_spec east 0) as [Hs|Hs]];
      cbn; (split; [reflexivity|]); (split; [reflexivity|]);
      (split; [reflexivity|]); (split; [reflexivity|]).
    + split; [|split; intros; lia]. intros _. split; [reflexivity|].
      exists (sprintf_d false 4 west). split; [apply atoi_sprintf_d|].
      destruct (fst (drain (rx (port (core d))))); apply issued_extension; exact W.
    + split; [intros; lia|]. split; [|intros; lia]. intros _ _. split; [reflexivity|].
      exists (sprintf_d false 4 east). split; [apply atoi_sprintf_d|].
      destruct (fst (drain (rx (port (core d))))); apply issued_extension; exact W.
    + split; [intros; lia|]. split; [intros; lia|]. intros _ _. split; [reflexivity|].
      apply issued_extension; exact W.
Qed.

Lemma guider_pulse_always_ok_witness :
  let d := set_core (set_mount_value (set_mount_value idle_driver GUIDER_GUIDE_NORTH_ITEM 250)
                       GUIDER_GUIDE_SOUTH_ITEM 400)
             (receiving idle_device [RxReadErr]) in
  let d1 := guider_guide_dec_callback d in
  0 < Qtrunc (mount_value d GUIDER_GUIDE_NORTH_ITEM) <= 2147483
  /\ fst (drain (rx (port (core d)))) = false
  /\ slept d1 = [250000]
  /\ mount_state d1 GUIDER_GUIDE_DEC_PROPERTY = INDIGO_OK_STATE.
Proof.
  intros d d1.
  assert (Hn : 0 < Qtrunc (mount_value d GUIDER_GUIDE_NORTH_ITEM) <= 2147483)
    by (split; [reflexivity | discriminate]).
  destruct (proj1 (guider_pulse_always_ok d)) as (Ok & _ & _ & _ & North & _).
  destruct (North Hn) as (Slept & _).
  split; [exact Hn|]. split; [reflexivity|]. split; [exact Slept | exact Ok].
Defined.

(* ------------------------------------------------------------------ *)
(** ** Detection *)

(** X25: which mounts are detected.  A mount that answers nothing to [:GVP#]
    is not detected, although the exchange itself succeeds: the product name
    is then empty.  A reply that begins with [AM] is detected exactly when
    its third byte is a digit, and a failed exchange is no detection and
    leaves the product name as it was. *)
Theorem asi_detect_mount_outcome d :
  (silent (rx (port (core d))) ->
   fst (asi_detect_mount d) = false
   /\ product (snd (asi_detect_mount d)) = EmptyString
   /\ issued (core d) (core (snd (asi_detect_mount d))) = [":GVP#"])
  /\ (forall c rest device,
        asi_command (core d) ":GVP#" BUFFER 128 0
        = (true, String "A" (String "M" (String c rest)), device) ->
        fst (asi_detect_mount d) = isdigit c)
  /\ (fst (fst (asi_command (core d) ":GVP#" BUFFER 128 0)) = false ->
      fst (asi_detect_mount d) = false
      /\ product (snd (asi_detect_mount d)) = product d).
Proof.
  split; [|split].
  - intros S. unfold asi_detect_mount.
    destruct (asi_command_silent (core d) ":GVP#" BUFFER 128 0 S) as (d' & E & _ & _ & W).
    rewrite E. cbn. split; [reflexivity|]. split; [reflexivity|].
    apply issued_extension. exact W.
  - intros c rest device E. unfold asi_detect_mount. rewrite E. cbn.
    destruct (Ascii.eqb c NUL) eqn:Hc; [|reflexivity].
    apply Ascii.eqb_eq in Hc. subst c. reflexivity.
  - unfold asi_detect_mount.
    destruct (asi_command (core d) ":GVP#" BUFFER 128 0) as [[result response] device].
    cbn [fst]. intros ->. split; reflexivity.
Qed.

Lemma asi_detect_mount_outcome_witness :
  let quiet := set_core idle_driver (receiving idle_device [RxQuiet; RxQuiet]) in
  let zwo := set_core idle_driver (receiving idle_device (reply "AM5")) in
  let broken := set_core (set_product idle_driver "AM3") (receiving idle_device [RxSelErr]) in
  (silent (rx (port (core quiet))) /\ fst (asi_detect_mount quiet) = false)
  /\ fst (asi_detect_mount zwo) = true
  /\ (fst (asi_detect_mount broken) = false
      /\ product (snd (asi_detect_mount broken)) = "AM3").
Proof.
  intros quiet zwo broken.
  assert (S : silent (rx (port (core quiet)))) by (repeat constructor).
  split; [|split].
  - split; [exact S|]. exact (proj1 (proj1 (asi_detect_mount_outcome quiet) S)).
  - exact (proj1 (proj2 (asi_detect_mount_outcome zwo)) "5"%char EmptyString
             (snd (asi_command (core zwo) ":GVP#" BUFFER 128 0)) eq_refl).
  - exact (proj2 (proj2 (asi_detect_mount_outcome broken)) eq_refl).
Defined.

(* ------------------------------------------------------------------ *)
(** ** Going to coordinates *)

Lemma asi_set_tracking_rate_core d :
  exists c p,
    snd (asi_set_tracking_rate d) = set_core (set_lastTrackRate d c) (set_port (core d) p)
    /\ (fst (asi_set_tracking_rate d) = false -> wire p = wire (port (core d))).
Proof.
  assert (Same : d = set_core (set_lastTrackRate d (lastTrackRate d)) (set_port (core d) (port (core d)))).
  { destruct d as [[[] ] ]; reflexivity. }
  unfold asi_set_tracking_rate.
  repeat match goal with
         | |- context [if ?b && negb ?e then _ else _] => destruct (b && negb e)
         end;
    try (cbn [core set_lastTrackRate]; exchange; cbn [fst snd];
         eexists _, p; split; [reflexivity|];
         intros D; rewrite D, app_nil_r in W; exact W).
  exists (lastTrackRate d), (port (core d)). cbn [fst snd].
  split; [exact Same | discriminate].
Qed.

Section GotoCallback.
Context `{Host}.
Variable indigo_j2k_to_eq : Q -> Q * Q -> Q * Q.

Lemma asi_slew_frame device ra dec :
  snd (asi_slew device ra dec) = set_port device (port (snd (asi_slew device ra dec))).
Proof.
  unfold asi_slew.
  destruct (asi_command device _ BUFFER 128 0) as [[r1 s1] d1] eqn:E1.
  apply asi_command_cases in E1 as [F1 _].
  destruct (negb (accepted r1 s1 "1")); [exact F1|].
  destruct (asi_command d1 _ BUFFER 128 0) as [[r2 s2] d2] eqn:E2.
  apply asi_command_cases in E2 as [F2 _]. rewrite F1 in F2.
  destruct (negb (accepted r2 s2 "1")); [exact F2|].
  destruct (asi_command d2 _ BUFFER 128 100000) as [[r3 s3] d3] eqn:E3.
  apply asi_command_cases in E3 as [F3 _]. rewrite F2 in F3.
  destruct (negb (accepted r3 s3 "0")); exact F3.
Qed.

Lemma asi_sync_frame device ra dec :
  snd (asi_sync device ra dec) = set_port device (port (snd (asi_sync device ra dec))).
Proof.
  unfold asi_sync.
  destruct (asi_command device _ BUFFER 128 0) as [[r1 s1] d1] eqn:E1.
  apply asi_command_cases in E1 as [F1 _].
  destruct (negb (accepted r1 s1 "1")); [exact F1|].
  destruct (asi_command d1 _ BUFFER 128 0) as [[r2 s2] d2] eqn:E2.
  apply asi_command_cases in E2 as [F2 _]. rewrite F1 in F2.
  destruct (negb (accepted r2 s2 "1")); [exact F2|].
  destruct (asi_command d2 _ BUFFER 128 100000) as [[r3 s3] d3] eqn:E3.
  apply asi_command_cases in E3 as [F3 _]. rewrite F2 in F3.
  destruct (negb r3 || Ascii.eqb (deref s3) "e"); exact F3.
Qed.

(** X26: an alert after a goto or a sync always says why.  With the track or
    the sync mode on, a callback that leaves the coordinates in alert has
    sent its update with a message that is not empty; a callback that does
    not leave them in alert has sent it without message.  In track mode a
    failed track rate exchange ends in alert with "Slew failed", no target
    and no slew command written. *)
Theorem goto_alert_has_message d :
  let d1 := mount_eq_coords_callback indigo_j2k_to_eq d in
  let alert := state (core d1) MOUNT_EQUATORIAL_COORDINATES_PROPERTY = INDIGO_ALERT_STATE in
  (mount_sw d MOUNT_ON_COORDINATES_SET_TRACK_ITEM
   || mount_sw d MOUNT_ON_COORDINATES_SET_SYNC_ITEM = true ->
   alert ->
   exists message,
     deref message <> NUL
     /\ published (core d1)
        = (published (core d)
           ++ [(MOUNT_EQUATORIAL_COORDINATES_PROPERTY, Some message)])%list)
  /\ (~ alert ->
      published (core d1)
      = (published (core d) ++ [(MOUNT_EQUATORIAL_COORDINATES_PROPERTY, None)])%list)
  /\ (mount_sw d MOUNT_ON_COORDINATES_SET_TRACK_ITEM = true ->
      fst (asi_set_tracking_rate d) = false ->
      alert
      /\ issued (core d) (core d1) = []
      /\ published (core d1)
         = (published (core d)
            ++ [(MOUNT_EQUATORIAL_COORDINATES_PROPERTY, Some "Slew failed")])%list).
Proof.
  intros d1 alert. unfold alert, d1, mount_eq_coords_callback. clear alert d1.
  destruct (indigo_j2k_to_eq _ _) as [ra dec].
  destruct (mount_sw d MOUNT_ON_COORDINATES_SET_TRACK_ITEM) eqn:Track.
  - destruct (asi_set_tracking_rate_core d) as (c & p & S & Failed).
    destruct (asi_set_tracking_rate d) as [rate d0]. cbn [fst snd] in S, Failed. subst d0.
    destruct rate.
    + cbn [core set_core].
      pose proof (asi_slew_frame (set_port (core d) p) ra dec) as F.
      destruct (asi_slew (set_port (core d) p) ra dec) as [[result code] device].
      cbn [snd] in F. rewrite F. cbn [set_port port].
      destruct result.
      * cbn. split; [intros _ A; discriminate A|].
        split; [reflexivity | intros _ A; discriminate A].
      * cbn [fst snd]. 
        generalize (asi_error_string code). intros message.
        destruct (Ascii.eqb (deref message) NUL) eqn:M.
        -- cbn. split; [intros _ _; eexists; split; [|reflexivity]; discriminate|].
           split; [intros A; destruct A; reflexivity | intros _ A; discriminate A].
        -- rewrite M. cbn.
           split; [intros _ _; eexists; split; [|reflexivity]|].
           ++ intros E. rewrite E in M. discriminate M.
           ++ split; [intros A; destruct A; reflexivity | intros _ A; discriminate A].
    + cbn. split; [intros _ _; eexists; split; [|reflexivity]; discriminate|].
      split; [intros A; destruct A; reflexivity|].
      intros _ _. split; [reflexivity|]. split; [|reflexivity].
      apply issued_extension. cbn. rewrite (Failed eq_refl). now rewrite app_nil_r.
  - destruct (mount_sw d MOUNT_ON_COORDINATES_SET_SYNC_ITEM) eqn:Sync.
    + pose proof (asi_sync_frame (core d) ra dec) as F.
      destruct (asi_sync (core d) ra dec) as [[result code] device].
      cbn [snd] in F. rewrite F.
      destruct result.
      * cbn. split; [intros _ A; discriminate A|].
        split; [reflexivity | intros A; discriminate A].
      * cbn [fst snd].
        generalize (asi_error_string code). intros message.
        destruct (Ascii.eqb (deref message) NUL) eqn:M.
        -- cbn. split; [intros _ _; eexists; split; [|reflexivity]; discriminate|].
           split; [intros A; destruct A; reflexivity | intros A; discriminate A].
        -- rewrite M. cbn.
           split; [intros _ _; eexists; split; [|reflexivity]|].
           ++ intros E. rewrite E in M. discriminate M.
           ++ split; [intros A; destruct A; reflexivity | intros A; discriminate A].
    + cbn. split; [intros A; discriminate A|].
      split; [reflexivity | intros A; discriminate A].
Qed.

End GotoCallback.

Lemma goto_alert_has_message_witness :
  let d := set_core (set_mount_sw (set_mount_sw idle_driver MOUNT_ON_COORDINATES_SET_TRACK_ITEM true)
                       MOUNT_TRACK_RATE_LUNAR_ITEM true)
             (receiving idle_device [RxSelErr]) in
  let d1 := mount_eq_coords_callback (H := reference_host) (fun _ coordinates => coordinates) d in
  state (core d1) MOUNT_EQUATORIAL_COORDINATES_PROPERTY = INDIGO_ALERT_STATE
  /\ issued (core d) (core d1) = []
  /\ published (core d1)
     = (published (core d)
        ++ [(MOUNT_EQUATORIAL_COORDINATES_PROPERTY, Some "Slew failed")])%list.
Proof.
  intros d d1.
  exact (proj2 (proj2 (goto_alert_has_message (H := reference_host)
                         (fun _ coordinates => coordinates) d)) eq_refl eq_refl).
Defined.

(* ------------------------------------------------------------------ *)
(** ** Coordinates that could not be read, and a closed port *)

Section TickCoordinates.
Context `{Host}.

Lemma poll_utc_number d : number (poll_utc d) = number d.
Proof.
  unfold poll_utc.
  destruct (asi_get_utc_wrote d 0 0) as [F _].
  destruct (asi_get_utc d 0 0) as [[[res secs] utc_offset] d']. simpl in F |- *.
  destruct res; rewrite F; reflexivity.
Qed.

(** X27: a failed coordinate read changes no number.  When [:GR#] is
    answered and [:GD#] fails, [asi_get_coordinates] has already
    overwritten the right ascension of its caller and left the declination;
    the tick discards both: after a tick whose coordinate read failed every
    number item holds the value it had, and the last coordinates recorded
    are those old values. *)
Theorem coordinate_read_failure_keeps_items device :
  (forall r d1 r2 d2 ra dec,
      asi_command device ":GR#" BUFFER 128 0 = (true, r, d1) ->
      asi_command d1 ":GD#" BUFFER 128 0 = (false, r2, d2) ->
      asi_get_coordinates device ra dec = (false, indigo_stod r, dec, d2))
  /\ (handle device > 0 ->
      fst (poll_coordinates device) = false ->
      let device' := position_timer_callback device in
      number device' = number device
      /\ lastRA device' = number device MOUNT_EQUATORIAL_COORDINATES_RA_ITEM
      /\ lastDec device' = number device MOUNT_EQUATORIAL_COORDINATES_DEC_ITEM).
Proof.
  split.
  - intros r d1 r2 d2 ra dec E1 E2. unfold asi_get_coordinates. rewrite E1, E2. reflexivity.
  - intros Hh Hc device'. unfold device', position_timer_callback.
    destruct (Z.gtb_spec (handle device) 0); [|lia].
    assert (N : number (snd (poll_coordinates device)) = number device).
    { unfold poll_coordinates in *.
      destruct (asi_get_coordinates_wrote device 0 0) as [F _].
      destruct (asi_get_coordinates device 0 0) as [[[ok ra] dec] d0]. simpl in F, Hc |- *.
      destruct ok.
      - destruct (indigo_eq_to_j2k _ _); discriminate Hc.
      - rewrite F. reflexivity. }
    destruct (poll_coordinates device) as [ok d1]. cbn [fst snd] in Hc, N. subst ok.
    cbn [poll_status poll_pier_side]. unfold poll_finish. cbn [negb].
    set (d2 := indigo_update_coordinates _ None).
    assert (N2 : number d2 = number device) by (rewrite <- N; reflexivity).
    split; [cbn; rewrite poll_utc_number; exact N2|].
    assert (L : lastRA (poll_utc d2) = lastRA d2 /\ lastDec (poll_utc d2) = lastDec d2).
    { unfold poll_utc.
      destruct (asi_get_utc_wrote d2 0 0) as [F _].
      destruct (asi_get_utc d2 0 0) as [[[res secs] utc_offset] d']. simpl in F |- *.
      destruct res; rewrite F; split; reflexivity. }
    destruct L as [La Ld]. cbn. rewrite La, Ld. cbn. rewrite N. split; reflexivity.
Qed.

(** X28: a closed port is not polled.  [asi_close] leaves no open handle and
    closing twice is closing once; a tick that runs after the close writes
    nothing, publishes nothing and does not reschedule itself. *)
Theorem closed_port_is_not_polled device :
  handle (asi_close device) <= 0
  /\ asi_close (asi_close device) = asi_close device
  /\ position_timer_callback (asi_close device) = asi_close device.
Proof.
  unfold asi_close, position_timer_callback.
  destruct (Z.gtb_spec (handle device) 0) as [Hh|Hh]; cbn [handle].
  - split; [lia|]. split; reflexivity.
  - destruct (Z.gtb_spec (handle device) 0); [lia|].
    split; [exact Hh|]. split; reflexivity.
Qed.

End TickCoordinates.

Lemma coordinate_read_failure_keeps_items_witness :
  let device := receiving idle_device (reply "05:00:00" ++ [RxQuiet; RxReadErr]) in
  let device' := position_timer_callback (H := reference_host) device in
  fst (poll_coordinates (H := reference_host) device) = false
  /\ number device' = number device
  /\ lastRA device' = number device MOUNT_EQUATORIAL_COORDINATES_RA_ITEM.
Proof.
  intros device device'.
  assert (Hc : fst (poll_coordinates (H := reference_host) device) = false)
    by (vm_compute; reflexivity).
  assert (Hh : handle device > 0) by reflexivity.
  destruct (proj2 (coordinate_read_failure_keeps_items (H := reference_host) device) Hh Hc)
    as (N & R & _).
  split; [exact Hc|]. split; [exact N | exact R].
Defined.
